(** * EduFlow AI dashboard: camera capture workflow, gateway and session store

    A shallow embedding of the browser-side attendance client:
    - the confidence classification of [MarkAttendance] (status, text colour,
      bar colour);
    - the gateway's error normalisation ([requestJson], [handleApiError]);
    - the session helpers [auth] over [localStorage] and [decodeJWT];
    - the capture-and-submit workflow of the [MarkAttendance] screen and the
      capture and submit handlers of the [StudentTraining] screen.

    JavaScript numbers are IEEE-754 binary64 values; they are modelled with
    the Standard Library's [spec_float], whose comparison [SFcompare] is the
    comparison the language performs.  Component state is a record, handlers
    are functions from a state to a state and the list of effects they
    request, and asynchronous continuations are events of a step function. *)

From Stdlib Require Import ZArith String Ascii List Bool Lia.
From Stdlib Require Import Floats.SpecFloat.
From stdpp Require Import gmap strings list pretty.

Set Warnings "-register-all".

Local Open Scope string_scope.
Local Open Scope Z_scope.

(** ** JavaScript numbers and relational operators *)

Module Js.

(** [a >= b]: the result of the abstract comparison [a < b] is negated,
    and an undefined comparison (a NaN operand) gives [false]. *)
Definition ge (a b : spec_float) : bool :=
  match SFcompare a b with
  | Some Lt => false
  | Some _ => true
  | None => false
  end.

(** [a < b]. *)
Definition lt (a b : spec_float) : bool :=
  match SFcompare a b with
  | Some Lt => true
  | _ => false
  end.

(** The literal [0.85]: the binary64 value 0x1.b333333333333p-1. *)
Definition lit_0_85 : spec_float := S754_finite false 7656119366529843 (-53).

(** The literal [0.7]: the binary64 value 0x1.6666666666666p-1. *)
Definition lit_0_7 : spec_float := S754_finite false 6305039478318694 (-53).

(** The literal [0.9]: the binary64 value 0x1.ccccccccccccdp-1. *)
Definition lit_0_9 : spec_float := S754_finite false 8106479329266893 (-53).

(** The literals [0.95] and [0.6], used in the examples. *)
Definition lit_0_95 : spec_float := S754_finite false 8556839292003942 (-53).
Definition lit_0_6 : spec_float := S754_finite false 5404319552844595 (-53).

Definition is_nan (a : spec_float) : bool :=
  match a with S754_nan => true | _ => false end.

End Js.

(** ** Confidence classification (MarkAttendance) *)

Module Confidence.

(** [status: 'success' | 'warning' | 'error'] of a [DetectedStudent]. *)
Inductive Status := success | warning | error.

(** The status assigned to a detection in [captureAndProcess]:
    [s.confidence >= 0.85 ? 'success' : s.confidence >= 0.7 ? 'warning' : 'error']. *)
Definition statusOf (confidence : spec_float) : Status :=
  if Js.ge confidence Js.lit_0_85 then success
  else if Js.ge confidence Js.lit_0_7 then warning
  else error.

Definition getConfidenceColor (confidence : spec_float) : string :=
  if Js.ge confidence Js.lit_0_85 then "text-success"
  else if Js.ge confidence Js.lit_0_7 then "text-warning"
  else "text-destructive".

Definition getConfidenceBarColor (confidence : spec_float) : string :=
  if Js.ge confidence Js.lit_0_85 then "bg-success"
  else if Js.ge confidence Js.lit_0_7 then "bg-warning"
  else "bg-destructive".

End Confidence.

(** ** JSON values, thrown errors *)

Module Json.

(** A parsed JSON document.  An object lists its own properties, keys
    distinct, as [JSON.parse] leaves them. *)
Inductive json :=
| JNull
| JBool (b : bool)
| JNum (x : spec_float)
| JStr (s : string)
| JArr (items : list json)
| JObj (fields : list (string * json)).

(** A JavaScript value read out of a document: [None] is [undefined]. *)
Definition value := option json.

(** ToBoolean. *)
Definition truthy (v : value) : bool :=
  match v with
  | None => false
  | Some JNull => false
  | Some (JBool b) => b
  | Some (JNum (S754_zero _)) => false
  | Some (JNum S754_nan) => false
  | Some (JNum _) => true
  | Some (JStr s) => negb (String.eqb s "")
  | Some (JArr _) => true
  | Some (JObj _) => true
  end.

Fixpoint assoc (k : string) (fields : list (string * json)) : value :=
  match fields with
  | [] => None
  | (k', v) :: rest => if String.eqb k k' then Some v else assoc k rest
  end.

(** [j.k] for a value [j] that is neither [null] nor [undefined], and a
    key [k] that is not a built-in property of strings or arrays (the
    gateway reads [detail], [message] and [msg]). *)
Definition prop (k : string) (j : json) : value :=
  match j with
  | JObj fields => assoc k fields
  | _ => None
  end.

(** [j[0]] for a value [j] that is neither [null] nor [undefined]. *)
Definition index0 (j : json) : value :=
  match j with
  | JArr items => head items
  | JObj fields => assoc "0" fields
  | JStr (String c _) => Some (JStr (String c EmptyString))
  | _ => None
  end.

(** [v?.k] and [v?.[0]]. *)
Definition opt_prop (k : string) (v : value) : value :=
  match v with
  | None | Some JNull => None
  | Some j => prop k j
  end.

Definition opt_index0 (v : value) : value :=
  match v with
  | None | Some JNull => None
  | Some j => index0 j
  end.

(** [v ?? d]. *)
Definition nullish_or (v : value) (d : json) : json :=
  match v with
  | None | Some JNull => d
  | Some j => j
  end.

(** [v || d]. *)
Definition falsy_or (v : value) (d : json) : json :=
  match v with
  | Some j => if truthy v then j else d
  | None => d
  end.

End Json.

Module Exn.
Import Json.

Inductive ErrorName := Error | TypeError | SyntaxError | URIError | DOMException.

(** A thrown error object; [message] is the value its constructor was
    given (the constructor applies ToString, the identity on strings). *)
Record JsError := mkError { name : ErrorName; message : json }.

Inductive Result (A : Type) :=
| Return (a : A)
| Throw (e : JsError).
Arguments Return {A} a.
Arguments Throw {A} e.

#[global] Instance result_ret : MRet Result := fun A a => Return a.

#[global] Instance result_bind : MBind Result := fun A B k r =>
  match r with
  | Return a => k a
  | Throw e => Throw e
  end.

(** [try { r } catch (e) { handler e }]. *)
Definition try_catch {A} (r : Result A) (handler : JsError -> Result A) : Result A :=
  match r with
  | Return a => Return a
  | Throw e => handler e
  end.

Definition instanceof_TypeError (e : JsError) : bool :=
  match name e with TypeError => true | _ => false end.

End Exn.

(** ** Backend gateway: error normalisation *)

Module Api.
Import Json Exn.

(** What the gateway reads of a [Response]: the status and the outcome of
    [res.json()]. *)
Record Response := { status : nat; json_body : Result json }.

(** [res.ok]: the status is in the range 200-299. *)
Definition ok (res : Response) : bool :=
  ((200 <=? status res) && (status res <=? 299))%nat.

Inductive FetchOutcome :=
| Rejects (e : JsError)
| Resolves (res : Response).

Definition buildFetchErrorHint (url : string) : string :=
  let base := "Network error calling " ++ url ++ "." in
  let hint :=
    " Check VITE_API_URL, backend is running, CORS allows this origin, and avoid HTTPS→HTTP mixed content (use https backend or a tunnel like ngrok)." in
  base ++ hint.

(** The message computed by [requestJson] and [requestFormData] for a
    response that is not ok. *)
Definition failureMessage (res : Response) : json :=
  let message := JStr ("Request failed (" ++ pretty (status res) ++ ")") in
  match json_body res with
  | Throw _ => message
  | Return body =>
      let detail := opt_prop "detail" (Some body) in
      if truthy detail then
        match detail with
        | Some (JStr s) => JStr s
        | _ => nullish_or (opt_prop "msg" (opt_index0 detail)) message
        end
      else
        match opt_prop "message" (Some body) with
        | Some m => if truthy (Some m) then m else message
        | None => message
        end
  end.

(** The body shared by [requestJson] and [requestFormData], after
    [fetch]. *)
Definition request (url : string) (fetched : FetchOutcome) : Result json :=
  try_catch
    match fetched with
    | Rejects e => Throw e
    | Resolves res =>
        if negb (ok res) then Throw (mkError Error (failureMessage res))
        else json_body res
    end
    (fun e =>
       if instanceof_TypeError e
       then Throw (mkError Error (JStr (buildFetchErrorHint url)))
       else Throw e).

Definition requestJson := request.
Definition requestFormData := request.

(** The second gateway module's helper.  [errorData.detail] throws a
    TypeError on [null], which the [catch] swallows. *)
Definition handleApiError_message (res : Response) (fallbackMessage : string) : json :=
  let errorMessage := JStr fallbackMessage in
  match json_body res with
  | Throw _ => errorMessage
  | Return JNull => errorMessage
  | Return errorData =>
      let detail := prop "detail" errorData in
      if truthy detail then
        match detail with
        | Some (JStr s) => JStr s
        | Some d => falsy_or (opt_prop "msg" (index0 d)) (JStr fallbackMessage)
        | None => errorMessage
        end
      else errorMessage
  end.

Definition handleApiError (res : Response) (fallbackMessage : string) : Result json :=
  if negb (ok res) then Throw (mkError Error (handleApiError_message res fallbackMessage))
  else json_body res.

End Api.

(** ** Session helpers over localStorage *)

Module Auth.
Import Json Exn.

Inductive Role := ADMIN | TEACHER | STUDENT.

Record User := { id : Z; email : string; role : Role; name : option string }.

Section WithPlatform.
(** [JSON.stringify] on a [User] and [JSON.parse], as the platform
    provides them. *)
Variable JSON_stringify : User -> string.
Variable JSON_parse : string -> Result json.

(** [localStorage]: a finite map from keys to strings. *)
Definition getItem (key : string) (ls : gmap string string) : option string :=
  ls !! key.

Definition setItem (key value : string) (ls : gmap string string) : gmap string string :=
  <[key := value]> ls.

Definition removeItem (key : string) (ls : gmap string string) : gmap string string :=
  delete key ls.

(** ToBoolean of [getItem]'s result: [null] and the empty string are
    falsy. *)
Definition item_truthy (item : option string) : bool :=
  match item with
  | Some s => negb (String.eqb s "")
  | None => false
  end.

Definition isAuthenticated (ls : gmap string string) : bool :=
  item_truthy (getItem "access_token" ls).

Definition getToken (ls : gmap string string) : option string :=
  getItem "access_token" ls.

(** [getUser]: [JNull] is [null]. *)
Definition getUser (ls : gmap string string) : Result json :=
  let user := getItem "user" ls in
  match user with
  | Some u => if item_truthy user then JSON_parse u else Return JNull
  | None => Return JNull
  end.

Definition setAuth (token : string) (user : User) (ls : gmap string string)
  : gmap string string :=
  setItem "user" (JSON_stringify user) (setItem "access_token" token ls).

Definition logout (ls : gmap string string) : gmap string string :=
  removeItem "user" (removeItem "access_token" ls).
End WithPlatform.

End Auth.

(** ** decodeJWT *)

Module Jwt.
Import Json Exn.

(** [s.split('.')]: never empty. *)
Fixpoint split_dot (s : string) : list string :=
  match s with
  | EmptyString => [EmptyString]
  | String c rest =>
      if Ascii.eqb c "."%char then EmptyString :: split_dot rest
      else match split_dot rest with
           | seg :: segs => String c seg :: segs
           | [] => [String c EmptyString]
           end
  end.

(** [s.replace(/a/g, b)] for single characters. *)
Fixpoint replace_all (a b : ascii) (s : string) : string :=
  match s with
  | EmptyString => EmptyString
  | String c rest => String (if Ascii.eqb c a then b else c) (replace_all a b rest)
  end.

Definition hex_digit (n : N) : ascii :=
  match n with
  | 0 => "0" | 1 => "1" | 2 => "2" | 3 => "3" | 4 => "4" | 5 => "5"
  | 6 => "6" | 7 => "7" | 8 => "8" | 9 => "9" | 10 => "a" | 11 => "b"
  | 12 => "c" | 13 => "d" | 14 => "e" | _ => "f"
  end%N%char.

(** [n.toString(16)] for a character code below 256. *)
Definition toString16 (n : N) : string :=
  if (n <? 16)%N then String (hex_digit n) EmptyString
  else String (hex_digit (n / 16)) (String (hex_digit (n mod 16)) EmptyString).

(** [s.slice(-2)]. *)
Definition slice_last2 (s : string) : string :=
  let n := String.length s in
  String.substring (n - 2) 2 s.

(** [c => '%' + ('00' + c.charCodeAt(0).toString(16)).slice(-2)]. *)
Definition percent (c : ascii) : string :=
  "%" ++ slice_last2 ("00" ++ toString16 (N_of_ascii c)).

(** [s.split('').map(percent).join('')]. *)
Fixpoint percent_encode (s : string) : string :=
  match s with
  | EmptyString => EmptyString
  | String c rest => percent c ++ percent_encode rest
  end.

Section WithPlatform.
(** [atob], [decodeURIComponent] and [JSON.parse]; each may throw. *)
Variable atob : string -> Result string.
Variable decodeURIComponent : string -> Result string.
Variable JSON_parse : string -> Result json.

(** The body of the [try] block.  [base64Url] is [undefined] when the
    token has no dot, and calling [replace] on it throws a TypeError. *)
Definition decodeJWT_try (token : string) : Result json :=
  let base64Url := split_dot token !! 1%nat in
  base64 ← match base64Url with
           | Some s => Return (replace_all "_" "/" (replace_all "-" "+" s))
           | None => Throw (mkError TypeError (JStr "base64Url is undefined"))
           end;
  binary ← atob base64;
  jsonPayload ← decodeURIComponent (percent_encode binary);
  JSON_parse jsonPayload.

(** [decodeJWT]: [JNull] is [null]. *)
Definition decodeJWT (token : string) : Result json :=
  try_catch (decodeJWT_try token) (fun _ => Return JNull).

End WithPlatform.

(** [s.includes(c)] for a character. *)
Fixpoint contains (c : ascii) (s : string) : bool :=
  match s with
  | EmptyString => false
  | String c' rest => Ascii.eqb c' c || contains c rest
  end.

(** The value of a lowercase hexadecimal digit. *)
Definition hex_value (c : ascii) : option N :=
  let n := N_of_ascii c in
  if ((48 <=? n) && (n <=? 57))%N then Some (n - 48)%N
  else if ((97 <=? n) && (n <=? 102))%N then Some (n - 87)%N
  else None.

(** Reading back a text made of [%xx] triples, byte by byte. *)
Fixpoint percent_bytes (s : string) : option string :=
  match s with
  | EmptyString => Some EmptyString
  | String p (String h (String l rest)) =>
      if Ascii.eqb p "%"%char then
        match hex_value h, hex_value l, percent_bytes rest with
        | Some hi, Some lo, Some bytes =>
            Some (String (ascii_of_N (hi * 16 + lo)) bytes)
        | _, _, _ => None
        end
      else None
  | _ => None
  end.


(** A character of the base64url alphabet. *)
Definition base64url_char (c : ascii) : bool :=
  let n := N_of_ascii c in
  ((65 <=? n) && (n <=? 90) || (97 <=? n) && (n <=? 122) ||
   (48 <=? n) && (n <=? 57) || (n =? 45) || (n =? 95))%N.

Fixpoint base64url_text (s : string) : bool :=
  match s with
  | EmptyString => true
  | String c rest => base64url_char c && base64url_text rest
  end.

(** Following the claim's words, not the code: a well-formed JWT is three
    dot-separated segments (header, payload, signature), each a non-empty
    base64url text.  [decodeJWT] does not compute this. *)
Definition wellFormedJWT (token : string) : bool :=
  match split_dot token with
  | [header; payload; signature] =>
      forallb (fun seg => negb (String.eqb seg "") && base64url_text seg)
              [header; payload; signature]
  | _ => false
  end.

End Jwt.


(** ** Browser objects the screens hold *)

Module Dom.

(** A hardware track is named by a number; a [MediaStream] is the list
    [getTracks()] returns.  Which tracks are live is part of the screen's
    state ([live]), so that two references to one stream see the same
    tracks. *)
Record Video := {
  srcObject : option (list nat);
  readyState : Z;
  videoWidth : Z;
  videoHeight : Z;
  currentFrame : nat
}.

(** The bitmap of a canvas: blank, or a drawn video frame (mirrored or
    not). *)
Inductive Bitmap :=
| Blank
| Drawn (frame : nat) (mirrored : bool).

Record Canvas := {
  width : Z;
  height : Z;
  bitmap : Bitmap;
  context2d : bool
}.

(** An encoded image, the result of [toDataURL] or [toBlob]: the type and
    quality arguments ([None]: not given) and the canvas encoded. *)
Record Encoded := {
  mime : string;
  quality : option spec_float;
  pixels : Canvas
}.

Record File := {
  fileName : string;
  fileType : string;
  content : Encoded
}.

Inductive ToastLevel := toast_error | toast_warning | toast_success | toast_info.

(** [canvas.width = w; canvas.height = h]: sizing a canvas clears it. *)
Definition resize (w h : Z) (c : Canvas) : Canvas :=
  {| width := w; height := h; bitmap := Blank; context2d := context2d c |}.

(** [ctx.drawImage(video, 0, 0)], optionally under a horizontal flip. *)
Definition drawImage (video : Video) (mirrored : bool) (c : Canvas) : Canvas :=
  {| width := width c; height := height c;
     bitmap := Drawn (currentFrame video) mirrored; context2d := context2d c |}.

Definition encode (type : string) (q : option spec_float) (c : Canvas) : Encoded :=
  {| mime := type; quality := q; pixels := c |}.

(** [stream.getTracks().forEach((t) => t.stop())] on the live tracks. *)
Definition stopTracks (stream : list nat) (live : gset nat) : gset nat :=
  live ∖ list_to_set stream.

End Dom.

(** ** Wire types of the attendance endpoint *)

Module Wire.

Record Entry := {
  student_id : Z;
  name : option string;
  roll_no : option string;
  confidence : spec_float
}.

(** [students_present] is [None] when the field is missing or null. *)
Record AttendanceResult := {
  status : string;
  count : Z;
  students_present : option (list Entry)
}.

(** A caught value: an [Error] with its message, or something else. *)
Inductive Thrown :=
| ThrownError (message : string)
| ThrownOther.

(** [err instanceof Error ? err.message : fallback]. *)
Definition messageOr (fallback : string) (err : Thrown) : string :=
  match err with
  | ThrownError message => message
  | ThrownOther => fallback
  end.

(** The outcome of awaiting [api.markAttendance]. *)
Inductive Outcome :=
| Resolved (result : AttendanceResult)
| Rejected (err : Thrown).

End Wire.

(** ** The MarkAttendance screen *)

Module MarkAttendance.
Import Dom Confidence.

Record DetectedStudent := {
  student_id : Z;
  name : option string;
  roll_no : option string;
  confidence : spec_float;
  status : Status
}.

Record Subject := {
  subject_id : Z;
  subject_name : string;
  subject_class : string;
  total_classes : Z
}.

(** Component state ([useState]), refs ([useRef]) and the hardware tracks
    that are live. *)
Record State := {
  isCameraActive : bool;
  isProcessing : bool;
  capturedImage : option Encoded;
  detectedStudents : list DetectedStudent;
  selectedSubject : option Z;
  subjects : list Subject;
  showSuccess : bool;
  error : option string;
  videoRef : option Video;
  canvasRef : option Canvas;
  streamRef : option (list nat);
  live : gset nat
}.

Definition set_isCameraActive (x : bool) (s : State) : State :=
  {| isCameraActive := x; isProcessing := isProcessing s; capturedImage := capturedImage s;
     detectedStudents := detectedStudents s; selectedSubject := selectedSubject s; subjects := subjects s;
     showSuccess := showSuccess s; error := error s; videoRef := videoRef s;
     canvasRef := canvasRef s; streamRef := streamRef s; live := live s |}.

Definition set_isProcessing (x : bool) (s : State) : State :=
  {| isCameraActive := isCameraActive s; isProcessing := x; capturedImage := capturedImage s;
     detectedStudents := detectedStudents s; selectedSubject := selectedSubject s; subjects := subjects s;
     showSuccess := showSuccess s; error := error s; videoRef := videoRef s;
     canvasRef := canvasRef s; streamRef := streamRef s; live := live s |}.

Definition set_capturedImage (x : option Encoded) (s : State) : State :=
  {| isCameraActive := isCameraActive s; isProcessing := isProcessing s; capturedImage := x;
     detectedStudents := detectedStudents s; selectedSubject := selectedSubject s; subjects := subjects s;
     showSuccess := showSuccess s; error := error s; videoRef := videoRef s;
     canvasRef := canvasRef s; streamRef := streamRef s; live := live s |}.

Definition set_detectedStudents (x : list DetectedStudent) (s : State) : State :=
  {| isCameraActive := isCameraActive s; isProcessing := isProcessing s; capturedImage := capturedImage s;
     detectedStudents := x; selectedSubject := selectedSubject s; subjects := subjects s;
     showSuccess := showSuccess s; error := error s; videoRef := videoRef s;
     canvasRef := canvasRef s; streamRef := streamRef s; live := live s |}.

Definition set_selectedSubject (x : option Z) (s : State) : State :=
  {| isCameraActive := isCameraActive s; isProcessing := isProcessing s; capturedImage := capturedImage s;
     detectedStudents := detectedStudents s; selectedSubject := x; subjects := subjects s;
     showSuccess := showSuccess s; error := error s; videoRef := videoRef s;
     canvasRef := canvasRef s; streamRef := streamRef s; live := live s |}.

Definition set_subjects (x : list Subject) (s : State) : State :=
  {| isCameraActive := isCameraActive s; isProcessing := isProcessing s; capturedImage := capturedImage s;
     detectedStudents := detectedStudents s; selectedSubject := selectedSubject s; subjects := x;
     showSuccess := showSuccess s; error := error s; videoRef := videoRef s;
     canvasRef := canvasRef s; streamRef := streamRef s; live := live s |}.

Definition set_showSuccess (x : bool) (s : State) : State :=
  {| isCameraActive := isCameraActive s; isProcessing := isProcessing s; capturedImage := capturedImage s;
     detectedStudents := detectedStudents s; selectedSubject := selectedSubject s; subjects := subjects s;
     showSuccess := x; error := error s; videoRef := videoRef s;
     canvasRef := canvasRef s; streamRef := streamRef s; live := live s |}.

Definition set_error (x : option string) (s : State) : State :=
  {| isCameraActive := isCameraActive s; isProcessing := isProcessing s; capturedImage := capturedImage s;
     detectedStudents := detectedStudents s; selectedSubject := selectedSubject s; subjects := subjects s;
     showSuccess := showSuccess s; error := x; videoRef := videoRef s;
     canvasRef := canvasRef s; streamRef := streamRef s; live := live s |}.

Definition set_videoRef (x : option Video) (s : State) : State :=
  {| isCameraActive := isCameraActive s; isProcessing := isProcessing s; capturedImage := capturedImage s;
     detectedStudents := detectedStudents s; selectedSubject := selectedSubject s; subjects := subjects s;
     showSuccess := showSuccess s; error := error s; videoRef := x;
     canvasRef := canvasRef s; streamRef := streamRef s; live := live s |}.

Definition set_canvasRef (x : option Canvas) (s : State) : State :=
  {| isCameraActive := isCameraActive s; isProcessing := isProcessing s; capturedImage := capturedImage s;
     detectedStudents := detectedStudents s; selectedSubject := selectedSubject s; subjects := subjects s;
     showSuccess := showSuccess s; error := error s; videoRef := videoRef s;
     canvasRef := x; streamRef := streamRef s; live := live s |}.

Definition set_streamRef (x : option (list nat)) (s : State) : State :=
  {| isCameraActive := isCameraActive s; isProcessing := isProcessing s; capturedImage := capturedImage s;
     detectedStudents := detectedStudents s; selectedSubject := selectedSubject s; subjects := subjects s;
     showSuccess := showSuccess s; error := error s; videoRef := videoRef s;
     canvasRef := canvasRef s; streamRef := x; live := live s |}.

Definition set_live (x : gset nat) (s : State) : State :=
  {| isCameraActive := isCameraActive s; isProcessing := isProcessing s; capturedImage := capturedImage s;
     detectedStudents := detectedStudents s; selectedSubject := selectedSubject s; subjects := subjects s;
     showSuccess := showSuccess s; error := error s; videoRef := videoRef s;
     canvasRef := canvasRef s; streamRef := streamRef s; live := x |}.

(** What a handler asks of the outside world. *)
Inductive Effect :=
| Toast (level : ToastLevel) (msg : string)
| GetUserMedia
| GetTeacherSubjects (teacherId : Z)
| ToBlob (image : Encoded)
| PostMarkAttendance (subject : Z) (file : File)
| SetTimeout (ms : Z).

(** A continuation waiting for the event loop. *)
Inductive Task :=
| AwaitSubjects
| AwaitMedia
| AwaitBlob (subject : Z) (image : Encoded)
| AwaitResponse (subject : Z)
| AwaitReveal (students : list DetectedStudent) (i : nat)
| AwaitHide.

(** A handler's result: the next state, the effects requested and the
    continuations left pending. *)
Definition Step : Type := State * list Effect * list Task.

Definition initialState : State :=
  {| isCameraActive := false; isProcessing := false; capturedImage := None;
     detectedStudents := []; selectedSubject := None; subjects := [];
     showSuccess := false; error := None;
     videoRef := None; canvasRef := None; streamRef := None; live := ∅ |}.

(** An id that is truthy: a number other than 0 ([!selectedSubject] and
    [!user?.id] are false for it). *)
Definition truthyId (subject : option Z) : option Z :=
  match subject with
  | Some 0 => None
  | Some n => Some n
  | None => None
  end.

(** The continuation of [fetchSubjects] after [api.getTeacherSubjects]. *)
Definition fetchSubjects_resolved (data : list Subject) (s : State) : Step :=
  let s1 := set_subjects data s in
  let s2 := match data with
            | first :: _ => set_selectedSubject (Some (subject_id first)) s1
            | [] => s1
            end in
  (s2, [], []).

Definition fetchSubjects_rejected (err : Wire.Thrown) (s : State) : Step :=
  (s, [Toast toast_error (Wire.messageOr "Failed to fetch subjects" err)], []).

(** [startCamera] up to the [await]. *)
Definition startCamera (s : State) : Step :=
  (s, [GetUserMedia], [AwaitMedia]).

(** [startCamera] after the device grants [stream]: its tracks are live
    from now on, whether or not the screen keeps the stream. *)
Definition startCamera_granted (stream : list nat) (s : State) : Step :=
  let s0 := set_live (live s ∪ list_to_set stream) s in
  match videoRef s0 with
  | Some video =>
      let video' := {| srcObject := Some stream; readyState := readyState video;
                       videoWidth := videoWidth video; videoHeight := videoHeight video;
                       currentFrame := currentFrame video |} in
      let s1 := set_videoRef (Some video') s0 in
      let s2 := set_streamRef (Some stream) s1 in
      let s3 := set_isCameraActive true s2 in
      let s4 := set_capturedImage None s3 in
      let s5 := set_detectedStudents [] s4 in
      (set_error None s5, [], [])
  | None => (s0, [], [])
  end.

Definition startCamera_denied (s : State) : Step :=
  (s, [Toast toast_error "Camera access denied. Please allow camera permissions."], []).

Definition stopCamera (s : State) : State :=
  let s1 := match streamRef s with
            | Some stream => set_streamRef None (set_live (stopTracks stream (live s)) s)
            | None => s
            end in
  let s2 := match videoRef s1 with
            | Some video =>
                set_videoRef (Some {| srcObject := None; readyState := readyState video;
                                      videoWidth := videoWidth video;
                                      videoHeight := videoHeight video;
                                      currentFrame := currentFrame video |}) s1
            | None => s1
            end in
  set_isCameraActive false s2.

(** The cleanup of the unmount effect. *)
Definition unmountCleanup (s : State) : State :=
  match streamRef s with
  | Some stream => set_live (stopTracks stream (live s)) s
  | None => s
  end.

(** [captureAndProcess] up to the [toBlob] call. *)
Definition captureAndProcess (s : State) : Step :=
  match truthyId (selectedSubject s) with
  | None => (s, [Toast toast_error "Select a subject first"], [])
  | Some subject =>
      match canvasRef s, videoRef s with
      | Some canvas, Some video =>
          if negb (readyState video =? 4) then (s, [], [])
          else
            let canvas1 := resize (videoWidth video) (videoHeight video) canvas in
            let canvas2 := if context2d canvas1 then drawImage video false canvas1
                           else canvas1 in
            let s1 := set_canvasRef (Some canvas2) s in
            let s2 := set_capturedImage
                        (Some (encode "image/jpeg" (Some Js.lit_0_9) canvas2)) s1 in
            let s3 := set_isProcessing true s2 in
            let s4 := set_detectedStudents [] s3 in
            let s5 := set_error None s4 in
            let image := encode "image/jpeg" (Some Js.lit_0_9) canvas2 in
            (s5, [ToBlob image], [AwaitBlob subject image])
      | _, _ => (s, [], [])
      end
  end.

(** The [catch] and [finally] blocks of the [toBlob] callback. *)
Definition failed (msg : string) (s : State) : Step :=
  let s1 := set_error (Some msg) s in
  (set_isProcessing false s1, [Toast toast_error msg], []).

(** The [toBlob] callback up to [await api.markAttendance]; [blob] is
    [false] when the callback receives [null]. *)
Definition onBlob (subject : Z) (image : Encoded) (blob : bool) (s : State) : Step :=
  if blob then
    let file := {| fileName := "classroom.jpg"; fileType := "image/jpeg";
                   content := image |} in
    (s, [PostMarkAttendance subject file], [AwaitResponse subject])
  else failed "Failed to capture image" s.

Definition toDetected (e : Wire.Entry) : DetectedStudent :=
  {| student_id := Wire.student_id e;
     name := Wire.name e;
     roll_no := Wire.roll_no e;
     confidence := Wire.confidence e;
     status := statusOf (Wire.confidence e) |}.

(** The end of the [try] block after the loop, then [finally]. *)
Definition finish (s : State) : Step :=
  let s1 := set_showSuccess true s in
  (set_isProcessing false s1, [SetTimeout 2500], [AwaitHide]).

(** The head of the [for] loop at index [i]. *)
Definition loopAt (students : list DetectedStudent) (i : nat) (s : State) : Step :=
  if (i <? length students)%nat
  then (s, [SetTimeout 150], [AwaitReveal students i])
  else finish s.

(** The loop body after its timer: [setDetectedStudents((prev) => [...prev, students[i]])],
    then the next iteration. *)
Definition onRevealTimer (students : list DetectedStudent) (i : nat) (s : State) : Step :=
  let s1 := match students !! i with
            | Some x => set_detectedStudents (detectedStudents s ++ [x]) s
            | None => s
            end in
  loopAt students (S i) s1.

(** The callback after [await api.markAttendance]. *)
Definition onResponse (outcome : Wire.Outcome) (s : State) : Step :=
  match outcome with
  | Wire.Resolved result =>
      let students :=
        map toDetected (default [] (Wire.students_present result)) in
      if (length students =? 0)%nat then
        let s1 := set_error (Some "No students detected in the image") s in
        (set_isProcessing false s1,
         [Toast toast_warning "No students detected. Try again with better lighting."],
         [])
      else loopAt students 0 s
  | Wire.Rejected err => failed (Wire.messageOr "Failed to mark attendance" err) s
  end.

Definition onHide (s : State) : Step :=
  (set_showSuccess false s, [], []).

(** *** What the screen renders *)

Record Banner := { className : string; text : string }.

(** [{error && (<motion.div className=...>...{error}...)}]: the inline
    banner, shown when [error] is a non-empty string. *)
Definition errorBanner (s : State) : option Banner :=
  match error s with
  | Some e =>
      if String.eqb e "" then None
      else Some {| className :=
                     "mb-4 p-4 rounded-lg bg-destructive/10 border border-destructive/30 flex items-center gap-3";
                   text := e |}
  | None => None
  end.

(** The video element is rendered in the branch [isCameraActive ? ... ] of
    the preview, so [videoRef.current] is an element exactly while
    [isCameraActive] holds; a newly mounted element has no source. *)
Definition freshVideo : Video :=
  {| srcObject := None; readyState := 0; videoWidth := 0; videoHeight := 0;
     currentFrame := 0%nat |}.

Definition commit (s : State) : State :=
  if isCameraActive s then
    match videoRef s with
    | Some _ => s
    | None => set_videoRef (Some freshVideo) s
    end
  else set_videoRef None s.

(** *** The screen under the event loop *)

Record Machine := {
  ui : State;
  tasks : list Task;
  log : list Effect;
  mounted : bool
}.

Inductive Event :=
| ClickStartCamera
| ClickStopCamera
| ClickCapture
| ClickSubject (subject : Z)
| SubjectsResolved (k : nat) (data : list Subject)
| SubjectsRejected (k : nat) (err : Wire.Thrown)
| MediaGranted (k : nat) (stream : list nat)
| MediaDenied (k : nat)
| VideoProgress (ready w h : Z) (frame : nat)
| BlobReady (k : nat) (blob : bool)
| ResponseArrived (k : nat) (outcome : Wire.Outcome)
| TimerFired (k : nat)
| Unmount.

(** A click handler ran: its continuations join the pending ones. *)
Definition extend (m : Machine) (r : Step) : Machine :=
  let '(s, effects, spawned) := r in
  {| ui := if mounted m then commit s else s;
     tasks := tasks m ++ spawned;
     log := log m ++ effects;
     mounted := mounted m |}.

(** The pending continuation [k] ran: what it left pending takes its
    place. *)
Definition resume (k : nat) (m : Machine) (r : Step) : Machine :=
  let '(s, effects, spawned) := r in
  {| ui := if mounted m then commit s else s;
     tasks := take k (tasks m) ++ spawned ++ drop (S k) (tasks m);
     log := log m ++ effects;
     mounted := mounted m |}.

(** The screen after mounting, for a signed-in user id and the canvas the
    browser created. *)
Definition initial (userId : option Z) (canvas : Canvas) : Machine :=
  match truthyId userId with
  | Some uid =>
      {| ui := set_canvasRef (Some canvas) initialState;
         tasks := [AwaitSubjects];
         log := [GetTeacherSubjects uid];
         mounted := true |}
  | None =>
      {| ui := set_canvasRef (Some canvas) initialState;
         tasks := []; log := []; mounted := true |}
  end.

Definition hasSubject (subject : Z) (s : State) : bool :=
  existsb (fun x => subject_id x =? subject) (subjects s).

Definition progress (ready w h : Z) (frame : nat) (s : State) : State :=
  match videoRef s with
  | Some video =>
      set_videoRef (Some {| srcObject := srcObject video; readyState := ready;
                            videoWidth := w; videoHeight := h;
                            currentFrame := frame |}) s
  | None => s
  end.

(** The Capture button is shown while the camera is active and disabled
    while [isProcessing]. *)
Definition captureEnabled (s : State) : bool :=
  isCameraActive s && negb (isProcessing s).

(** A click on the Capture button. *)
Definition clickCapture (s : State) : Step :=
  if captureEnabled s then captureAndProcess s else (s, [], []).

(** A frame can be captured: the canvas and the video element exist and the
    video has data for the current frame. *)
Definition frameReady (s : State) : bool :=
  match canvasRef s, videoRef s with
  | Some _, Some video => readyState video =? 4
  | _, _ => false
  end.

(** One turn of the event loop.  A click reaches its handler only when the
    button is rendered and enabled in the committed view, and the state
    updates of a handler are committed before the next event.  Buttons
    follow the markup: Start Camera is shown while the camera is off and
    disabled without subjects; Stop Camera and Capture are shown while the
    camera is active. *)
Definition step (m : Machine) (e : Event) : Machine :=
  let s := ui m in
  match e with
  | ClickStartCamera =>
      if mounted m && negb (isCameraActive s) && negb (length (subjects s) =? 0)%nat
      then extend m (startCamera s) else m
  | ClickStopCamera =>
      if mounted m && isCameraActive s
      then extend m (stopCamera s, [], []) else m
  | ClickCapture =>
      if mounted m && captureEnabled s
      then extend m (captureAndProcess s) else m
  | ClickSubject subject =>
      if mounted m && hasSubject subject s
      then extend m (set_selectedSubject (Some subject) s, [], []) else m
  | SubjectsResolved k data =>
      match tasks m !! k with
      | Some AwaitSubjects => resume k m (fetchSubjects_resolved data s)
      | _ => m
      end
  | SubjectsRejected k err =>
      match tasks m !! k with
      | Some AwaitSubjects => resume k m (fetchSubjects_rejected err s)
      | _ => m
      end
  | MediaGranted k stream =>
      match tasks m !! k with
      | Some AwaitMedia => resume k m (startCamera_granted stream s)
      | _ => m
      end
  | MediaDenied k =>
      match tasks m !! k with
      | Some AwaitMedia => resume k m (startCamera_denied s)
      | _ => m
      end
  | VideoProgress ready w h frame =>
      {| ui := progress ready w h frame s; tasks := tasks m; log := log m;
         mounted := mounted m |}
  | BlobReady k blob =>
      match tasks m !! k with
      | Some (AwaitBlob subject image) => resume k m (onBlob subject image blob s)
      | _ => m
      end
  | ResponseArrived k outcome =>
      match tasks m !! k with
      | Some (AwaitResponse _) => resume k m (onResponse outcome s)
      | _ => m
      end
  | TimerFired k =>
      match tasks m !! k with
      | Some (AwaitReveal students i) => resume k m (onRevealTimer students i s)
      | Some AwaitHide => resume k m (onHide s)
      | _ => m
      end
  | Unmount =>
      if mounted m then
        {| ui := set_canvasRef None (set_videoRef None (unmountCleanup s));
           tasks := tasks m; log := log m; mounted := false |}
      else m
  end.

Definition run (m : Machine) (events : list Event) : Machine :=
  fold_left step events m.

(** Continuations of a submission: from the capture to the end of the
    staged reveal. *)
Definition submitting (t : Task) : bool :=
  match t with
  | AwaitBlob _ _ | AwaitResponse _ | AwaitReveal _ _ => true
  | _ => false
  end.

Definition awaitingBlob (t : Task) : bool :=
  match t with
  | AwaitBlob _ _ => true
  | _ => false
  end.

Definition isPost (e : Effect) : bool :=
  match e with
  | PostMarkAttendance _ _ => true
  | _ => false
  end.

Definition isCapture (e : Effect) : bool :=
  match e with
  | ToBlob _ => true
  | _ => false
  end.

Definition isToast (e : Effect) : bool :=
  match e with
  | Toast _ _ => true
  | _ => false
  end.

(** Submissions in flight, network submissions made, captures taken. *)
Definition inFlight (m : Machine) : nat := length (List.filter submitting (tasks m)).
Definition posts (m : Machine) : nat := length (List.filter isPost (log m)).
Definition captures (m : Machine) : nat := length (List.filter isCapture (log m)).
Definition blobsPending (m : Machine) : nat := length (List.filter awaitingBlob (tasks m)).

(** The capture button is enabled and [captureAndProcess] passes its
    guards. *)
Definition captureAccepted (m : Machine) : bool :=
  mounted m && captureEnabled (ui m) && frameReady (ui m) &&
  match truthyId (selectedSubject (ui m)) with
  | Some _ => true
  | None => false
  end.

(** The invariant of the event loop: at most one submission is in flight,
    none while [isProcessing] is false, and every network submission and
    every pending encoding belongs to a capture of its own. *)
Definition singleFlight (m : Machine) : Prop :=
  (inFlight m ≤ 1)%nat ∧
  (isProcessing (ui m) = false → inFlight m = 0%nat) ∧
  (posts m + blobsPending m ≤ captures m)%nat.

(** A handler's step as the invariant sees it. *)
Definition quiet (s : State) (r : Step) : Prop :=
  isProcessing r.1.1 = isProcessing s ∧
  List.filter submitting r.2 = [] ∧
  List.filter isPost r.1.2 = [] ∧
  List.filter isCapture r.1.2 = [].

(** What a continuation for the pending task [t] may do: it spawns at most
    the submission continuation it consumes, it either keeps [isProcessing]
    and the submission going or ends the submission with [isProcessing]
    false, and it posts at most the blob it consumes. *)
Definition advances (s : State) (t : Task) (r : Step) : Prop :=
  ((isProcessing r.1.1 = isProcessing s ∧
    length (List.filter submitting r.2) = (if submitting t then 1 else 0)%nat) ∨
   (isProcessing r.1.1 = false ∧ List.filter submitting r.2 = [] ∧
    submitting t = true)) ∧
  (length (List.filter isPost r.1.2) + length (List.filter awaitingBlob r.2)
   ≤ (if awaitingBlob t then 1 else 0) + length (List.filter isCapture r.1.2))%nat.

(** Continuations that wait for the subjects or for the device. *)
Definition waitsOutside (t : Task) : bool :=
  match t with
  | AwaitSubjects | AwaitMedia => true
  | _ => false
  end.

(** The screen with the camera off and nothing captured: no video element,
    no stream held, nothing in flight, nothing disclosed, no encoding and
    no network submission so far. *)
Definition cameraIdle (m : Machine) : Prop :=
  isCameraActive (ui m) = false ∧
  videoRef (ui m) = None ∧
  streamRef (ui m) = None ∧
  isProcessing (ui m) = false ∧
  detectedStudents (ui m) = [] ∧
  Forall (fun t => waitsOutside t = true) (tasks m) ∧
  posts m = 0%nat ∧
  captures m = 0%nat.

(** [isProcessing] is set only while a submission is in flight. *)
Definition busyInFlight (m : Machine) : Prop :=
  isProcessing (ui m) = true → inFlight m = 1%nat.

(** The camera side of [captureAccepted]: the screen is mounted, the camera
    is active, a frame is at hand and a subject is selected. *)
Definition cameraReady (m : Machine) : bool :=
  mounted m && isCameraActive (ui m) && frameReady (ui m) &&
  match truthyId (selectedSubject (ui m)) with
  | Some _ => true
  | None => false
  end.

End MarkAttendance.

(** ** The StudentTraining screen: capture and submit *)

Module StudentTraining.
Import Dom.

Record TrainingForm := {
  name : string;
  roll_no : string;
  year : string;
  branch : string;
  section : string
}.

Record State := {
  isCameraActive : bool;
  isProcessing : bool;
  capturedImage : option Encoded;
  capturedFile : option File;
  registrationSuccess : bool;
  form : TrainingForm;
  videoRef : option Video;
  canvasRef : option Canvas;
  fileInputValue : string;
  streamRef : option (list nat);
  live : gset nat
}.

Definition set_isCameraActive (x : bool) (s : State) : State :=
  {| isCameraActive := x; isProcessing := isProcessing s; capturedImage := capturedImage s;
     capturedFile := capturedFile s; registrationSuccess := registrationSuccess s; form := form s;
     videoRef := videoRef s; canvasRef := canvasRef s; fileInputValue := fileInputValue s;
     streamRef := streamRef s; live := live s |}.

Definition set_isProcessing (x : bool) (s : State) : State :=
  {| isCameraActive := isCameraActive s; isProcessing := x; capturedImage := capturedImage s;
     capturedFile := capturedFile s; registrationSuccess := registrationSuccess s; form := form s;
     videoRef := videoRef s; canvasRef := canvasRef s; fileInputValue := fileInputValue s;
     streamRef := streamRef s; live := live s |}.

Definition set_capturedImage (x : option Encoded) (s : State) : State :=
  {| isCameraActive := isCameraActive s; isProcessing := isProcessing s; capturedImage := x;
     capturedFile := capturedFile s; registrationSuccess := registrationSuccess s; form := form s;
     videoRef := videoRef s; canvasRef := canvasRef s; fileInputValue := fileInputValue s;
     streamRef := streamRef s; live := live s |}.

Definition set_capturedFile (x : option File) (s : State) : State :=
  {| isCameraActive := isCameraActive s; isProcessing := isProcessing s; capturedImage := capturedImage s;
     capturedFile := x; registrationSuccess := registrationSuccess s; form := form s;
     videoRef := videoRef s; canvasRef := canvasRef s; fileInputValue := fileInputValue s;
     streamRef := streamRef s; live := live s |}.

Definition set_registrationSuccess (x : bool) (s : State) : State :=
  {| isCameraActive := isCameraActive s; isProcessing := isProcessing s; capturedImage := capturedImage s;
     capturedFile := capturedFile s; registrationSuccess := x; form := form s;
     videoRef := videoRef s; canvasRef := canvasRef s; fileInputValue := fileInputValue s;
     streamRef := streamRef s; live := live s |}.

Definition set_form (x : TrainingForm) (s : State) : State :=
  {| isCameraActive := isCameraActive s; isProcessing := isProcessing s; capturedImage := capturedImage s;
     capturedFile := capturedFile s; registrationSuccess := registrationSuccess s; form := x;
     videoRef := videoRef s; canvasRef := canvasRef s; fileInputValue := fileInputValue s;
     streamRef := streamRef s; live := live s |}.

Definition set_videoRef (x : option Video) (s : State) : State :=
  {| isCameraActive := isCameraActive s; isProcessing := isProcessing s; capturedImage := capturedImage s;
     capturedFile := capturedFile s; registrationSuccess := registrationSuccess s; form := form s;
     videoRef := x; canvasRef := canvasRef s; fileInputValue := fileInputValue s;
     streamRef := streamRef s; live := live s |}.

Definition set_canvasRef (x : option Canvas) (s : State) : State :=
  {| isCameraActive := isCameraActive s; isProcessing := isProcessing s; capturedImage := capturedImage s;
     capturedFile := capturedFile s; registrationSuccess := registrationSuccess s; form := form s;
     videoRef := videoRef s; canvasRef := x; fileInputValue := fileInputValue s;
     streamRef := streamRef s; live := live s |}.

Definition set_fileInputValue (x : string) (s : State) : State :=
  {| isCameraActive := isCameraActive s; isProcessing := isProcessing s; capturedImage := capturedImage s;
     capturedFile := capturedFile s; registrationSuccess := registrationSuccess s; form := form s;
     videoRef := videoRef s; canvasRef := canvasRef s; fileInputValue := x;
     streamRef := streamRef s; live := live s |}.

Definition set_streamRef (x : option (list nat)) (s : State) : State :=
  {| isCameraActive := isCameraActive s; isProcessing := isProcessing s; capturedImage := capturedImage s;
     capturedFile := capturedFile s; registrationSuccess := registrationSuccess s; form := form s;
     videoRef := videoRef s; canvasRef := canvasRef s; fileInputValue := fileInputValue s;
     streamRef := x; live := live s |}.

Definition set_live (x : gset nat) (s : State) : State :=
  {| isCameraActive := isCameraActive s; isProcessing := isProcessing s; capturedImage := capturedImage s;
     capturedFile := capturedFile s; registrationSuccess := registrationSuccess s; form := form s;
     videoRef := videoRef s; canvasRef := canvasRef s; fileInputValue := fileInputValue s;
     streamRef := streamRef s; live := x |}.

Inductive Effect :=
| Toast (level : ToastLevel) (msg : string)
| ToBlob (image : Encoded)
| ReadAsDataURL (file : File)
| PostRegisterStudent (fields : TrainingForm) (image : File)
| SetTimeout (ms : Z).

Inductive Task :=
| AwaitBlob (rollNo : string) (image : Encoded) (canvas : Canvas)
| AwaitReader (file : File)
| AwaitResponse
| AwaitReset.

Definition Step : Type := State * list Effect * list Task.

Definition stopCamera (s : State) : State :=
  let s1 := match streamRef s with
            | Some stream => set_streamRef None (set_live (stopTracks stream (live s)) s)
            | None => s
            end in
  let s2 := match videoRef s1 with
            | Some video =>
                set_videoRef (Some {| srcObject := None; readyState := readyState video;
                                      videoWidth := videoWidth video;
                                      videoHeight := videoHeight video;
                                      currentFrame := currentFrame video |}) s1
            | None => s1
            end in
  set_isCameraActive false s2.

Definition unmountCleanup (s : State) : State :=
  match streamRef s with
  | Some stream => set_live (stopTracks stream (live s)) s
  | None => s
  end.

(** [capturePhoto] up to the [toBlob] call; the preview is mirrored. *)
Definition capturePhoto (s : State) : Step :=
  match canvasRef s, videoRef s with
  | Some canvas, Some video =>
      if negb (readyState video =? 4)
      then (s, [Toast toast_error "Camera not ready yet. Please wait a moment."], [])
      else
        let canvas1 := resize (videoWidth video) (videoHeight video) canvas in
        if negb (context2d canvas1) then (set_canvasRef (Some canvas1) s, [], [])
        else
          let canvas2 := drawImage video true canvas1 in
          let image := encode "image/jpeg" (Some Js.lit_0_9) canvas2 in
          (set_canvasRef (Some canvas2) s, [ToBlob image],
           [AwaitBlob (roll_no (form s)) image canvas2])
  | _, _ => (s, [], [])
  end.

(** The [toBlob] callback; [blob] is [false] when it receives [null].
    [rollNo] is the roll number the handler closed over, [canvas] the
    element it drew on (read through [canvasRef] while it is mounted). *)
Definition capturePhoto_onBlob (rollNo : string) (image : Encoded) (canvas : Canvas)
    (blob : bool) (s : State) : Step :=
  if blob then
    let suffix := if String.eqb rollNo "" then "face" else rollNo in
    let file := {| fileName := "student_" ++ suffix ++ ".jpg";
                   fileType := "image/jpeg"; content := image |} in
    let element := default canvas (canvasRef s) in
    let s1 := set_capturedFile (Some file) s in
    let s2 := set_capturedImage (Some (encode "image/jpeg" None element)) s1 in
    (stopCamera s2, [], [])
  else (s, [], []).

Definition handleFileUpload (file : option File) (s : State) : Step :=
  match file with
  | None => (s, [], [])
  | Some f =>
      let s1 := set_capturedFile (Some f) s in
      (stopCamera s1, [ReadAsDataURL f], [AwaitReader f])
  end.

(** [reader.onload]: the preview becomes the file's data URL. *)
Definition handleFileUpload_onLoad (file : File) (s : State) : Step :=
  (set_capturedImage (Some (content file)) s, [], []).

Definition resetCapture (s : State) : State :=
  let s1 := set_capturedImage None s in
  let s2 := set_capturedFile None s1 in
  set_fileInputValue "" s2.

(** [String.prototype.trim].  A text is held as its UTF-8 bytes, and [trim]
    strips the white space and line terminator characters of ECMAScript
    from both ends: U+0009 to U+000D and U+0020 (one byte each), U+00A0
    (two bytes), and U+1680, U+2000 to U+200A, U+2028, U+2029, U+202F,
    U+205F, U+3000 and U+FEFF (three bytes each). *)
Definition is_space (c : ascii) : bool :=
  match N_of_ascii c with
  | 9 | 10 | 11 | 12 | 13 | 32 => true
  | _ => false
  end%N.

(** U+00A0 is the bytes C2 A0. *)
Definition is_space2 (a b : ascii) : bool :=
  ((N_of_ascii a =? 194) && (N_of_ascii b =? 160))%N.

(** E1 9A 80 (U+1680); E2 80 80 to E2 80 8A (U+2000 to U+200A); E2 80 A8,
    E2 80 A9, E2 80 AF (U+2028, U+2029, U+202F); E2 81 9F (U+205F);
    E3 80 80 (U+3000); EF BB BF (U+FEFF). *)
Definition is_space3 (a b c : ascii) : bool :=
  let x := N_of_ascii a in
  let y := N_of_ascii b in
  let z := N_of_ascii c in
  ((x =? 225) && (y =? 154) && (z =? 128)
   || (x =? 226) && (y =? 128) &&
      ((128 <=? z) && (z <=? 138) || (z =? 168) || (z =? 169) || (z =? 175))
   || (x =? 226) && (y =? 129) && (z =? 159)
   || (x =? 227) && (y =? 128) && (z =? 128)
   || (x =? 239) && (y =? 187) && (z =? 191))%N.

(** The text without its leading white space characters. *)
Fixpoint trim_start (s : string) : string :=
  match s with
  | EmptyString => EmptyString
  | String a rest =>
      if is_space a then trim_start rest
      else match rest with
           | EmptyString => s
           | String b rest2 =>
               if is_space2 a b then trim_start rest2
               else match rest2 with
                    | EmptyString => s
                    | String c rest3 =>
                        if is_space3 a b c then trim_start rest3 else s
                    end
           end
  end.

(** The same on a reversed text, where the bytes of a character come last
    byte first. *)
Fixpoint trim_start_reversed (s : string) : string :=
  match s with
  | EmptyString => EmptyString
  | String a rest =>
      if is_space a then trim_start_reversed rest
      else match rest with
           | EmptyString => s
           | String b rest2 =>
               if is_space2 b a then trim_start_reversed rest2
               else match rest2 with
                    | EmptyString => s
                    | String c rest3 =>
                        if is_space3 c b a then trim_start_reversed rest3 else s
                    end
           end
  end.

Definition trim (s : string) : string :=
  String.rev (trim_start_reversed (String.rev (trim_start s))).

Definition nonEmpty (s : string) : bool := negb (String.eqb s "").

Definition isFormValid (s : State) : bool :=
  nonEmpty (trim (name (form s))) &&
  nonEmpty (trim (roll_no (form s))) &&
  nonEmpty (trim (year (form s))) &&
  nonEmpty (trim (branch (form s))) &&
  nonEmpty (trim (section (form s))) &&
  match capturedFile s with Some _ => true | None => false end.

(** [submit] up to [await api.registerStudent]. *)
Definition submit (s : State) : Step :=
  match capturedFile s with
  | None => (s, [], [])
  | Some file =>
      if negb (isFormValid s)
      then (s, [Toast toast_error "Please fill all fields and capture/upload a photo."], [])
      else (set_isProcessing true s, [PostRegisterStudent (form s) file], [AwaitResponse])
  end.

(** The form is submitted through its submit button, which is rendered
    unless [registrationSuccess] and disabled when
    [!isFormValid() || isProcessing]. *)
Definition formSubmit (s : State) : Step :=
  if registrationSuccess s || negb (isFormValid s) || isProcessing s
  then (s, [], [])
  else submit s.

Definition emptyForm : TrainingForm :=
  {| name := ""; roll_no := ""; year := ""; branch := ""; section := "" |}.

(** [submit] after the call, which resolved ([None]) or threw: the [try]
    tail or the [catch], then [finally]. *)
Definition submit_onResponse (thrown : option Wire.Thrown) (s : State) : Step :=
  match thrown with
  | None =>
      let s1 := set_registrationSuccess true s in
      (set_isProcessing false s1,
       [Toast toast_success "Student registered and face embedding saved."; SetTimeout 2500],
       [AwaitReset])
  | Some err =>
      (set_isProcessing false s,
       [Toast toast_error (Wire.messageOr "Failed to register student" err)], [])
  end.

Definition submit_onReset (s : State) : Step :=
  let s1 := set_form emptyForm s in
  let s2 := resetCapture s1 in
  (set_registrationSuccess false s2, [], []).

Definition isPost (e : Effect) : bool :=
  match e with
  | PostRegisterStudent _ _ => true
  | _ => false
  end.

Definition isToast (e : Effect) : bool :=
  match e with
  | Toast _ _ => true
  | _ => false
  end.

(** [startCamera] after the device grants [stream]: its tracks are live
    from now on, whether or not the screen keeps the stream. *)
Definition startCamera_granted (stream : list nat) (s : State) : State :=
  let s0 := set_live (live s ∪ list_to_set stream) s in
  match videoRef s0 with
  | Some video =>
      let video' := {| srcObject := Some stream; readyState := readyState video;
                       videoWidth := videoWidth video; videoHeight := videoHeight video;
                       currentFrame := currentFrame video |} in
      let s1 := set_videoRef (Some video') s0 in
      let s2 := set_streamRef (Some stream) s1 in
      let s3 := set_isCameraActive true s2 in
      let s4 := set_capturedImage None s3 in
      set_capturedFile None s4
  | None => s0
  end.

Definition startCamera_denied (s : State) : Step :=
  (s, [Toast toast_error "Camera access denied. Please allow camera permissions."], []).

End StudentTraining.

(** ** Sample inputs for the examples *)

Module Sample.

(** A browser-like platform restricted to one payload: [atob] knows the
    base64 text of an empty object and rejects everything else. *)
Definition atob (s : string) : Exn.Result string :=
  if String.eqb s "e30" then Exn.Return "{}"
  else Exn.Throw (Exn.mkError Exn.DOMException (Json.JStr "InvalidCharacterError")).

Definition decodeURIComponent (s : string) : Exn.Result string :=
  if String.eqb s "%7b%7d" then Exn.Return "{}"
  else Exn.Throw (Exn.mkError Exn.URIError (Json.JStr "URI malformed")).

Definition JSON_parse (s : string) : Exn.Result Json.json :=
  if String.eqb s "{}" then Exn.Return (Json.JObj [])
  else Exn.Throw (Exn.mkError Exn.SyntaxError (Json.JStr "Unexpected token")).

End Sample.

(** ** Sample responses of the gateway *)

Module SampleResponse.
Import Json Exn Api.

(** 400 with the body {"detail": ""}. *)
Definition emptyDetail : Response :=
  {| status := 400; json_body := Return (JObj [("detail", JStr "")]) |}.

(** 429 with the body {"message": "Too many requests"}. *)
Definition messageOnly : Response :=
  {| status := 429; json_body := Return (JObj [("message", JStr "Too many requests")]) |}.

(** 401 with the body {"detail": "Invalid credentials"}. *)
Definition stringDetail : Response :=
  {| status := 401; json_body := Return (JObj [("detail", JStr "Invalid credentials")]) |}.

(** 422 with a validation array. *)
Definition validationDetail : Response :=
  {| status := 422;
     json_body :=
       Return (JObj [("detail",
                      JArr [JObj [("loc", JArr [JStr "query"; JStr "email"]);
                                  ("msg", JStr "field required");
                                  ("type", JStr "value_error.missing")]])]) |}.

(** 502 with a body that is not JSON. *)
Definition notJson : Response :=
  {| status := 502;
     json_body := Throw (mkError SyntaxError (JStr "Unexpected token < in JSON")) |}.

End SampleResponse.

(** ** Sample screens *)

Module SampleScreen.
Import Dom.

(** A canvas as the browser creates it. *)
Definition canvas : Canvas :=
  {| width := 300; height := 150; bitmap := Blank; context2d := true |}.

(** A playing video element fed by the stream of tracks 1 and 2. *)
Definition video : Video :=
  {| srcObject := Some [1; 2]%nat; readyState := 4; videoWidth := 1280;
     videoHeight := 720; currentFrame := 41%nat |}.

Definition cs101 : MarkAttendance.Subject :=
  {| MarkAttendance.subject_id := 7; MarkAttendance.subject_name := "Algorithms";
     MarkAttendance.subject_class := "CS-3A"; MarkAttendance.total_classes := 30 |}.

(** MarkAttendance with the camera active, a subject selected and a frame
    available; track 9 belongs to another stream. *)
Definition marking : MarkAttendance.State :=
  {| MarkAttendance.isCameraActive := true;
     MarkAttendance.isProcessing := false;
     MarkAttendance.capturedImage := None;
     MarkAttendance.detectedStudents := [];
     MarkAttendance.selectedSubject := Some 7;
     MarkAttendance.subjects := [cs101];
     MarkAttendance.showSuccess := false;
     MarkAttendance.error := None;
     MarkAttendance.videoRef := Some video;
     MarkAttendance.canvasRef := Some canvas;
     MarkAttendance.streamRef := Some [1; 2]%nat;
     MarkAttendance.live := {[1; 2; 9]}%nat |}.

Definition markingMachine : MarkAttendance.Machine :=
  {| MarkAttendance.ui := marking; MarkAttendance.tasks := [];
     MarkAttendance.log := []; MarkAttendance.mounted := true |}.

(** StudentTraining with the camera active and the form filled in. *)
Definition enrolling : StudentTraining.State :=
  {| StudentTraining.isCameraActive := true;
     StudentTraining.isProcessing := false;
     StudentTraining.capturedImage := None;
     StudentTraining.capturedFile := None;
     StudentTraining.registrationSuccess := false;
     StudentTraining.form :=
       {| StudentTraining.name := "Asha Rao"; StudentTraining.roll_no := "21CS042";
          StudentTraining.year := "3"; StudentTraining.branch := "CSE";
          StudentTraining.section := "A" |};
     StudentTraining.videoRef := Some video;
     StudentTraining.canvasRef := Some canvas;
     StudentTraining.fileInputValue := "";
     StudentTraining.streamRef := Some [1; 2]%nat;
     StudentTraining.live := {[1; 2; 9]}%nat |}.

End SampleScreen.

(** ** Sample responses of the attendance endpoint *)

Module SampleResult.

Definition asha : Wire.Entry :=
  {| Wire.student_id := 42; Wire.name := Some "Asha Rao";
     Wire.roll_no := Some "21CS042"; Wire.confidence := Js.lit_0_95 |}.

Definition ben : Wire.Entry :=
  {| Wire.student_id := 17; Wire.name := None;
     Wire.roll_no := None; Wire.confidence := Js.lit_0_6 |}.

(** Two detections, with confidences 0.95 and 0.6. *)
Definition two : Wire.AttendanceResult :=
  {| Wire.status := "success"; Wire.count := 2;
     Wire.students_present := Some [asha; ben] |}.

(** A well-formed response without detections. *)
Definition none : Wire.AttendanceResult :=
  {| Wire.status := "success"; Wire.count := 0;
     Wire.students_present := Some [] |}.

End SampleResult.

(** ** Request headers *)

Module Headers.

(** [`Bearer ${token}`]: a missing token is spelled [null]. *)
Definition bearer (token : option string) : string :=
  "Bearer " ++ match token with
               | Some t => t
               | None => "null"
               end.

(** [getAuthHeaders] of the first gateway module. *)
Definition getAuthHeaders (ls : gmap string string) : list (string * string) :=
  let token := Auth.getItem "access_token" ls in
  [("Authorization", bearer token);
   ("Content-Type", "application/json");
   ("Accept", "application/json")].

(** [getAuthHeaders] of the second gateway module. *)
Definition getAuthHeaders2 (ls : gmap string string) : list (string * string) :=
  let token := Auth.getItem "access_token" ls in
  [("Authorization", bearer token);
   ("Content-Type", "application/json")].

(** The headers [requestFormData] sends. *)
Definition formDataHeaders (ls : gmap string string) : list (string * string) :=
  let token := Auth.getItem "access_token" ls in
  [("Authorization", bearer token);
   ("Accept", "application/json")].

Fixpoint header (key : string) (headers : list (string * string)) : option string :=
  match headers with
  | [] => None
  | (k, v) :: rest => if String.eqb key k then Some v else header key rest
  end.

End Headers.

(** ** AuthProvider *)

Module AuthContext.
Import Json Exn.

(** The [user] state: null, the object given to [login], or the value
    [getUser] parsed from storage. *)
Inductive UserState :=
| NoUser
| Given (userData : Auth.User)
| Stored (storedUser : json).

Record Provider := { user : UserState; isLoading : bool }.

(** [useState(null)], [useState(true)]. *)
Definition initialProvider : Provider := {| user := NoUser; isLoading := true |}.

(** [isAuthenticated: !!user]. *)
Definition isAuthenticated (p : Provider) : bool :=
  match user p with
  | NoUser => false
  | Given _ => true
  | Stored j => truthy (Some j)
  end.

Section WithPlatform.
Variable JSON_stringify : Auth.User -> string.
Variable JSON_parse : string -> Result json.

(** The mount effect.  [auth.getUser()] is not guarded: when it throws,
    the effect throws before any state is set. *)
Definition mountEffect (ls : gmap string string) (p : Provider) : Result Provider :=
  storedUser ← Auth.getUser JSON_parse ls;
  let p1 := if truthy (Some storedUser) && Auth.isAuthenticated ls
            then {| user := Stored storedUser; isLoading := isLoading p |}
            else p in
  Return {| user := user p1; isLoading := false |}.

Definition login (token : string) (userData : Auth.User)
    (ls : gmap string string) (p : Provider) : gmap string string * Provider :=
  (Auth.setAuth JSON_stringify token userData ls,
   {| user := Given userData; isLoading := isLoading p |}).

Definition logout (ls : gmap string string) (p : Provider)
  : gmap string string * Provider :=
  (Auth.logout ls, {| user := NoUser; isLoading := isLoading p |}).
End WithPlatform.

End AuthContext.

(** ** Sidebar: the menu by role *)

Module Sidebar.

Record NavItem := { label : string; path : string; roles : list Auth.Role }.

Definition navItems : list NavItem :=
  [ {| label := "Dashboard"; path := "/dashboard";
       roles := [Auth.TEACHER; Auth.STUDENT; Auth.ADMIN] |};
    {| label := "Mark Attendance"; path := "/attendance/mark";
       roles := [Auth.TEACHER] |};
    {| label := "Student Training"; path := "/training";
       roles := [Auth.TEACHER; Auth.ADMIN] |};
    {| label := "Subjects"; path := "/subjects"; roles := [Auth.TEACHER] |};
    {| label := "Analytics"; path := "/analytics";
       roles := [Auth.TEACHER; Auth.STUDENT; Auth.ADMIN] |};
    {| label := "Alerts"; path := "/alerts";
       roles := [Auth.TEACHER; Auth.STUDENT; Auth.ADMIN] |};
    {| label := "Students"; path := "/admin/students"; roles := [Auth.ADMIN] |};
    {| label := "Departments"; path := "/admin/departments"; roles := [Auth.ADMIN] |} ].

Definition role_eqb (a b : Auth.Role) : bool :=
  match a, b with
  | Auth.ADMIN, Auth.ADMIN | Auth.TEACHER, Auth.TEACHER | Auth.STUDENT, Auth.STUDENT => true
  | _, _ => false
  end.

(** [roles.includes(role)]. *)
Definition includes (role : Auth.Role) (roles : list Auth.Role) : bool :=
  existsb (role_eqb role) roles.

(** [navItems.filter(item => user && item.roles.includes(user.role))]. *)
Definition filteredItems (user : option Auth.User) : list NavItem :=
  List.filter
    (fun item => match user with
                 | Some u => includes (Auth.role u) (roles item)
                 | None => false
                 end)
    navItems.

End Sidebar.

(** ** Sample sessions *)

Module SampleSession.

Definition asha : Auth.User :=
  {| Auth.id := 42; Auth.email := "asha@example.edu"; Auth.role := Auth.STUDENT;
     Auth.name := Some "Asha Rao" |}.

(** A serialiser and a parser that know one profile. *)
Definition JSON_stringify (u : Auth.User) : string := "{asha}".

Definition JSON_parse (s : string) : Exn.Result Json.json :=
  if String.eqb s "{asha}"
  then Exn.Return (Json.JObj [("email", Json.JStr "asha@example.edu")])
  else Exn.Throw (Exn.mkError Exn.SyntaxError (Json.JStr "Unexpected token")).

(** A storage whose profile entry is not JSON. *)
Definition corrupt : gmap string string :=
  <["user" := "not json"]> (<["access_token" := "abc"]> ∅).

End SampleSession.

(** ** Bulk import on the StudentTraining screen *)

Module BulkImport.
Import Dom.

Record CSVStudent := {
  sno : string;
  roll_no : string;
  name : string;
  branch : string;
  semester : string;
  gender : string
}.

Record Progress := { current : nat; total : nat }.

(** The bulk-import state of the screen.  [photosZip] is the name of the
    chosen archive; the two file inputs are [None] while the bulk tab is
    not rendered. *)
Record State := {
  csvStudents : list CSVStudent;
  photosZip : option string;
  bulkProcessing : bool;
  bulkProgress : Progress;
  csvInputValue : option string;
  zipInputValue : option string
}.

Definition set_csvStudents (x : list CSVStudent) (s : State) : State :=
  {| csvStudents := x; photosZip := photosZip s; bulkProcessing := bulkProcessing s;
     bulkProgress := bulkProgress s; csvInputValue := csvInputValue s;
     zipInputValue := zipInputValue s |}.

Definition set_photosZip (x : option string) (s : State) : State :=
  {| csvStudents := csvStudents s; photosZip := x; bulkProcessing := bulkProcessing s;
     bulkProgress := bulkProgress s; csvInputValue := csvInputValue s;
     zipInputValue := zipInputValue s |}.

Definition set_bulkProcessing (x : bool) (s : State) : State :=
  {| csvStudents := csvStudents s; photosZip := photosZip s; bulkProcessing := x;
     bulkProgress := bulkProgress s; csvInputValue := csvInputValue s;
     zipInputValue := zipInputValue s |}.

Definition set_bulkProgress (x : Progress) (s : State) : State :=
  {| csvStudents := csvStudents s; photosZip := photosZip s; bulkProcessing := bulkProcessing s;
     bulkProgress := x; csvInputValue := csvInputValue s;
     zipInputValue := zipInputValue s |}.

Definition set_csvInputValue (x : option string) (s : State) : State :=
  {| csvStudents := csvStudents s; photosZip := photosZip s; bulkProcessing := bulkProcessing s;
     bulkProgress := bulkProgress s; csvInputValue := x;
     zipInputValue := zipInputValue s |}.

Definition set_zipInputValue (x : option string) (s : State) : State :=
  {| csvStudents := csvStudents s; photosZip := photosZip s; bulkProcessing := bulkProcessing s;
     bulkProgress := bulkProgress s; csvInputValue := csvInputValue s;
     zipInputValue := x |}.

(** What the handlers ask of the outside world; [PostRegisterStudent] is
    [api.registerStudent], the one call that enrolls a student. *)
Inductive Effect :=
| Toast (level : ToastLevel) (msg : string)
| ReadAsText
| SetTimeout (ms : Z)
| PostRegisterStudent (fields : StudentTraining.TrainingForm) (image : File).

Inductive Task :=
| AwaitText
| AwaitTick (i n : nat).

Definition Step : Type := State * list Effect * list Task.

(** [s.split(sep)] for a one-character separator: never empty. *)
Fixpoint split (sep : ascii) (s : string) : list string :=
  match s with
  | EmptyString => [EmptyString]
  | String c rest =>
      if Ascii.eqb c sep then EmptyString :: split sep rest
      else match split sep rest with
           | seg :: segs => String c seg :: segs
           | [] => [String c EmptyString]
           end
  end.

(** [cols[i] || '']. *)
Definition column (cols : list string) (i : nat) : string :=
  match cols !! i with
  | Some c => if String.eqb c "" then "" else c
  | None => ""
  end.

(** The row built from one line of the file. *)
Definition parseLine (line : string) : CSVStudent :=
  let cols := map StudentTraining.trim (split "," line) in
  {| sno := column cols 0; roll_no := column cols 1; name := column cols 2;
     branch := column cols 3; semester := column cols 4; gender := column cols 5 |}.

(** [(line) => line.trim()] as a filter: the line is not blank. *)
Definition notBlank (line : string) : bool :=
  StudentTraining.nonEmpty (StudentTraining.trim line).

(** [(s) => s.roll_no && s.name] as a filter. *)
Definition hasRollAndName (r : CSVStudent) : bool :=
  StudentTraining.nonEmpty (roll_no r) && StudentTraining.nonEmpty (name r).

(** The body of [reader.onload] up to [setCsvStudents]. *)
Definition parseCSV (text : string) : list CSVStudent :=
  let lines := List.filter notBlank (split "010" text) in
  let dataLines := drop 1 lines in
  List.filter hasRollAndName (map parseLine dataLines).

(** [handleCSVUpload]: [file] says whether the change event carries a
    file. *)
Definition handleCSVUpload (file : bool) (s : State) : Step :=
  if file then (s, [ReadAsText], [AwaitText]) else (s, [], []).

Definition handleCSVUpload_onLoad (text : string) (s : State) : Step :=
  let students := parseCSV text in
  (set_csvStudents students s,
   [Toast toast_success ("Loaded " ++ pretty (length students) ++ " students from CSV")],
   []).

Definition handleZipUpload (file : option string) (s : State) : Step :=
  match file with
  | None => (s, [], [])
  | Some fileName =>
      (set_photosZip (Some fileName) s,
       [Toast toast_success ("Photos ZIP loaded: " ++ fileName)], [])
  end.

(** [if (ref.current) ref.current.value = '']. *)
Definition clearInput (v : option string) : option string :=
  match v with
  | Some _ => Some ""
  | None => None
  end.

(** The end of [processBulkImport], after the loop; [n] is the number of
    rows the handler closed over. *)
Definition finish (n : nat) (s : State) : Step :=
  let s1 := set_bulkProcessing false s in
  let s2 := set_csvStudents [] s1 in
  let s3 := set_photosZip None s2 in
  let s4 := set_csvInputValue (clearInput (csvInputValue s3)) s3 in
  let s5 := set_zipInputValue (clearInput (zipInputValue s4)) s4 in
  (s5,
   [Toast toast_success ("Bulk import complete! Processed " ++ pretty n ++ " students.")],
   []).

(** The head of the [for] loop at index [i]. *)
Definition loopAt (i n : nat) (s : State) : Step :=
  if (i <? n)%nat
  then (set_bulkProgress {| current := S i; total := n |} s, [SetTimeout 100],
        [AwaitTick i n])
  else finish n s.

(** The loop after its timer: the next iteration. *)
Definition onTick (i n : nat) (s : State) : Step :=
  loopAt (S i) n s.

(** [processBulkImport] up to its first [await]. *)
Definition processBulkImport (s : State) : Step :=
  if (length (csvStudents s) =? 0)%nat
  then (s, [Toast toast_error "Please upload a CSV file first"], [])
  else match photosZip s with
       | None => (s, [Toast toast_error "Please upload a photos ZIP file"], [])
       | Some _ =>
           let n := length (csvStudents s) in
           let s1 := set_bulkProcessing true s in
           let s2 := set_bulkProgress {| current := 0; total := n |} s1 in
           let '(s3, effects, spawned) := loopAt 0 n s2 in
           (s3, Toast toast_info "Bulk import started. Processing students..." :: effects,
            spawned)
       end.

(** The Start Bulk Import button is disabled when
    [bulkProcessing || csvStudents.length === 0 || !photosZip]. *)
Definition importEnabled (s : State) : bool :=
  negb (bulkProcessing s) && negb (length (csvStudents s) =? 0)%nat &&
  match photosZip s with Some _ => true | None => false end.

Definition clickImport (s : State) : Step :=
  if importEnabled s then processBulkImport s else (s, [], []).

(** The import's timers fire, at most [fuel] of them: each settles the
    pending iteration of the loop. *)
Fixpoint fireTimers (fuel : nat) (r : Step) : Step :=
  match fuel, r with
  | S fuel', (s, effects, [AwaitTick i n]) =>
      let '(s', effects', spawned) := onTick i n s in
      fireTimers fuel' (s', (effects ++ effects')%list, spawned)
  | _, _ => r
  end.

Definition isRegistration (e : Effect) : bool :=
  match e with
  | PostRegisterStudent _ _ => true
  | _ => false
  end.

End BulkImport.

(** * Properties *)

(** ** Confidence tiers *)

Section ConfidenceFacts.
Import Confidence.

(** A number that is not NaN compares with every finite number. *)
Lemma compare_finite_defined (c : spec_float) (s : bool) (m : positive) (e : Z) :
  Js.is_nan c = false → ∃ r, SFcompare c (S754_finite s m e) = Some r.
Proof.
  destruct c as [sc|sc| |sc mc ec]; intros Hc; try discriminate; simpl; eauto.
Qed.

(** [>=] and [<] are complementary away from NaN. *)
Lemma ge_false_lt (c : spec_float) (s : bool) (m : positive) (e : Z) :
  Js.is_nan c = false →
  Js.ge c (S754_finite s m e) = negb (Js.lt c (S754_finite s m e)).
Proof.
  intros Hc. unfold Js.ge, Js.lt.
  destruct (compare_finite_defined c s m e Hc) as [r ->]. by destruct r.
Qed.

(** [<] against positive finite numbers of one exponent follows their
    mantissas. *)
Lemma lt_finite_mono (c : spec_float) (m1 m2 : positive) (e : Z) :
  (m1 < m2)%positive →
  Js.lt c (S754_finite false m1 e) = true → Js.lt c (S754_finite false m2 e) = true.
Proof.
  intros Hm. unfold Js.lt.
  destruct c as [sc|sc| |sc mc ec]; cbn [SFcompare]; try (intros H; exact H).
  destruct sc; [intros H; exact H|].
  destruct (Z.compare_spec ec e) as [->|Hlt|Hgt]; try (intros H; exact H).
  rewrite !Pos.compare_cont_spec. unfold Pos.switch_Eq.
  destruct (Pos.compare_spec mc m1) as [Heq|Hlt|Hgt]; try (intros H; discriminate H).
  intros _.
  destruct (Pos.compare_spec mc m2) as [Heq'|Hlt'|Hgt']; [lia|reflexivity|lia].
Qed.

(** Below 0.7 is below 0.85. *)
Lemma lt_0_7_lt_0_85 (c : spec_float) :
  Js.lt c Js.lit_0_7 = true → Js.lt c Js.lit_0_85 = true.
Proof. apply lt_finite_mono. reflexivity. Qed.

End ConfidenceFacts.

(** C1.  For every confidence value [c] (a number; NaN, which no JSON
    response carries, compares false with everything), the status assigned
    to a detection is [success] iff [c >= 0.85], [warning] iff
    [0.7 <= c < 0.85] and [error] iff [c < 0.7], the bounds 0.85 and 0.7
    falling in the higher tier; the text colour and the bar colour are the
    same three-way split of the same comparisons. *)
Theorem C1_confidence_tiers (c : spec_float) (Hc : Js.is_nan c = false) :
  (Confidence.statusOf c = Confidence.success ↔ Js.ge c Js.lit_0_85 = true) ∧
  (Confidence.statusOf c = Confidence.warning ↔
     Js.ge c Js.lit_0_7 = true ∧ Js.lt c Js.lit_0_85 = true) ∧
  (Confidence.statusOf c = Confidence.error ↔ Js.lt c Js.lit_0_7 = true) ∧
  Confidence.statusOf Js.lit_0_85 = Confidence.success ∧
  Confidence.statusOf Js.lit_0_7 = Confidence.warning ∧
  Confidence.getConfidenceColor c =
    match Confidence.statusOf c with
    | Confidence.success => "text-success"
    | Confidence.warning => "text-warning"
    | Confidence.error => "text-destructive"
    end ∧
  Confidence.getConfidenceBarColor c =
    match Confidence.statusOf c with
    | Confidence.success => "bg-success"
    | Confidence.warning => "bg-warning"
    | Confidence.error => "bg-destructive"
    end.
Proof.
  assert (H85 : Js.ge c Js.lit_0_85 = negb (Js.lt c Js.lit_0_85))
    by (apply ge_false_lt; exact Hc).
  assert (H70 : Js.ge c Js.lit_0_7 = negb (Js.lt c Js.lit_0_7))
    by (apply ge_false_lt; exact Hc).
  pose proof (lt_0_7_lt_0_85 c) as Hmono.
  unfold Confidence.statusOf, Confidence.getConfidenceColor,
    Confidence.getConfidenceBarColor.
  assert (Hb85 : Js.ge Js.lit_0_85 Js.lit_0_85 = true) by (vm_compute; reflexivity).
  assert (Hb70 : Js.ge Js.lit_0_7 Js.lit_0_85 = false) by (vm_compute; reflexivity).
  assert (Hb70' : Js.ge Js.lit_0_7 Js.lit_0_7 = true) by (vm_compute; reflexivity).
  rewrite Hb85, Hb70, Hb70', H85, H70.
  destruct (Js.lt c Js.lit_0_85) eqn:E85, (Js.lt c Js.lit_0_7) eqn:E70;
    cbn [negb]; try (specialize (Hmono eq_refl); discriminate Hmono);
    repeat split; intros; try reflexivity; try discriminate;
    try (destruct_and?; discriminate).
Qed.

(** The boundary value 0.85 itself is classified [success]. *)
Lemma C1_confidence_tiers_witness :
  Confidence.statusOf Js.lit_0_85 = Confidence.success ∧
  Confidence.statusOf Js.lit_0_7 = Confidence.warning ∧
  Confidence.statusOf Js.lit_0_6 = Confidence.error.
Proof.
  split; [|split].
  - apply (proj1 (C1_confidence_tiers Js.lit_0_85 eq_refl)). vm_compute; reflexivity.
  - apply (proj1 (proj2 (C1_confidence_tiers Js.lit_0_7 eq_refl))).
    split; vm_compute; reflexivity.
  - apply (proj1 (proj2 (proj2 (C1_confidence_tiers Js.lit_0_6 eq_refl)))).
    vm_compute; reflexivity.
Defined.

(** ** Session store *)

(** C9.  Storing a session with [setAuth] and then calling [logout] leaves
    [localStorage] without the keys [access_token] and [user], whatever the
    token, the profile and the earlier content; [isAuthenticated()] is then
    false and [getUser()] returns null, and the storage is the one [logout]
    alone would have left. *)
Theorem C9_setAuth_then_logout
    (JSON_stringify : Auth.User → string)
    (JSON_parse : string → Exn.Result Json.json)
    (ls : gmap string string) (token : string) (user : Auth.User) :
  let ls' := Auth.logout (Auth.setAuth JSON_stringify token user ls) in
  Auth.getItem "access_token" ls' = None ∧
  Auth.getItem "user" ls' = None ∧
  Auth.isAuthenticated ls' = false ∧
  Auth.getToken ls' = None ∧
  Auth.getUser JSON_parse ls' = Exn.Return Json.JNull ∧
  ls' = Auth.logout ls.
Proof.
  intros ls'.
  assert (Htok : Auth.getItem "access_token" ls' = None).
  { unfold ls', Auth.logout, Auth.setAuth, Auth.getItem, Auth.removeItem, Auth.setItem.
    rewrite lookup_delete_ne by discriminate. apply lookup_delete_eq. }
  assert (Husr : Auth.getItem "user" ls' = None).
  { unfold ls', Auth.logout, Auth.getItem, Auth.removeItem. apply lookup_delete_eq. }
  repeat split; try assumption.
  - unfold Auth.isAuthenticated. by rewrite Htok.
  - unfold Auth.getUser. by rewrite Husr.
  - unfold ls', Auth.logout, Auth.setAuth, Auth.removeItem, Auth.setItem.
    apply map_eq. intros k.
    destruct (decide (k = "user")) as [->|Hu].
    { by rewrite !lookup_delete_eq. }
    rewrite !(lookup_delete_ne _ "user") by done.
    destruct (decide (k = "access_token")) as [->|Ht].
    { by rewrite !lookup_delete_eq. }
    rewrite !(lookup_delete_ne _ "access_token") by done.
    by rewrite !lookup_insert_ne by done.
Qed.

(** ** decodeJWT *)

Section JwtText.
Import Json Exn Jwt.

Lemma string_append_assoc (a b c : string) : (a ++ b) ++ c = a ++ b ++ c.
Proof.
  induction a as [|x a IH]; [reflexivity|].
  change (String x ((a ++ b) ++ c) = String x (a ++ b ++ c)). by rewrite IH.
Qed.

Lemma split_dot_nonempty (s : string) : split_dot s ≠ [].
Proof.
  destruct s as [|c rest]; cbn; [done|].
  destruct (Ascii.eqb c "."); [done|]. by destruct (split_dot rest).
Qed.

Lemma split_dot_no_dot (s : string) :
  contains "." s = false → split_dot s = [s].
Proof.
  induction s as [|c rest IH]; cbn; [done|].
  destruct (Ascii.eqb c "."); cbn; [done|]. intros H. by rewrite (IH H).
Qed.

Lemma split_dot_segment (h rest : string) :
  contains "." h = false →
  split_dot (h ++ String "." rest) = h :: split_dot rest.
Proof.
  induction h as [|c h IH]; simpl.
  - reflexivity.
  - destruct (Ascii.eqb c "."); simpl; [done|]. intros H. by rewrite (IH H).
Qed.

Lemma percent_shape (c : ascii) :
  percent c =
  String "%" (String (hex_digit (N_of_ascii c / 16))
                (String (hex_digit (N_of_ascii c mod 16)) EmptyString)).
Proof. destruct c as [[] [] [] [] [] [] [] []]; reflexivity. Qed.

Lemma percent_byte (c : ascii) :
  hex_value (hex_digit (N_of_ascii c / 16)) = Some (N_of_ascii c / 16)%N ∧
  hex_value (hex_digit (N_of_ascii c mod 16)) = Some (N_of_ascii c mod 16)%N.
Proof. destruct c as [[] [] [] [] [] [] [] []]; split; reflexivity. Qed.

Lemma percent_encode_bytes (s : string) :
  percent_bytes (percent_encode s) = Some s.
Proof.
  induction s as [|c rest IH]; [reflexivity|].
  cbn [percent_encode]. rewrite percent_shape.
  change (percent_bytes (String "%" (String ?h (String ?l EmptyString)) ++ ?r))
    with (match hex_value h, hex_value l, percent_bytes r with
          | Some hi, Some lo, Some bytes =>
              Some (String (ascii_of_N (hi * 16 + lo)) bytes)
          | _, _, _ => None
          end).
  destruct (percent_byte c) as [-> ->]. rewrite IH.
  f_equal. f_equal.
  rewrite (N.mul_comm _ 16), <- N.div_mod by done. apply ascii_N_embedding.
Qed.

Lemma replace_all_length (a b : ascii) (s : string) :
  String.length (replace_all a b s) = String.length s.
Proof. induction s as [|c rest IH]; [done|]. cbn. by rewrite IH. Qed.

Lemma replace_all_get (a b : ascii) (s : string) (i : nat) (c : ascii) :
  String.get i s = Some c →
  String.get i (replace_all a b s) = Some (if Ascii.eqb c a then b else c).
Proof.
  revert i. induction s as [|c0 rest IH]; intros i; [done|].
  destruct i as [|i]; cbn [String.get replace_all]; [by intros [= ->]|]. apply IH.
Qed.

Lemma percent_encode_length (s : string) :
  String.length (percent_encode s) = (3 * String.length s)%nat.
Proof.
  induction s as [|c rest IH]; [reflexivity|].
  cbn [percent_encode]. rewrite percent_shape.
  change (String.length (String "%" (String ?h (String ?l EmptyString)) ++ ?r))
    with (S (S (S (String.length r)))).
  rewrite IH. cbn [String.length]. lia.
Qed.

Section Platform.
Variable atob : string → Result string.
Variable decodeURIComponent : string → Result string.
Variable JSON_parse : string → Result json.

(** Whatever the platform functions do, the [catch] returns. *)
Lemma decodeJWT_returns (token : string) :
  ∃ v, decodeJWT atob decodeURIComponent JSON_parse token = Return v.
Proof.
  unfold decodeJWT, try_catch.
  destruct (decodeJWT_try _ _ _ token); eauto.
Qed.

(** A value other than null comes out of the [try] block. *)
Lemma decodeJWT_not_null (token : string) (v : json) :
  decodeJWT atob decodeURIComponent JSON_parse token = Return v → v ≠ JNull →
  decodeJWT_try atob decodeURIComponent JSON_parse token = Return v.
Proof.
  unfold decodeJWT, try_catch.
  destruct (decodeJWT_try _ _ _ token) as [j|e]; [done|]. by intros [= <-].
Qed.

End Platform.

End JwtText.

(** C10, counterexample.  Three strings that are not well-formed JWTs (two
    segments; four segments; an empty header and an empty signature) and
    for which [decodeJWT] returns the payload object of their second
    segment, not null.  The platform is the browser's on this payload:
    [atob("e30")] is the text of an empty object. *)
Lemma C10_counterexample :
  Jwt.wellFormedJWT "x.e30" = false ∧
  Jwt.wellFormedJWT "h.e30.sig.extra" = false ∧
  Jwt.wellFormedJWT ".e30." = false ∧
  Jwt.decodeJWT Sample.atob Sample.decodeURIComponent Sample.JSON_parse "x.e30"
    = Exn.Return (Json.JObj []) ∧
  Jwt.decodeJWT Sample.atob Sample.decodeURIComponent Sample.JSON_parse "h.e30.sig.extra"
    = Exn.Return (Json.JObj []) ∧
  Jwt.decodeJWT Sample.atob Sample.decodeURIComponent Sample.JSON_parse ".e30."
    = Exn.Return (Json.JObj []) ∧
  Json.JObj [] ≠ Json.JNull.
Proof. repeat split; try reflexivity. discriminate. Qed.

(** C10, as amended.  [decodeJWT] never throws: for every string, and
    whatever [atob], [decodeURIComponent] and [JSON.parse] do, it returns
    a value.  The value is null when the string has no dot, and when a
    stage throws on the second dot-separated segment.  A value other than
    null is what [JSON.parse] gave for that segment: the segment with
    every [-] read as [+] and every [_] as [/] passed [atob], the bytes
    of the result, each written as [%] and two hexadecimal digits, passed
    [decodeURIComponent], and the text passed [JSON.parse]; and when the
    three stages succeed their result is returned.  Nothing else is
    checked: a string of two segments gets the same result as the string
    with a signature appended. *)
Theorem C10_decodeJWT_second_segment
    (atob decodeURIComponent : string → Exn.Result string)
    (JSON_parse : string → Exn.Result Json.json) (token : string) :
  let decode := Jwt.decodeJWT atob decodeURIComponent JSON_parse in
  let standard seg := Jwt.replace_all "_" "/" (Jwt.replace_all "-" "+" seg) in
  (∃ v, decode token = Exn.Return v) ∧
  (Jwt.contains "." token = false → decode token = Exn.Return Json.JNull) ∧
  (∀ seg,
     Jwt.split_dot token !! 1%nat = Some seg →
     (∃ e, atob (standard seg) = Exn.Throw e) ∨
     (∃ binary e, atob (standard seg) = Exn.Return binary ∧
                  decodeURIComponent (Jwt.percent_encode binary) = Exn.Throw e) ∨
     (∃ binary text e, atob (standard seg) = Exn.Return binary ∧
                       decodeURIComponent (Jwt.percent_encode binary) = Exn.Return text ∧
                       JSON_parse text = Exn.Throw e) →
     decode token = Exn.Return Json.JNull) ∧
  (∀ v,
     decode token = Exn.Return v → v ≠ Json.JNull →
     ∃ seg base64 binary encoded text,
       Jwt.split_dot token !! 1%nat = Some seg ∧
       String.length base64 = String.length seg ∧
       (∀ i c, String.get i seg = Some c →
               String.get i base64 =
                 Some (if Ascii.eqb c "-" then "+"%char
                       else if Ascii.eqb c "_" then "/"%char else c)) ∧
       atob base64 = Exn.Return binary ∧
       String.length encoded = (3 * String.length binary)%nat ∧
       Jwt.percent_bytes encoded = Some binary ∧
       decodeURIComponent encoded = Exn.Return text ∧
       JSON_parse text = Exn.Return v) ∧
  (∀ seg binary text v,
     Jwt.split_dot token !! 1%nat = Some seg →
     atob (standard seg) = Exn.Return binary →
     decodeURIComponent (Jwt.percent_encode binary) = Exn.Return text →
     JSON_parse text = Exn.Return v →
     decode token = Exn.Return v) ∧
  (∀ header payload signature,
     Jwt.contains "." header = false → Jwt.contains "." payload = false →
     token = header ++ "." ++ payload →
     decode (token ++ "." ++ signature) = decode token).
Proof.
  intros decode standard. subst decode standard. cbv beta.
  split; [apply decodeJWT_returns|]. split_and!.
  - intros Hdot. unfold Jwt.decodeJWT, Jwt.decodeJWT_try.
    by rewrite (split_dot_no_dot token Hdot).
  - intros seg Hseg Hfail. unfold Jwt.decodeJWT, Jwt.decodeJWT_try. rewrite Hseg.
    unfold mbind, Exn.result_bind, Exn.try_catch. cbn.
    destruct Hfail as [[e ->]|[(binary & e & -> & ->)|(binary & text & e & -> & -> & ->)]];
      reflexivity.
  - intros v Hv Hnot. pose proof (decodeJWT_not_null _ _ _ token v Hv Hnot) as Htry.
    unfold Jwt.decodeJWT_try, mbind, Exn.result_bind in Htry.
    destruct (Jwt.split_dot token !! 1%nat) as [seg|] eqn:Hseg; [|discriminate Htry].
    cbn in Htry.
    destruct (atob _) as [binary|] eqn:Ha; [|discriminate Htry].
    destruct (decodeURIComponent _) as [text|] eqn:Hd; [|discriminate Htry].
    exists seg, (Jwt.replace_all "_" "/" (Jwt.replace_all "-" "+" seg)), binary,
           (Jwt.percent_encode binary), text.
    split_and!; try done.
    + by rewrite !replace_all_length.
    + intros i c Hc.
      rewrite (replace_all_get "_" "/" _ i _ (replace_all_get "-" "+" seg i c Hc)).
      destruct (Ascii.eqb_spec c "-") as [->|Hm]; reflexivity.
    + apply percent_encode_length.
    + apply percent_encode_bytes.
  - intros seg binary text v Hseg Ha Hd Hp.
    unfold Jwt.decodeJWT, Jwt.decodeJWT_try. rewrite Hseg.
    unfold mbind, Exn.result_bind, Exn.try_catch. cbn. by rewrite Ha, Hd, Hp.
  - intros header payload signature Hh Hp ->.
    assert (H3 : Jwt.split_dot ((header ++ "." ++ payload) ++ "." ++ signature) !! 1%nat
                 = Some payload).
    { rewrite string_append_assoc.
      change (("." ++ payload) ++ "." ++ signature)
        with (String "." (payload ++ String "." signature)).
      by rewrite (split_dot_segment header _ Hh), (split_dot_segment payload _ Hp). }
    assert (H2 : Jwt.split_dot (header ++ "." ++ payload) !! 1%nat = Some payload).
    { change ("." ++ payload) with (String "." payload).
      by rewrite (split_dot_segment header _ Hh), (split_dot_no_dot payload Hp). }
    unfold Jwt.decodeJWT, Jwt.decodeJWT_try. by rewrite H3, H2.
Qed.

Lemma C10_decodeJWT_second_segment_witness :
  Jwt.decodeJWT Sample.atob Sample.decodeURIComponent Sample.JSON_parse "x.e30"
    = Exn.Return (Json.JObj []) ∧
  Jwt.decodeJWT Sample.atob Sample.decodeURIComponent Sample.JSON_parse "not-a-token"
    = Exn.Return Json.JNull ∧
  Jwt.decodeJWT Sample.atob Sample.decodeURIComponent Sample.JSON_parse "x.e30.sig"
    = Jwt.decodeJWT Sample.atob Sample.decodeURIComponent Sample.JSON_parse "x.e30".
Proof.
  pose proof (C10_decodeJWT_second_segment Sample.atob Sample.decodeURIComponent
                Sample.JSON_parse "x.e30") as H.
  pose proof (C10_decodeJWT_second_segment Sample.atob Sample.decodeURIComponent
                Sample.JSON_parse "not-a-token") as H'.
  cbv zeta in H, H'. cbv beta in H, H'.
  destruct H as (_ & _ & _ & _ & Hok & Hsig). destruct H' as (_ & Hnull & _).
  split; [|split].
  - exact (Hok "e30" "{}" "{}" (Json.JObj []) eq_refl eq_refl eq_refl eq_refl).
  - exact (Hnull eq_refl).
  - exact (Hsig "x" "e30" "sig" eq_refl eq_refl eq_refl).
Defined.

(** ** Gateway errors *)

Section GatewayFacts.
Import Json Exn Api.

Lemma request_not_ok (url : string) (res : Response) :
  ok res = false →
  request url (Resolves res) = Throw (mkError Error (failureMessage res)).
Proof. intros Hok. unfold request. by rewrite Hok. Qed.

Lemma handleApiError_not_ok (res : Response) (fallback : string) :
  ok res = false →
  handleApiError res fallback =
  Throw (mkError Error (handleApiError_message res fallback)).
Proof. intros Hok. unfold handleApiError. by rewrite Hok. Qed.

Lemma truthy_nonempty (X : string) : X ≠ "" → truthy (Some (JStr X)) = true.
Proof.
  intros HX. simpl. destruct (String.eqb_spec X ""); [contradiction|reflexivity].
Qed.

End GatewayFacts.

(** C5, as the code has it.  Both gateways read [detail] under a truthiness
    test, so an empty string counts as absent; the first gateway also reads
    a [message] field when there is no [detail]. *)
Lemma C5_counterexample :
  Api.requestJson "/api/auth/login" (Api.Resolves SampleResponse.emptyDetail)
    = Exn.Throw (Exn.mkError Exn.Error (Json.JStr "Request failed (400)")) ∧
  Api.handleApiError SampleResponse.emptyDetail "Login failed"
    = Exn.Throw (Exn.mkError Exn.Error (Json.JStr "Login failed")) ∧
  Json.prop "detail" (Json.JObj [("detail", Json.JStr "")]) = Some (Json.JStr "") ∧
  Api.requestJson "/api/auth/login" (Api.Resolves SampleResponse.messageOnly)
    = Exn.Throw (Exn.mkError Exn.Error (Json.JStr "Too many requests")).
Proof. repeat split; vm_compute; reflexivity. Qed.

(** C5, amended.  For a response that is not ok, each gateway throws one
    [Error].  Its message is the body's [detail] when that is a non-empty
    string, and the first entry's [msg] when [detail] is an array whose
    first entry has a non-empty string [msg].  When the body does not
    parse, the message is the fallback: [Request failed (<status>)] in
    [requestJson] and [requestFormData], the caller's operation message in
    [handleApiError].  When the body parses but has no truthy [detail],
    [handleApiError] uses the fallback, and [requestJson] uses the body's
    [message] field if it is truthy and the fallback otherwise. *)
Theorem C5_error_message (url fallback : string) (res : Api.Response)
    (Hnok : Api.ok res = false) :
  (∃ msg, Api.requestJson url (Api.Resolves res) = Exn.Throw (Exn.mkError Exn.Error msg) ∧
          Api.requestFormData url (Api.Resolves res) = Exn.Throw (Exn.mkError Exn.Error msg)) ∧
  (∃ msg, Api.handleApiError res fallback = Exn.Throw (Exn.mkError Exn.Error msg)) ∧
  (∀ body X,
     Api.json_body res = Exn.Return body →
     Json.prop "detail" body = Some (Json.JStr X) → X ≠ "" →
     Api.requestJson url (Api.Resolves res) = Exn.Throw (Exn.mkError Exn.Error (Json.JStr X)) ∧
     Api.handleApiError res fallback = Exn.Throw (Exn.mkError Exn.Error (Json.JStr X))) ∧
  (∀ body first rest M,
     Api.json_body res = Exn.Return body →
     Json.prop "detail" body = Some (Json.JArr (first :: rest)) →
     Json.prop "msg" first = Some (Json.JStr M) → M ≠ "" →
     Api.requestJson url (Api.Resolves res) = Exn.Throw (Exn.mkError Exn.Error (Json.JStr M)) ∧
     Api.handleApiError res fallback = Exn.Throw (Exn.mkError Exn.Error (Json.JStr M))) ∧
  (∀ e,
     Api.json_body res = Exn.Throw e →
     Api.requestJson url (Api.Resolves res) =
       Exn.Throw (Exn.mkError Exn.Error
                    (Json.JStr ("Request failed (" ++ pretty (Api.status res) ++ ")"))) ∧
     Api.handleApiError res fallback =
       Exn.Throw (Exn.mkError Exn.Error (Json.JStr fallback))) ∧
  (∀ body,
     Api.json_body res = Exn.Return body →
     Json.truthy (Json.opt_prop "detail" (Some body)) = false →
     Api.handleApiError res fallback =
       Exn.Throw (Exn.mkError Exn.Error (Json.JStr fallback)) ∧
     Api.requestJson url (Api.Resolves res) =
       Exn.Throw (Exn.mkError Exn.Error
         (match Json.opt_prop "message" (Some body) with
          | Some m => if Json.truthy (Some m) then m
                      else Json.JStr ("Request failed (" ++ pretty (Api.status res) ++ ")")
          | None => Json.JStr ("Request failed (" ++ pretty (Api.status res) ++ ")")
          end))).
Proof.
  unfold Api.requestJson, Api.requestFormData.
  rewrite (request_not_ok url res Hnok), (handleApiError_not_ok res fallback Hnok).
  split; [eauto|]. split; [eauto|].
  unfold Api.failureMessage, Api.handleApiError_message.
  split; [|split; [|split]].
  - intros body X -> Hd HX.
    assert (Hb : body ≠ Json.JNull) by (intros ->; discriminate Hd).
    destruct body; try contradiction; try discriminate Hd.
    cbn [Json.opt_prop]. rewrite Hd, (truthy_nonempty X HX). done.
  - intros body first rest M -> Hd Hm HM.
    destruct body; try discriminate Hd.
    cbn [Json.opt_prop]. rewrite Hd.
    cbn [Json.truthy Json.opt_index0 Json.index0 head].
    destruct first; try discriminate Hm.
    cbn [Json.opt_prop]. rewrite Hm. cbn [Json.nullish_or Json.falsy_or].
    by rewrite (truthy_nonempty M HM).
  - intros e ->. done.
  - intros b Hb Hd. rewrite Hb. split.
    + destruct b; try reflexivity.
      cbn [Json.opt_prop] in Hd. by rewrite Hd.
    + by rewrite Hd.
Qed.

Lemma C5_error_message_witness :
  Api.requestJson "/api/auth/register" (Api.Resolves SampleResponse.validationDetail)
    = Exn.Throw (Exn.mkError Exn.Error (Json.JStr "field required")) ∧
  Api.handleApiError SampleResponse.validationDetail "Registration failed"
    = Exn.Throw (Exn.mkError Exn.Error (Json.JStr "field required")).
Proof.
  refine (proj1 (proj2 (proj2 (proj2
    (C5_error_message "/api/auth/register" "Registration failed"
       SampleResponse.validationDetail eq_refl)))) _ _ _ "field required" eq_refl eq_refl eq_refl _).
  discriminate.
Defined.

(** ** Camera release *)

Section CameraFacts.
Import Dom.

Lemma stopTracks_not_live (stream : list nat) (live : gset nat) (t : nat) :
  t ∈ stream → t ∉ stopTracks stream live.
Proof.
  intros Ht. unfold stopTracks. rewrite elem_of_difference, elem_of_list_to_set.
  tauto.
Qed.

Lemma stopTracks_owned (stream : list nat) (live owned : gset nat) (t : nat) :
  (∀ k, k ∈ owned → k ∈ live → k ∈ stream) → t ∈ owned →
  t ∉ stopTracks stream live.
Proof.
  intros Hown Ht. unfold stopTracks.
  rewrite elem_of_difference, elem_of_list_to_set. intros [Hl Hs]. auto.
Qed.

Lemma stopTracks_subseteq (stream : list nat) (live : gset nat) :
  stopTracks stream live ⊆ live.
Proof.
  intros t. unfold stopTracks. rewrite elem_of_difference. tauto.
Qed.

Lemma mark_stopCamera_idem (s : MarkAttendance.State) :
  MarkAttendance.stopCamera (MarkAttendance.stopCamera s) = MarkAttendance.stopCamera s.
Proof.
  destruct s as [a p img ds sel subs ok err v c st lv].
  unfold MarkAttendance.stopCamera.
  destruct st as [stream|], v as [video|]; reflexivity.
Qed.

Lemma training_stopCamera_idem (s : StudentTraining.State) :
  StudentTraining.stopCamera (StudentTraining.stopCamera s) = StudentTraining.stopCamera s.
Proof.
  destruct s as [a p img file ok f v c inp st lv].
  unfold StudentTraining.stopCamera.
  destruct st as [stream|], v as [video|]; reflexivity.
Qed.

Lemma mark_stopCamera_iter (s : MarkAttendance.State) (n : nat) :
  Nat.iter (S n) MarkAttendance.stopCamera s = MarkAttendance.stopCamera s.
Proof.
  induction n as [|n IH]; [reflexivity|].
  change (Nat.iter (S (S n)) MarkAttendance.stopCamera s)
    with (MarkAttendance.stopCamera (Nat.iter (S n) MarkAttendance.stopCamera s)).
  rewrite IH. apply mark_stopCamera_idem.
Qed.

Lemma training_stopCamera_iter (s : StudentTraining.State) (n : nat) :
  Nat.iter (S n) StudentTraining.stopCamera s = StudentTraining.stopCamera s.
Proof.
  induction n as [|n IH]; [reflexivity|].
  change (Nat.iter (S (S n)) StudentTraining.stopCamera s)
    with (StudentTraining.stopCamera (Nat.iter (S n) StudentTraining.stopCamera s)).
  rewrite IH. apply training_stopCamera_idem.
Qed.

End CameraFacts.

(** C7.  The claim fails on the MarkAttendance screen.  Start Camera is
    clicked on the mounted screen and the device grants a stream of
    tracks 1 and 2.  The video element is not rendered while the camera
    flag is false, so [startCamera] neither stores the stream nor stops
    it: no stream is held, the flag is false and both tracks are live.
    The Stop Camera button is not rendered; a call of [stopCamera], and
    the unmount cleanup, find no stream and leave both tracks live, also
    when the grant arrives after the screen was left. *)
Lemma C7_granted_tracks_stay_live :
  let mounted := MarkAttendance.initial (Some 7) SampleScreen.canvas in
  let requesting :=
    MarkAttendance.run mounted
      [MarkAttendance.SubjectsResolved 0 [SampleScreen.cs101];
       MarkAttendance.ClickStartCamera] in
  let granted := MarkAttendance.step requesting (MarkAttendance.MediaGranted 0 [1; 2]%nat) in
  let stopped := MarkAttendance.stopCamera (MarkAttendance.ui granted) in
  let left := MarkAttendance.step granted MarkAttendance.Unmount in
  let late :=
    MarkAttendance.run requesting
      [MarkAttendance.Unmount; MarkAttendance.MediaGranted 0 [1; 2]%nat] in
  MarkAttendance.tasks requesting = [MarkAttendance.AwaitMedia] ∧
  MarkAttendance.streamRef (MarkAttendance.ui granted) = None ∧
  MarkAttendance.isCameraActive (MarkAttendance.ui granted) = false ∧
  MarkAttendance.live (MarkAttendance.ui granted) = {[1; 2]}%nat ∧
  MarkAttendance.step granted MarkAttendance.ClickStopCamera = granted ∧
  MarkAttendance.streamRef stopped = None ∧
  MarkAttendance.isCameraActive stopped = false ∧
  MarkAttendance.live stopped = {[1; 2]}%nat ∧
  MarkAttendance.mounted left = false ∧
  MarkAttendance.live (MarkAttendance.ui left) = {[1; 2]}%nat ∧
  MarkAttendance.live (MarkAttendance.ui late) = {[1; 2]}%nat ∧
  1%nat ∈ MarkAttendance.live stopped ∧
  2%nat ∈ MarkAttendance.live (MarkAttendance.ui left).
Proof.
  cbn. split_and!; try reflexivity.
  all: try (apply set_eq; intros t; set_solver).
  all: set_solver.
Qed.

(** ** Local rejection of a submission *)

(** C2.  On the MarkAttendance screen a capture is rejected when no subject
    is selected, when no frame can be captured (no canvas, no video element
    or a video without a current frame), or when a submission is in flight
    ([isProcessing], which disables the button).  On the StudentTraining
    screen the submission is rejected when no image file is held, when the
    form is incomplete, or when a submission is in flight.  A rejected
    attempt leaves the state as it was, leaves no continuation pending, and
    requests nothing but toasts: no encoding and no network call. *)
Theorem C2_rejected_locally
    (s : MarkAttendance.State) (u : StudentTraining.State)
    (Hs : MarkAttendance.truthyId (MarkAttendance.selectedSubject s) = None ∨
          MarkAttendance.frameReady s = false ∨
          MarkAttendance.isProcessing s = true)
    (Hu : StudentTraining.capturedFile u = None ∨
          StudentTraining.isFormValid u = false ∨
          StudentTraining.isProcessing u = true) :
  (∃ notices, MarkAttendance.clickCapture s = (s, notices, []) ∧
              forallb MarkAttendance.isToast notices = true) ∧
  (MarkAttendance.isProcessing s = false →
   ∃ notices, MarkAttendance.captureAndProcess s = (s, notices, []) ∧
              forallb MarkAttendance.isToast notices = true) ∧
  (∃ notices, StudentTraining.formSubmit u = (u, notices, []) ∧
              forallb StudentTraining.isToast notices = true) ∧
  (StudentTraining.isProcessing u = false →
   ∃ notices, StudentTraining.submit u = (u, notices, []) ∧
              forallb StudentTraining.isToast notices = true).
Proof.
  assert (Hcap : MarkAttendance.isProcessing s = false →
            ∃ notices, MarkAttendance.captureAndProcess s = (s, notices, []) ∧
                       forallb MarkAttendance.isToast notices = true).
  { intros Hp. destruct Hs as [Hsub|[Hfr|Hpr]]; [| |congruence].
    - unfold MarkAttendance.captureAndProcess. rewrite Hsub. eauto.
    - unfold MarkAttendance.captureAndProcess, MarkAttendance.frameReady in *.
      destruct (MarkAttendance.truthyId _); [|eauto].
      destruct (MarkAttendance.canvasRef s), (MarkAttendance.videoRef s); eauto.
      rewrite Hfr. cbn. eauto. }
  assert (Hsub : StudentTraining.isProcessing u = false →
            ∃ notices, StudentTraining.submit u = (u, notices, []) ∧
                       forallb StudentTraining.isToast notices = true).
  { intros Hp. unfold StudentTraining.submit.
    destruct Hu as [Hf|[Hv|Hpr]]; [| |congruence].
    - rewrite Hf. eauto.
    - destruct (StudentTraining.capturedFile u); [|eauto]. rewrite Hv. cbn. eauto. }
  split; [|split; [exact Hcap|split; [|exact Hsub]]].
  - unfold MarkAttendance.clickCapture, MarkAttendance.captureEnabled.
    destruct (MarkAttendance.isProcessing s) eqn:Hp.
    + rewrite andb_false_r. eauto.
    + destruct (MarkAttendance.isCameraActive s); cbn; eauto.
  - unfold StudentTraining.formSubmit.
    destruct (StudentTraining.isProcessing u) eqn:Hp.
    + rewrite orb_true_r. eauto.
    + destruct (_ || _ || _); eauto.
Qed.

(** A second click while the first capture is processing, and a form
    submitted without a photo. *)
Lemma C2_rejected_locally_witness :
  let busy := MarkAttendance.set_isProcessing true SampleScreen.marking in
  (∃ notices, MarkAttendance.clickCapture busy = (busy, notices, []) ∧
              forallb MarkAttendance.isToast notices = true) ∧
  (∃ notices, StudentTraining.formSubmit SampleScreen.enrolling
                = (SampleScreen.enrolling, notices, []) ∧
              forallb StudentTraining.isToast notices = true).
Proof.
  intros busy.
  pose proof (C2_rejected_locally busy SampleScreen.enrolling
                (or_intror (or_intror eq_refl)) (or_introl eq_refl)) as H.
  exact (conj (proj1 H) (proj1 (proj2 (proj2 H)))).
Defined.

(** ** Capture: encoding and the camera *)

(** C8, as the code has it.  On the MarkAttendance screen a capture that
    is submitted and answered with two detections leaves the camera as it
    was: the flag is still true, the stream is still held and its tracks
    are still live. *)
Lemma C8_counterexample :
  let m := MarkAttendance.run SampleScreen.markingMachine
             [MarkAttendance.ClickCapture;
              MarkAttendance.BlobReady 0 true;
              MarkAttendance.ResponseArrived 0 (Wire.Resolved SampleResult.two);
              MarkAttendance.TimerFired 0;
              MarkAttendance.TimerFired 0] in
  MarkAttendance.posts m = 1%nat ∧
  length (MarkAttendance.detectedStudents (MarkAttendance.ui m)) = 2%nat ∧
  MarkAttendance.isProcessing (MarkAttendance.ui m) = false ∧
  MarkAttendance.isCameraActive (MarkAttendance.ui m) = true ∧
  MarkAttendance.streamRef (MarkAttendance.ui m) = Some [1; 2]%nat ∧
  MarkAttendance.live (MarkAttendance.ui m) = {[1; 2; 9]}%nat.
Proof. repeat split; vm_compute; reflexivity. Qed.

(** C8, amended.  When capture is triggered with a canvas, a video element
    holding a current frame and (on MarkAttendance) a subject selected, the
    canvas takes the video's native width and height, the frame is drawn on
    it when a 2d context exists (mirrored on StudentTraining), and the
    canvas is encoded as image/jpeg at quality 0.9.  On StudentTraining the
    callback that receives the blob stores the file and stops the camera:
    the flag is false, the stream handle is null and the held tracks are
    stopped.  On MarkAttendance the capture, the submission and the
    response leave the camera flag, the stream handle and the live tracks
    unchanged. *)
Theorem C8_capture_encoding
    (s : MarkAttendance.State) (u : StudentTraining.State)
    (canvas : Dom.Canvas) (video : Dom.Video) (subject : Z)
    (Hsc : MarkAttendance.canvasRef s = Some canvas)
    (Hsv : MarkAttendance.videoRef s = Some video)
    (Hsub : MarkAttendance.truthyId (MarkAttendance.selectedSubject s) = Some subject)
    (Huc : StudentTraining.canvasRef u = Some canvas)
    (Huv : StudentTraining.videoRef u = Some video)
    (Hctx : Dom.context2d canvas = true)
    (Hready : Dom.readyState video = 4) :
  (∃ s' image,
     MarkAttendance.captureAndProcess s =
       (s', [MarkAttendance.ToBlob image], [MarkAttendance.AwaitBlob subject image]) ∧
     MarkAttendance.capturedImage s' = Some image ∧
     Dom.mime image = "image/jpeg" ∧
     Dom.quality image = Some Js.lit_0_9 ∧
     Dom.width (Dom.pixels image) = Dom.videoWidth video ∧
     Dom.height (Dom.pixels image) = Dom.videoHeight video ∧
     Dom.bitmap (Dom.pixels image) = Dom.Drawn (Dom.currentFrame video) false ∧
     MarkAttendance.isCameraActive s' = MarkAttendance.isCameraActive s ∧
     MarkAttendance.streamRef s' = MarkAttendance.streamRef s ∧
     MarkAttendance.live s' = MarkAttendance.live s) ∧
  (∀ (t : MarkAttendance.State) image blob outcome,
     let after_blob := (MarkAttendance.onBlob subject image blob t).1.1 in
     let after_response := (MarkAttendance.onResponse outcome t).1.1 in
     MarkAttendance.isCameraActive after_blob = MarkAttendance.isCameraActive t ∧
     MarkAttendance.streamRef after_blob = MarkAttendance.streamRef t ∧
     MarkAttendance.live after_blob = MarkAttendance.live t ∧
     MarkAttendance.isCameraActive after_response = MarkAttendance.isCameraActive t ∧
     MarkAttendance.streamRef after_response = MarkAttendance.streamRef t ∧
     MarkAttendance.live after_response = MarkAttendance.live t) ∧
  (∃ u' image canvas',
     StudentTraining.capturePhoto u =
       (u', [StudentTraining.ToBlob image],
        [StudentTraining.AwaitBlob
           (StudentTraining.roll_no (StudentTraining.form u)) image canvas']) ∧
     Dom.pixels image = canvas' ∧
     Dom.mime image = "image/jpeg" ∧
     Dom.quality image = Some Js.lit_0_9 ∧
     Dom.width canvas' = Dom.videoWidth video ∧
     Dom.height canvas' = Dom.videoHeight video ∧
     Dom.bitmap canvas' = Dom.Drawn (Dom.currentFrame video) true ∧
     StudentTraining.isCameraActive u' = StudentTraining.isCameraActive u ∧
     ∀ (t : StudentTraining.State),
       let done := (StudentTraining.capturePhoto_onBlob
                      (StudentTraining.roll_no (StudentTraining.form u))
                      image canvas' true t).1.1 in
       StudentTraining.isCameraActive done = false ∧
       StudentTraining.streamRef done = None ∧
       (∀ stream k, StudentTraining.streamRef t = Some stream → k ∈ stream →
                    k ∉ StudentTraining.live done) ∧
       (∃ file, StudentTraining.capturedFile done = Some file ∧
                Dom.content file = image ∧ Dom.fileType file = "image/jpeg")).
Proof.
  split; [|split].
  - unfold MarkAttendance.captureAndProcess.
    rewrite Hsub, Hsc, Hsv, Hready. cbn [Z.eqb Pos.eqb negb Dom.resize Dom.context2d].
    rewrite Hctx. eexists _, _. split; [reflexivity|].
    repeat split.
  - intros t image blob outcome. cbn zeta. split; [|split; [|split]].
    + destruct blob; reflexivity.
    + destruct blob; reflexivity.
    + destruct blob; reflexivity.
    + unfold MarkAttendance.onResponse, MarkAttendance.loopAt, MarkAttendance.failed.
      destruct outcome as [result|err]; [|done].
      repeat case_match; done.
  - unfold StudentTraining.capturePhoto.
    rewrite Huc, Huv, Hready. cbn [Z.eqb Pos.eqb negb Dom.resize Dom.context2d].
    rewrite Hctx. cbn [negb]. eexists _, _, _. split; [reflexivity|].
    do 7 (split; [reflexivity|]).
    intros t. cbn zeta. unfold StudentTraining.capturePhoto_onBlob.
    cbn [fst]. unfold StudentTraining.stopCamera.
    destruct t as [a p img file ok f v c inp st lv]. cbn.
    destruct st as [stream|], v as [vid|]; cbn; repeat split; try done;
      try (intros ? ? [= <-]; apply stopTracks_not_live);
      eexists; repeat split.
Qed.

(** On the sample screens: MarkAttendance encodes a 1280 by 720 JPEG and
    keeps the camera active, StudentTraining stops it on the blob. *)
Lemma C8_capture_encoding_witness :
  (∃ s' image,
     MarkAttendance.captureAndProcess SampleScreen.marking =
       (s', [MarkAttendance.ToBlob image], [MarkAttendance.AwaitBlob 7 image]) ∧
     Dom.width (Dom.pixels image) = 1280 ∧
     MarkAttendance.isCameraActive s' = true) ∧
  (∃ u' image canvas',
     StudentTraining.capturePhoto SampleScreen.enrolling =
       (u', [StudentTraining.ToBlob image],
        [StudentTraining.AwaitBlob "21CS042" image canvas']) ∧
     StudentTraining.isCameraActive
       (StudentTraining.capturePhoto_onBlob "21CS042" image canvas' true u').1.1 = false).
Proof.
  destruct (C8_capture_encoding SampleScreen.marking SampleScreen.enrolling
              SampleScreen.canvas SampleScreen.video 7
              eq_refl eq_refl eq_refl eq_refl eq_refl eq_refl eq_refl)
    as [(s' & image & Hcap & _ & _ & _ & Hw & _ & _ & Hact & _) [_ Htr]].
  split.
  - exists s', image. split; [exact Hcap|]. split; [exact Hw|exact Hact].
  - destruct Htr as (u' & img & canvas' & Hcap' & _ & _ & _ & _ & _ & _ & _ & Hdone).
    exists u', img, canvas'. split; [exact Hcap'|]. exact (proj1 (Hdone u')).
Defined.

(** ** The capture workflow under the event loop *)

Section WorkflowFacts.
Import Dom MarkAttendance.
Local Open Scope list_scope.

Lemma count_app {A} (f : A → bool) (l1 l2 : list A) :
  length (List.filter f (l1 ++ l2)) =
  (length (List.filter f l1) + length (List.filter f l2))%nat.
Proof. by rewrite List.filter_app, length_app. Qed.

(** Replacing the continuation at [k] by [spawned]. *)
Lemma count_replace {A} (f : A → bool) (l spawned : list A) (k : nat) (t : A) :
  l !! k = Some t →
  (length (List.filter f (take k l ++ spawned ++ drop (S k) l)) + (if f t then 1 else 0) =
   length (List.filter f l) + length (List.filter f spawned))%nat.
Proof.
  intros Hk. rewrite <- (take_drop_middle l k t Hk) at 3.
  rewrite !count_app. cbn [List.filter]. destruct (f t); cbn [length]; lia.
Qed.

Lemma settle_fields (b : bool) (s : State) :
  isProcessing (if b then commit s else s) = isProcessing s ∧
  detectedStudents (if b then commit s else s) = detectedStudents s ∧
  showSuccess (if b then commit s else s) = showSuccess s ∧
  error (if b then commit s else s) = error s ∧
  isCameraActive (if b then commit s else s) = isCameraActive s ∧
  selectedSubject (if b then commit s else s) = selectedSubject s ∧
  canvasRef (if b then commit s else s) = canvasRef s ∧
  streamRef (if b then commit s else s) = streamRef s ∧
  live (if b then commit s else s) = live s.
Proof.
  destruct b; [|done]. unfold commit.
  destruct (isCameraActive s) eqn:Ha; [destruct (videoRef s)|]; cbn; rewrite ?Ha; done.
Qed.

Lemma singleFlight_extend_quiet (m : Machine) (r : Step) :
  quiet (ui m) r → singleFlight m → singleFlight (extend m r).
Proof.
  destruct r as [[s effects] spawned]. intros (Hp & Hs & Hpost & Hcap) (H1 & H2 & H3).
  cbn in Hp, Hs, Hpost, Hcap.
  assert (Hb : List.filter awaitingBlob spawned = []).
  { clear -Hs. induction spawned as [|t ts IH]; [done|].
    cbn in *. destruct t; cbn in *; try done; auto. }
  unfold singleFlight, inFlight, posts, captures, blobsPending, extend. cbn.
  rewrite !count_app, Hs, Hpost, Hcap, Hb. cbn [length].
  rewrite (proj1 (settle_fields _ _)), Hp. rewrite !Nat.add_0_r. done.
Qed.


Lemma singleFlight_resume (m : Machine) (k : nat) (t : Task) (r : Step) :
  tasks m !! k = Some t → advances (ui m) t r →
  singleFlight m → singleFlight (resume k m r).
Proof.
  destruct r as [[s effects] spawned]. intros Hk [Hkind Hlog] (H1 & H2 & H3).
  cbn [fst snd] in Hkind, Hlog.
  pose proof (count_replace submitting (tasks m) spawned k t Hk) as Hsub.
  pose proof (count_replace awaitingBlob (tasks m) spawned k t Hk) as Hblob.
  unfold singleFlight, inFlight, posts, captures, blobsPending, resume in *.
  cbn [ui tasks log mounted].
  rewrite (proj1 (settle_fields _ _)). rewrite !count_app in *.
  destruct (awaitingBlob t);
    destruct Hkind as [[Hp Hs]|(Hp & Hs & Ht)].
  1,3: destruct (submitting t); rewrite Hp;
    (split; [lia|]; split; [intros Hf; specialize (H2 Hf); lia|lia]).
  all: rewrite Hs, Ht in *; cbn [length] in *;
    (split; [lia|]; split; [intros _; lia|lia]).
Qed.

Lemma advances_fetchSubjects_resolved (data : list Subject) (s : State) :
  advances s AwaitSubjects (fetchSubjects_resolved data s).
Proof. unfold advances, fetchSubjects_resolved. destruct data; cbn; auto with lia. Qed.

Lemma advances_fetchSubjects_rejected (err : Wire.Thrown) (s : State) :
  advances s AwaitSubjects (fetchSubjects_rejected err s).
Proof. unfold advances, fetchSubjects_rejected. cbn; auto with lia. Qed.

Lemma advances_startCamera_granted (stream : list nat) (s : State) :
  advances s AwaitMedia (startCamera_granted stream s).
Proof.
  unfold advances, startCamera_granted. cbn.
  destruct (videoRef s); cbn; auto with lia.
Qed.

Lemma advances_startCamera_denied (s : State) :
  advances s AwaitMedia (startCamera_denied s).
Proof. unfold advances, startCamera_denied. cbn; auto with lia. Qed.

Lemma advances_onBlob (subject : Z) (image : Encoded) (blob : bool) (s : State) :
  advances s (AwaitBlob subject image) (onBlob subject image blob s).
Proof.
  unfold advances, onBlob, failed. destruct blob; cbn; [auto with lia|].
  split; [right; done|lia].
Qed.

Lemma advances_loopAt (students : list DetectedStudent) (i : nat) (s s0 : State) (t : Task) :
  submitting t = true → awaitingBlob t = false → isProcessing s = isProcessing s0 →
  advances s0 t (loopAt students i s).
Proof.
  intros Ht Hb Hp. unfold advances, loopAt, finish. rewrite Ht, Hb.
  destruct (i <? length students)%nat; cbn; [auto with lia|].
  split; [right; done|lia].
Qed.

Lemma advances_onResponse (subject : Z) (outcome : Wire.Outcome) (s : State) :
  advances s (AwaitResponse subject) (onResponse outcome s).
Proof.
  unfold onResponse.
  destruct outcome as [result|err];
    [|unfold advances, failed; cbn; split; [right; done|lia]].
  destruct (length _ =? 0)%nat; [|by apply advances_loopAt].
  unfold advances; cbn. split; [right; done|lia].
Qed.

Lemma advances_onRevealTimer (students : list DetectedStudent) (i : nat) (s : State) :
  advances s (AwaitReveal students i) (onRevealTimer students i s).
Proof.
  unfold onRevealTimer. apply advances_loopAt; [done..|].
  by destruct (students !! i).
Qed.

Lemma advances_onHide (s : State) : advances s AwaitHide (onHide s).
Proof. unfold advances, onHide. cbn; auto with lia. Qed.

(** An accepted capture starts the only submission; a rejected one changes
    nothing. *)
Lemma captureAndProcess_cases (s : State) :
  (∃ notices, captureAndProcess s = (s, notices, []) ∧
              List.filter isPost notices = [] ∧ List.filter isCapture notices = []) ∨
  (∃ s' subject image,
     captureAndProcess s = (s', [ToBlob image], [AwaitBlob subject image]) ∧
     isProcessing s' = true ∧
     truthyId (selectedSubject s) = Some subject ∧ frameReady s = true).
Proof.
  unfold captureAndProcess, frameReady.
  destruct (truthyId _) as [subject|]; [|left; eauto].
  destruct (canvasRef s) as [canvas|], (videoRef s) as [video|]; try (left; by eauto).
  destruct (readyState video =? 4); cbn [negb]; [|left; by eauto].
  right. eexists _, _, _. done.
Qed.

Lemma singleFlight_step (m : Machine) (e : Event) :
  singleFlight m → singleFlight (step m e).
Proof.
  intros Hinv. destruct e; cbn [step].
  - destruct (_ && _); [|done]. apply singleFlight_extend_quiet; [|done].
    by unfold quiet.
  - destruct (_ && _); [|done]. apply singleFlight_extend_quiet; [|done].
    unfold quiet, stopCamera.
    destruct (ui m) as [a p img ds sel subs ok err v c st lv].
    destruct st, v; done.
  - destruct (mounted m && captureEnabled (ui m)) eqn:Hen; [|done].
    apply andb_prop in Hen as [_ Hen]. unfold captureEnabled in Hen.
    apply andb_prop in Hen as [_ Hp]. apply negb_true_iff in Hp.
    destruct (captureAndProcess_cases (ui m))
      as [(notices & -> & Hn1 & Hn2)|(s' & subject & image & -> & Hp' & _)].
    + apply singleFlight_extend_quiet; [|done]. by unfold quiet.
    + destruct Hinv as (H1 & H2 & H3). specialize (H2 Hp).
      unfold singleFlight, inFlight, posts, captures, blobsPending, extend in *.
      cbn [ui tasks log mounted].
      rewrite !count_app, (proj1 (settle_fields _ _)), Hp'. cbn.
      split; [lia|]. split; [done|lia].
  - destruct (_ && _); [|done]. apply singleFlight_extend_quiet; [|done].
    by unfold quiet.
  - destruct (tasks m !! k) as [[]|] eqn:Hk; try done.
    eapply singleFlight_resume; eauto using advances_fetchSubjects_resolved.
  - destruct (tasks m !! k) as [[]|] eqn:Hk; try done.
    eapply singleFlight_resume; eauto using advances_fetchSubjects_rejected.
  - destruct (tasks m !! k) as [[]|] eqn:Hk; try done.
    eapply singleFlight_resume; eauto using advances_startCamera_granted.
  - destruct (tasks m !! k) as [[]|] eqn:Hk; try done.
    eapply singleFlight_resume; eauto using advances_startCamera_denied.
  - destruct Hinv as (H1 & H2 & H3).
    unfold singleFlight, inFlight, posts, captures, blobsPending, progress in *.
    cbn [ui tasks log mounted]. by destruct (videoRef (ui m)).
  - destruct (tasks m !! k) as [[]|] eqn:Hk; try done.
    eapply singleFlight_resume; eauto using advances_onBlob.
  - destruct (tasks m !! k) as [[]|] eqn:Hk; try done.
    eapply singleFlight_resume; eauto using advances_onResponse.
  - destruct (tasks m !! k) as [[]|] eqn:Hk; try done.
    + eapply singleFlight_resume; eauto using advances_onRevealTimer.
    + eapply singleFlight_resume; eauto using advances_onHide.
  - destruct (mounted m); [|done].
    destruct Hinv as (H1 & H2 & H3).
    unfold singleFlight, inFlight, posts, captures, blobsPending, unmountCleanup in *.
    cbn [ui tasks log mounted]. by destruct (streamRef (ui m)).
Qed.

Lemma singleFlight_run (events : list Event) (m : Machine) :
  singleFlight m → singleFlight (run m events).
Proof.
  revert m. induction events as [|e events IH]; intros m Hinv; [done|].
  cbn. apply IH. by apply singleFlight_step.
Qed.


Lemma commit_idem (s : State) : commit (commit s) = commit s.
Proof.
  destruct s as [a p img ds sel subs ok err v c st lv].
  unfold commit. destruct a, v; reflexivity.
Qed.

(** The newest continuation sits at the end of the pending list. *)
Lemma resume_last (m : Machine) (ts : list Task) (t : Task) (r : Step) :
  tasks m = ts ++ [t] →
  resume (length ts) m r =
  {| ui := if mounted m then commit r.1.1 else r.1.1;
     tasks := ts ++ r.2;
     log := log m ++ r.1.2;
     mounted := mounted m |}.
Proof.
  intros Hts. destruct r as [[s effects] spawned]. unfold resume. rewrite Hts.
  cbn [fst snd]. f_equal.
  rewrite take_app_length.
  rewrite (drop_ge (ts ++ [t])) by (rewrite length_app; cbn; lia).
  by rewrite app_nil_r.
Qed.

Lemma lookup_last (ts : list Task) (t : Task) : (ts ++ [t]) !! length ts = Some t.
Proof. by rewrite list_lookup_middle. Qed.

(** With a subject selected and a frame at hand, [captureAndProcess] goes
    through. *)
Lemma captureAndProcess_accepted (s : State) (subject : Z) :
  truthyId (selectedSubject s) = Some subject → frameReady s = true →
  ∃ s' image,
    captureAndProcess s = (s', [ToBlob image], [AwaitBlob subject image]) ∧
    isProcessing s' = true ∧ detectedStudents s' = [] ∧ error s' = None ∧
    showSuccess s' = showSuccess s.
Proof.
  intros Hsub Hfr. unfold captureAndProcess, frameReady in *. rewrite Hsub.
  destruct (canvasRef s) as [canvas|]; [|done].
  destruct (videoRef s) as [video|]; [|done]. rewrite Hfr. cbn [negb].
  eexists _, _. done.
Qed.

(** An accepted capture whose blob is produced: one encoding, one network
    submission, one continuation more. *)
Lemma capture_then_blob (m : Machine) :
  captureAccepted m = true →
  ∃ s subject image file,
    step m ClickCapture =
      {| ui := s; tasks := tasks m ++ [AwaitBlob subject image];
         log := log m ++ [ToBlob image]; mounted := true |} ∧
    run m [ClickCapture; BlobReady (length (tasks m)) true] =
      {| ui := s; tasks := tasks m ++ [AwaitResponse subject];
         log := log m ++ [ToBlob image; PostMarkAttendance subject file];
         mounted := true |} ∧
    isProcessing s = true ∧ detectedStudents s = [] ∧ error s = None ∧
    showSuccess s = showSuccess (ui m) ∧ isProcessing (ui m) = false.
Proof.
  unfold captureAccepted. intros Hacc.
  destruct (truthyId _) as [subject|] eqn:Hsub; [|by rewrite andb_false_r in Hacc].
  rewrite andb_true_r in Hacc.
  apply andb_prop in Hacc as [Hacc Hfr]. apply andb_prop in Hacc as [Hm Hen].
  destruct (captureAndProcess_accepted (ui m) subject Hsub Hfr)
    as (s' & image & Hcap & Hp & Hd & He & Hs).
  pose proof (commit_idem s') as Hcommit.
  exists (commit s'), subject, image,
    {| fileName := "classroom.jpg"; fileType := "image/jpeg"; content := image |}.
  assert (Hstep : step m ClickCapture =
            {| ui := commit s'; tasks := tasks m ++ [AwaitBlob subject image];
               log := log m ++ [ToBlob image]; mounted := true |}).
  { cbn [step]. rewrite Hm, Hen. cbn [andb]. rewrite Hcap. unfold extend.
    by rewrite Hm. }
  pose proof (settle_fields true s') as (Hp' & Hd' & Hs' & He' & _).
  cbn [run fold_left]. rewrite Hstep. cbn [step tasks ui].
  rewrite lookup_last.
  erewrite resume_last by reflexivity. cbn [onBlob fst snd mounted log ui].
  rewrite Hcommit, <- app_assoc. cbn [app].
  unfold captureEnabled in Hen. apply andb_prop in Hen as [_ Hen].
  apply negb_true_iff in Hen.
  repeat split; congruence.
Qed.

(** The staged reveal, [k] timers on from index [j]. *)
Lemma reveal_steps (k : nat) :
  ∀ (m : Machine) (ts : list Task) (students : list DetectedStudent) (j : nat),
    tasks m = ts ++ [AwaitReveal students j] →
    (j + k ≤ length students)%nat → (j < length students)%nat →
    let mk := run m (replicate k (TimerFired (length ts))) in
    detectedStudents (ui mk) = detectedStudents (ui m) ++ take k (drop j students) ∧
    ((j + k < length students)%nat →
     tasks mk = ts ++ [AwaitReveal students (j + k)] ∧
     isProcessing (ui mk) = isProcessing (ui m) ∧
     showSuccess (ui mk) = showSuccess (ui m)) ∧
    ((j + k = length students)%nat →
     tasks mk = ts ++ [AwaitHide] ∧
     isProcessing (ui mk) = false ∧ showSuccess (ui mk) = true).
Proof.
  induction k as [|k IH]; intros m ts students j Hts Hjk Hj; cbn zeta.
  - cbn [replicate run fold_left]. rewrite Nat.add_0_r, app_nil_r.
    split; [done|]. split; [done|lia].
  - cbn [replicate run fold_left]. fold (run (step m (TimerFired (length ts)))
                                             (replicate k (TimerFired (length ts)))).
    destruct (lookup_lt_is_Some_2 students j Hj) as [x Hx].
    assert (Hstep : step m (TimerFired (length ts)) =
              resume (length ts) m (onRevealTimer students j (ui m))).
    { cbn [step]. by rewrite Hts, lookup_last. }
    rewrite Hstep, (resume_last m ts _ _ Hts).
    unfold onRevealTimer, loopAt. rewrite Hx.
    assert (Hdrop : drop j students = x :: drop (S j) students)
      by (by apply drop_S).
    destruct (S j <? length students)%nat eqn:Hlt.
    + apply Nat.ltb_lt in Hlt. cbn [fst snd].
      match goal with
      | |- context [run ?m1 (replicate k _)] =>
          destruct (IH m1 ts students (S j)) as (Hd & Hmid & Hend);
          [reflexivity|lia|lia|]
      end.
      cbn zeta in Hd, Hmid, Hend. cbn [ui] in Hd, Hmid, Hend.
      pose proof (settle_fields (mounted m)
                    (set_detectedStudents (detectedStudents (ui m) ++ [x]) (ui m)))
        as (Hp' & Hd' & Hs' & _).
      rewrite Hd' in Hd. rewrite Hp', Hs' in Hmid. cbn in Hd, Hmid.
      rewrite Hdrop. cbn [take]. rewrite <- app_assoc in Hd. cbn [app] in Hd.
      split; [exact Hd|]. split.
      * intros Hlt'. replace (j + S k)%nat with (S j + k)%nat by lia.
        apply Hmid. lia.
      * intros Heq. apply Hend. lia.
    + apply Nat.ltb_ge in Hlt. assert (k = 0%nat) as -> by lia.
      cbn [replicate run fold_left finish fst snd ui tasks].
      pose proof (settle_fields (mounted m)
                    (set_isProcessing false (set_showSuccess true
                       (set_detectedStudents (detectedStudents (ui m) ++ [x]) (ui m)))))
        as (Hp' & Hd' & Hs' & _).
      rewrite Hd', Hp', Hs', Hdrop. cbn.
      split; [by rewrite take_0|]. split; [lia|done].
Qed.


Lemma singleFlight_initial (userId : option Z) (canvas : Canvas) :
  singleFlight (initial userId canvas).
Proof.
  unfold initial. destruct (truthyId userId);
    unfold singleFlight, inFlight, posts, captures, blobsPending; cbn;
    repeat split; lia.
Qed.

Lemma run_app (m : Machine) (l1 l2 : list Event) :
  run m (l1 ++ l2) = run (run m l1) l2.
Proof. apply fold_left_app. Qed.

(** A capture answered by a non-empty result: nothing is disclosed yet and
    the whole list waits in the reveal continuation. *)
Lemma capture_then_result (m : Machine) (result : Wire.AttendanceResult)
    (entries : list Wire.Entry) :
  captureAccepted m = true →
  Wire.students_present result = Some entries → (1 ≤ length entries)%nat →
  let answered := run m [ClickCapture; BlobReady (length (tasks m)) true;
                         ResponseArrived (length (tasks m)) (Wire.Resolved result)] in
  tasks answered = tasks m ++ [AwaitReveal (map toDetected entries) 0] ∧
  detectedStudents (ui answered) = [] ∧
  isProcessing (ui answered) = true ∧
  posts answered = S (posts m).
Proof.
  intros Hacc Hres Hn answered. subst answered.
  destruct (capture_then_blob m Hacc)
    as (s & subject & image & file & _ & Hrun & Hp & Hd & He & Hs & _).
  change [ClickCapture; BlobReady (length (tasks m)) true;
          ResponseArrived (length (tasks m)) (Wire.Resolved result)]
    with ([ClickCapture; BlobReady (length (tasks m)) true] ++
          [ResponseArrived (length (tasks m)) (Wire.Resolved result)]).
  rewrite run_app, Hrun. cbn [run fold_left step tasks ui].
  rewrite lookup_last. erewrite resume_last by reflexivity.
  unfold onResponse. rewrite Hres.
  change (default [] (Some entries)) with entries.
  assert (Hlen : length (map toDetected entries) = length entries)
    by apply length_map.
  destruct (map toDetected entries) as [|d ds] eqn:Hmap; [cbn in Hlen; lia|].
  cbn [length Nat.eqb Nat.ltb Nat.leb loopAt].
  cbn [fst snd tasks ui mounted log]. unfold posts. cbn [log].
  rewrite !count_app. cbn [List.filter isPost length].
  pose proof (settle_fields true s) as (Hp' & Hd' & _).
  repeat split; [congruence..|lia].
Qed.

End WorkflowFacts.

(** C3.  When a capture is accepted, its blob produced and the response
    carries N >= 1 detections, the whole classified list is computed when
    the response arrives and waits in the reveal continuation with nothing
    disclosed; after k timers (k <= N) exactly the first k items are
    disclosed, each timer appending the next item of the response, in the
    response's order; after N timers the disclosed list is the whole list,
    of length N, with the identifiers and confidences of the response in
    order, [isProcessing] is false and the success notice is shown. *)
Theorem C3_staged_reveal
    (m : MarkAttendance.Machine) (result : Wire.AttendanceResult)
    (entries : list Wire.Entry) (k : nat)
    (Hacc : MarkAttendance.captureAccepted m = true)
    (Hres : Wire.students_present result = Some entries)
    (Hn : (1 ≤ length entries)%nat)
    (Hk : (k ≤ length entries)%nat) :
  let i := length (MarkAttendance.tasks m) in
  let students := map MarkAttendance.toDetected entries in
  let answered :=
    MarkAttendance.run m
      [MarkAttendance.ClickCapture; MarkAttendance.BlobReady i true;
       MarkAttendance.ResponseArrived i (Wire.Resolved result)] in
  let after n :=
    MarkAttendance.ui
      (MarkAttendance.run answered (replicate n (MarkAttendance.TimerFired i))) in
  let disclosed n := MarkAttendance.detectedStudents (after n) in
  MarkAttendance.tasks answered =
    (MarkAttendance.tasks m ++ [MarkAttendance.AwaitReveal students 0])%list ∧
  disclosed 0%nat = [] ∧
  disclosed k = take k students ∧
  (∀ x, students !! k = Some x → disclosed (S k) = (disclosed k ++ [x])%list) ∧
  ((k < length entries)%nat → MarkAttendance.isProcessing (after k) = true) ∧
  disclosed (length entries) = students ∧
  length (disclosed (length entries)) = length entries ∧
  map MarkAttendance.student_id (disclosed (length entries)) =
    map Wire.student_id entries ∧
  map MarkAttendance.confidence (disclosed (length entries)) =
    map Wire.confidence entries ∧
  MarkAttendance.isProcessing (after (length entries)) = false ∧
  MarkAttendance.showSuccess (after (length entries)) = true.
Proof.
  intros i students answered after disclosed.
  destruct (capture_then_result m result entries Hacc Hres Hn)
    as (Hts & Hd0 & Hp0 & _).
  fold i students answered in Hts, Hd0, Hp0.
  assert (Hlen : length students = length entries) by apply length_map.
  assert (Hsteps : ∀ n, (n ≤ length entries)%nat →
            disclosed n = take n students ∧
            ((n < length entries)%nat → MarkAttendance.isProcessing (after n) = true) ∧
            ((n = length entries)%nat →
             MarkAttendance.isProcessing (after n) = false ∧
             MarkAttendance.showSuccess (after n) = true)).
  { intros n Hle.
    destruct (reveal_steps n answered (MarkAttendance.tasks m) students 0 Hts)
      as (Hd & Hmid & Hend); [lia|lia|].
    cbn zeta in Hd, Hmid, Hend. fold i in Hd, Hmid, Hend.
    rewrite Hd0, drop_0 in Hd. cbn [app] in Hd.
    split; [exact Hd|]. split.
    - intros Hlt. destruct Hmid as (_ & Hp & _); [lia|]. unfold after. congruence.
    - intros ->. destruct Hend as (_ & Hp & Hs); [lia|]. done. }
  destruct (Hsteps k Hk) as (Hdk & Hpk & _).
  destruct (Hsteps (length entries) (Nat.le_refl _)) as (HdN & _ & HpN).
  destruct (HpN eq_refl) as [HpN' HsN].
  assert (Hall : disclosed (length entries) = students).
  { rewrite HdN, <- Hlen. apply firstn_all. }
  split; [exact Hts|]. split; [exact Hd0|]. split; [exact Hdk|].
  split.
  { intros x Hx. assert (Hlt : (S k ≤ length entries)%nat).
    { apply lookup_lt_Some in Hx. lia. }
    destruct (Hsteps (S k) Hlt) as (HdS & _). rewrite HdS, Hdk.
    by apply take_S_r. }
  split; [exact Hpk|]. split; [exact Hall|].
  split; [by rewrite Hall|].
  split; [rewrite Hall; unfold students; rewrite map_map; reflexivity|].
  split; [rewrite Hall; unfold students; rewrite map_map; reflexivity|].
  done.
Qed.

(** C6.  From any state of the screen that satisfies [singleFlight] (the
    initial state does), every sequence of events leads to a state with at
    most one submission in flight, in which every network submission
    belongs to a capture of its own.  While a submission is in
    flight a click on Capture changes nothing: the attempt is rejected and
    the pending continuation is kept.  From a state that accepts a capture,
    two clicks followed by the blob are one click followed by the blob:
    one encoding and one network submission more, one submission in
    flight. *)
Theorem C6_single_flight
    (m : MarkAttendance.Machine) (events : list MarkAttendance.Event)
    (Hinv : MarkAttendance.singleFlight m) :
  let m' := MarkAttendance.run m events in
  let i := length (MarkAttendance.tasks m') in
  let once :=
    MarkAttendance.run m'
      [MarkAttendance.ClickCapture; MarkAttendance.BlobReady i true] in
  let twice :=
    MarkAttendance.run m'
      [MarkAttendance.ClickCapture; MarkAttendance.ClickCapture;
       MarkAttendance.BlobReady i true] in
  (∀ userId canvas, MarkAttendance.singleFlight (MarkAttendance.initial userId canvas)) ∧
  MarkAttendance.singleFlight m' ∧
  (MarkAttendance.inFlight m' ≤ 1)%nat ∧
  ((1 ≤ MarkAttendance.inFlight m')%nat →
   MarkAttendance.step m' MarkAttendance.ClickCapture = m') ∧
  (MarkAttendance.captureAccepted m' = true →
   twice = once ∧
   MarkAttendance.posts twice = S (MarkAttendance.posts m') ∧
   MarkAttendance.captures twice = S (MarkAttendance.captures m') ∧
   MarkAttendance.inFlight twice = 1%nat ∧
   MarkAttendance.step twice MarkAttendance.ClickCapture = twice).
Proof.
  intros m' i once twice.
  pose proof (singleFlight_run events m Hinv) as Hinv'. fold m' in Hinv'.
  assert (Hbusy : ∀ x, MarkAttendance.isProcessing (MarkAttendance.ui x) = true →
                       MarkAttendance.step x MarkAttendance.ClickCapture = x).
  { intros x Hp. cbn [MarkAttendance.step]. unfold MarkAttendance.captureEnabled.
    by rewrite Hp, !andb_false_r. }
  split; [apply singleFlight_initial|].
  split; [exact Hinv'|]. split; [apply Hinv'|]. split.
  - intros Hone. apply Hbusy.
    destruct Hinv' as (_ & H2 & _).
    destruct (MarkAttendance.isProcessing (MarkAttendance.ui m')); [done|].
    specialize (H2 eq_refl). lia.
  - intros Hacc.
    destruct (capture_then_blob m' Hacc)
      as (s & subject & image & file & Hclick & Hrun & Hp & _ & _ & _ & Hidle).
    fold i once in Hrun.
    assert (Htwice : twice = once).
    { unfold twice, once. cbn [MarkAttendance.run fold_left].
      rewrite Hclick. by rewrite Hbusy. }
    destruct Hinv' as (_ & H2 & _). specialize (H2 Hidle).
    rewrite Htwice. split; [done|].
    assert (Hlast : MarkAttendance.step once MarkAttendance.ClickCapture = once)
      by (apply Hbusy; by rewrite Hrun).
    rewrite Hrun in *.
    unfold MarkAttendance.posts, MarkAttendance.captures, MarkAttendance.inFlight in *.
    cbn [MarkAttendance.log MarkAttendance.tasks].
    rewrite !count_app, H2.
    repeat split; [cbn; lia..|exact Hlast].
Qed.

(** Two rapid clicks on the sample screen give one network submission. *)
Lemma C6_single_flight_witness :
  let twice :=
    MarkAttendance.run SampleScreen.markingMachine
      [MarkAttendance.ClickCapture; MarkAttendance.ClickCapture;
       MarkAttendance.BlobReady 0 true] in
  MarkAttendance.posts twice = 1%nat ∧ MarkAttendance.inFlight twice = 1%nat.
Proof.
  assert (Hinv : MarkAttendance.singleFlight SampleScreen.markingMachine).
  { unfold MarkAttendance.singleFlight. vm_compute. repeat split; lia. }
  pose proof (C6_single_flight SampleScreen.markingMachine [] Hinv) as H.
  cbv zeta in H. destruct H as (_ & _ & _ & _ & H).
  destruct (H eq_refl) as (_ & Hposts & _ & Hfl & _).
  split; [exact Hposts|exact Hfl].
Defined.

(** C4, as the code has it.  A response without detections sets [error],
    so the inline error banner is rendered with the styling it has for
    failures, and the state reached is the state a failure with the same
    message reaches. *)
Lemma C4_counterexample :
  let processing := MarkAttendance.set_isProcessing true SampleScreen.marking in
  let empty := (MarkAttendance.onResponse (Wire.Resolved SampleResult.none) processing).1.1 in
  let failure :=
    (MarkAttendance.onResponse
       (Wire.Rejected (Wire.ThrownError "No students detected in the image")) processing).1.1 in
  MarkAttendance.error empty = Some "No students detected in the image" ∧
  MarkAttendance.errorBanner empty =
    Some {| MarkAttendance.className :=
              "mb-4 p-4 rounded-lg bg-destructive/10 border border-destructive/30 flex items-center gap-3";
            MarkAttendance.text := "No students detected in the image" |} ∧
  MarkAttendance.errorBanner empty = MarkAttendance.errorBanner failure ∧
  empty = failure.
Proof. repeat split; vm_compute; reflexivity. Qed.

(** C4, amended.  When a capture is accepted, its blob produced and the
    response carries no detection, no item is disclosed and no reveal is
    left pending, [isProcessing] is false and the success notice is not
    raised.  The feedback is a warning toast ([No students detected. Try
    again with better lighting.]), where a failure raises an error toast
    with its message, and the inline banner: [error] is set to [No
    students detected in the image] and rendered by the banner, with the
    class names it has for a failure. *)
Theorem C4_empty_result
    (m : MarkAttendance.Machine) (result : Wire.AttendanceResult) (msg : string)
    (Hacc : MarkAttendance.captureAccepted m = true)
    (Hres : default [] (Wire.students_present result) = []) :
  let i := length (MarkAttendance.tasks m) in
  let submitted :=
    MarkAttendance.run m [MarkAttendance.ClickCapture; MarkAttendance.BlobReady i true] in
  let empty :=
    MarkAttendance.step submitted (MarkAttendance.ResponseArrived i (Wire.Resolved result)) in
  let failure :=
    MarkAttendance.step submitted (MarkAttendance.ResponseArrived i (Wire.Rejected (Wire.ThrownError msg))) in
  MarkAttendance.detectedStudents (MarkAttendance.ui empty) = [] ∧
  MarkAttendance.tasks empty = MarkAttendance.tasks m ∧
  MarkAttendance.isProcessing (MarkAttendance.ui empty) = false ∧
  MarkAttendance.showSuccess (MarkAttendance.ui empty) =
    MarkAttendance.showSuccess (MarkAttendance.ui m) ∧
  MarkAttendance.log empty =
    (MarkAttendance.log submitted ++
     [MarkAttendance.Toast Dom.toast_warning
        "No students detected. Try again with better lighting."])%list ∧
  MarkAttendance.log failure =
    (MarkAttendance.log submitted ++ [MarkAttendance.Toast Dom.toast_error msg])%list ∧
  MarkAttendance.error (MarkAttendance.ui empty) = Some "No students detected in the image" ∧
  MarkAttendance.error (MarkAttendance.ui failure) = Some msg ∧
  MarkAttendance.errorBanner (MarkAttendance.ui empty) =
    Some {| MarkAttendance.className :=
              "mb-4 p-4 rounded-lg bg-destructive/10 border border-destructive/30 flex items-center gap-3";
            MarkAttendance.text := "No students detected in the image" |} ∧
  (msg ≠ "" →
   MarkAttendance.className <$> MarkAttendance.errorBanner (MarkAttendance.ui failure) =
   MarkAttendance.className <$> MarkAttendance.errorBanner (MarkAttendance.ui empty)).
Proof.
  intros i submitted empty failure.
  destruct (capture_then_blob m Hacc)
    as (s & subject & image & file & _ & Hrun & Hp & Hd & He & Hs & _).
  fold i submitted in Hrun.
  assert (Hempty : empty =
            MarkAttendance.resume i submitted
              (MarkAttendance.onResponse (Wire.Resolved result) (MarkAttendance.ui submitted))).
  { unfold empty. cbn [MarkAttendance.step]. rewrite Hrun.
    cbn [MarkAttendance.tasks]. unfold i. by rewrite lookup_last. }
  assert (Hfailure : failure =
            MarkAttendance.resume i submitted
              (MarkAttendance.onResponse (Wire.Rejected (Wire.ThrownError msg)) (MarkAttendance.ui submitted))).
  { unfold failure. cbn [MarkAttendance.step]. rewrite Hrun.
    cbn [MarkAttendance.tasks]. unfold i. by rewrite lookup_last. }
  rewrite Hempty, Hfailure. unfold i.
  rewrite !(resume_last submitted (MarkAttendance.tasks m)
              (MarkAttendance.AwaitResponse subject)) by (by rewrite Hrun).
  unfold MarkAttendance.onResponse, MarkAttendance.failed. rewrite Hres.
  cbn [map length Nat.eqb fst snd MarkAttendance.ui MarkAttendance.tasks MarkAttendance.log
       Wire.messageOr].
  rewrite Hrun. cbn [MarkAttendance.ui MarkAttendance.mounted MarkAttendance.log].
  rewrite app_nil_r.
  match goal with
  | |- context [MarkAttendance.commit ?a] =>
      pose proof (settle_fields true a) as (Hp1 & Hd1 & Hs1 & He1 & _)
  end.
  pose proof (settle_fields true
                (MarkAttendance.set_isProcessing false
                   (MarkAttendance.set_error (Some msg) s)))
    as (Hp2 & Hd2 & Hs2 & He2 & _).
  unfold MarkAttendance.errorBanner. rewrite Hp1, Hd1, Hs1, He1, He2. cbn.
  repeat split; try congruence.
  intros Hmsg. by destruct (String.eqb_spec msg "").
Qed.

(** The sample screen after an empty response. *)
Lemma C4_empty_result_witness :
  let empty :=
    MarkAttendance.run SampleScreen.markingMachine
      [MarkAttendance.ClickCapture; MarkAttendance.BlobReady 0 true;
       MarkAttendance.ResponseArrived 0 (Wire.Resolved SampleResult.none)] in
  MarkAttendance.detectedStudents (MarkAttendance.ui empty) = [] ∧
  MarkAttendance.tasks empty = [] ∧
  MarkAttendance.error (MarkAttendance.ui empty) = Some "No students detected in the image".
Proof.
  pose proof (C4_empty_result SampleScreen.markingMachine SampleResult.none
                "Request failed (500)" eq_refl eq_refl) as H.
  cbv zeta in H. destruct H as (Hd & Ht & _ & _ & _ & _ & He & _).
  split; [exact Hd|]. split; [exact Ht|exact He].
Defined.

(** Two detections, 0.95 then 0.6: disclosed in that order, classified
    [success] then [error]. *)
Lemma C3_staged_reveal_witness :
  let answered :=
    MarkAttendance.run SampleScreen.markingMachine
      [MarkAttendance.ClickCapture; MarkAttendance.BlobReady 0 true;
       MarkAttendance.ResponseArrived 0 (Wire.Resolved SampleResult.two)] in
  let after n :=
    MarkAttendance.ui (MarkAttendance.run answered (replicate n (MarkAttendance.TimerFired 0))) in
  map MarkAttendance.student_id (MarkAttendance.detectedStudents (after 1%nat)) = [42] ∧
  map MarkAttendance.student_id (MarkAttendance.detectedStudents (after 2%nat)) = [42; 17] ∧
  map MarkAttendance.status (MarkAttendance.detectedStudents (after 2%nat)) =
    [Confidence.success; Confidence.error].
Proof.
  intros answered after.
  pose proof (C3_staged_reveal SampleScreen.markingMachine SampleResult.two
                [SampleResult.asha; SampleResult.ben] 1 eq_refl eq_refl
                (le_S 1 1 (le_n 1)) (le_S 1 1 (le_n 1))) as H.
  cbv zeta in H. destruct H as (_ & _ & H1 & _ & _ & H2 & _).
  split; [|split].
  - exact (f_equal (map MarkAttendance.student_id) H1).
  - exact (f_equal (map MarkAttendance.student_id) H2).
  - exact (f_equal (map MarkAttendance.status) H2).
Defined.

(** * Further properties of the code *)

(** ** decodeJWT: the text transformations *)

(** X1.  The result of [decodeJWT] depends on the second dot-separated
    segment alone: the header before the first dot and whatever follows
    the second dot (the signature) are never read. *)
Theorem decodeJWT_reads_payload_only
    (atob decodeURIComponent : string → Exn.Result string)
    (JSON_parse : string → Exn.Result Json.json)
    (header header' payload tail tail' : string)
    (Hh : Jwt.contains "." header = false)
    (Hh' : Jwt.contains "." header' = false)
    (Hp : Jwt.contains "." payload = false) :
  Jwt.split_dot (header ++ "." ++ payload ++ "." ++ tail) !! 1%nat = Some payload ∧
  Jwt.decodeJWT atob decodeURIComponent JSON_parse (header ++ "." ++ payload ++ "." ++ tail) =
  Jwt.decodeJWT atob decodeURIComponent JSON_parse (header' ++ "." ++ payload ++ "." ++ tail') ∧
  Jwt.decodeJWT atob decodeURIComponent JSON_parse (header ++ "." ++ payload ++ "." ++ tail) =
  Jwt.decodeJWT atob decodeURIComponent JSON_parse (header' ++ "." ++ payload).
Proof.
  assert (H3 : ∀ h t, Jwt.contains "." h = false →
            Jwt.split_dot (h ++ "." ++ payload ++ "." ++ t) !! 1%nat = Some payload).
  { intros h t H. change ("." ++ payload ++ "." ++ t)
      with (String "." (payload ++ String "." t)).
    rewrite (split_dot_segment h _ H), (split_dot_segment payload _ Hp). done. }
  assert (H2 : ∀ h, Jwt.contains "." h = false →
            Jwt.split_dot (h ++ "." ++ payload) !! 1%nat = Some payload).
  { intros h H. change ("." ++ payload) with (String "." payload).
    rewrite (split_dot_segment h _ H), (split_dot_no_dot payload Hp). done. }
  split; [by apply H3|].
  unfold Jwt.decodeJWT, Jwt.decodeJWT_try.
  by rewrite !H3, H2.
Qed.

Lemma decodeJWT_reads_payload_only_witness :
  Jwt.decodeJWT Sample.atob Sample.decodeURIComponent Sample.JSON_parse "h.e30.sig" =
  Jwt.decodeJWT Sample.atob Sample.decodeURIComponent Sample.JSON_parse "x.e30".
Proof.
  exact (proj2 (proj2 (decodeJWT_reads_payload_only Sample.atob Sample.decodeURIComponent
                         Sample.JSON_parse "h" "x" "e30" "sig" "" eq_refl eq_refl eq_refl))).
Defined.

(** X2.  The text handed to [decodeURIComponent] spells every byte of the
    decoded payload as [%] and its two lowercase hexadecimal digits: it is
    three times as long as the payload, the bytes can be read back from
    it, and two payloads with the same text are equal. *)
Theorem percent_encode_faithful (s t : string) :
  String.length (Jwt.percent_encode s) = (3 * String.length s)%nat ∧
  Jwt.percent_bytes (Jwt.percent_encode s) = Some s ∧
  (Jwt.percent_encode s = Jwt.percent_encode t → s = t).
Proof.
  split; [|split].
  - induction s as [|c rest IH]; [reflexivity|].
    cbn [Jwt.percent_encode]. rewrite percent_shape.
    change (String.length (String "%" (String ?h (String ?l EmptyString)) ++ ?r))
      with (S (S (S (String.length r)))).
    rewrite IH. cbn [String.length]. lia.
  - apply percent_encode_bytes.
  - intros Heq. pose proof (percent_encode_bytes s) as Hs.
    rewrite Heq, percent_encode_bytes in Hs. congruence.
Qed.

(** X3.  The base64url text is made standard base64 by two replacements
    that keep its length, leave no [-] and no [_] behind, and change
    nothing in a text that has neither. *)
Theorem base64url_normalised (s : string) :
  let base64 := Jwt.replace_all "_" "/" (Jwt.replace_all "-" "+" s) in
  String.length base64 = String.length s ∧
  Jwt.contains "-" base64 = false ∧
  Jwt.contains "_" base64 = false ∧
  (Jwt.contains "-" s = false → Jwt.contains "_" s = false → base64 = s).
Proof.
  cbn zeta. induction s as [|c rest (IHl & IHm & IHu & IHid)]; [done|].
  cbn [Jwt.replace_all String.length Jwt.contains].
  rewrite IHl, IHm, IHu.
  destruct (Ascii.eqb_spec c "-") as [->|Hm]; [done|].
  destruct (Ascii.eqb_spec c "_") as [->|Hu]; [done|].
  repeat split.
  - by destruct (Ascii.eqb_spec c "-").
  - by destruct (Ascii.eqb_spec c "_").
  - cbn. intros H1 H2. by rewrite IHid.
Qed.

Lemma base64url_normalised_witness :
  Jwt.replace_all "_" "/" (Jwt.replace_all "-" "+" "e30") = "e30".
Proof.
  exact (proj2 (proj2 (proj2 (base64url_normalised "e30"))) eq_refl eq_refl).
Defined.

(** ** Gateway: what a request returns *)


(** X4.  [requestJson] and [requestFormData] never surface a TypeError:
    a TypeError from [fetch] or from reading the body becomes an [Error]
    whose message names the URL and lists the usual causes, and any other
    rejection of [fetch] is passed on unchanged. *)
Theorem request_never_TypeError
    (url : string) (fetched : Api.FetchOutcome) (e : Exn.JsError)
    (Hthrows : Api.request url fetched = Exn.Throw e) :
  Exn.name e ≠ Exn.TypeError ∧
  (∀ cause, Api.requestJson url (Api.Rejects (Exn.mkError Exn.TypeError cause)) =
     Exn.Throw (Exn.mkError Exn.Error
       (Json.JStr ("Network error calling " ++ url ++ "." ++
          " Check VITE_API_URL, backend is running, CORS allows this origin, and avoid HTTPS→HTTP mixed content (use https backend or a tunnel like ngrok)."))))  ∧
  (∀ other, Exn.name other ≠ Exn.TypeError →
     Api.requestFormData url (Api.Rejects other) = Exn.Throw other).
Proof.
  split; [|split].
  - revert Hthrows. unfold Api.request, Exn.try_catch, Exn.instanceof_TypeError.
    destruct fetched as [e0|res].
    + destruct e0 as [[] msg]; cbn; intros [= <-]; done.
    + destruct (negb (Api.ok res)); [intros [= <-]; done|].
      destruct (Api.json_body res) as [j|[[] msg]]; cbn; try done;
        intros [= <-]; done.
  - intros cause. unfold Api.requestJson, Api.request, Api.buildFetchErrorHint.
    cbn. by rewrite !string_append_assoc.
  - intros [[] msg] Hn; cbn in *; done.
Qed.

Lemma request_never_TypeError_witness :
  Exn.name (Exn.mkError Exn.Error
              (Json.JStr (Api.buildFetchErrorHint "/api/alerts/7"))) ≠ Exn.TypeError.
Proof.
  exact (proj1 (request_never_TypeError "/api/alerts/7"
                  (Api.Rejects (Exn.mkError Exn.TypeError (Json.JStr "Failed to fetch")))
                  _ eq_refl)).
Defined.

(** X5.  A response with a 2xx status is never turned into an error by
    its body: both gateways return the parsed body as it is, even when it
    carries [detail] or [message] fields. *)
Theorem ok_response_returns_body
    (url fallback : string) (res : Api.Response) (body : Json.json)
    (Hok : Api.ok res = true)
    (Hbody : Api.json_body res = Exn.Return body) :
  Api.requestJson url (Api.Resolves res) = Exn.Return body ∧
  Api.requestFormData url (Api.Resolves res) = Exn.Return body ∧
  Api.handleApiError res fallback = Exn.Return body.
Proof.
  unfold Api.requestJson, Api.requestFormData, Api.request, Api.handleApiError.
  by rewrite Hok, Hbody.
Qed.

Lemma ok_response_returns_body_witness :
  Api.requestJson "/api/x"
    (Api.Resolves {| Api.status := 200;
                     Api.json_body := Exn.Return (Json.JObj [("detail", Json.JStr "fine")]) |})
  = Exn.Return (Json.JObj [("detail", Json.JStr "fine")]).
Proof.
  exact (proj1 (ok_response_returns_body "/api/x" "Failed"
                  {| Api.status := 200;
                     Api.json_body := Exn.Return (Json.JObj [("detail", Json.JStr "fine")]) |}
                  _ eq_refl eq_refl)).
Defined.

(** ** Session store and provider *)

Section SessionFacts.
Variable JSON_stringify : Auth.User → string.
Variable JSON_parse : string → Exn.Result Json.json.

Lemma setAuth_lookups (ls : gmap string string) (token : string) (user : Auth.User) :
  let ls' := Auth.setAuth JSON_stringify token user ls in
  Auth.getItem "access_token" ls' = Some token ∧
  Auth.getItem "user" ls' = Some (JSON_stringify user) ∧
  ∀ key, key ≠ "access_token" → key ≠ "user" → Auth.getItem key ls' = Auth.getItem key ls.
Proof.
  unfold Auth.setAuth, Auth.getItem, Auth.setItem. cbn zeta.
  rewrite (lookup_insert_ne _ "user" "access_token") by done.
  rewrite !lookup_insert_eq. repeat split.
  intros key H1 H2. by rewrite !lookup_insert_ne by done.
Qed.

Lemma logout_lookups (ls : gmap string string) :
  Auth.getItem "access_token" (Auth.logout ls) = None ∧
  Auth.getItem "user" (Auth.logout ls) = None ∧
  ∀ key, key ≠ "access_token" → key ≠ "user" →
         Auth.getItem key (Auth.logout ls) = Auth.getItem key ls.
Proof.
  unfold Auth.logout, Auth.getItem, Auth.removeItem.
  rewrite (lookup_delete_ne _ "user" "access_token") by done.
  rewrite !lookup_delete_eq. repeat split.
  intros key H1 H2. by rewrite !lookup_delete_ne by done.
Qed.

Lemma storage_ext (a b : gmap string string) :
  (∀ key, Auth.getItem key a = Auth.getItem key b) → a = b.
Proof. intros H. apply map_eq. exact H. Qed.

End SessionFacts.

(** X6.  After [setAuth] the token and the serialised profile are read
    back as stored, every other key is untouched, and a second [setAuth]
    replaces the first session entirely.  [isAuthenticated()] is true
    exactly when the stored token is not the empty string. *)
Theorem setAuth_read_back
    (JSON_stringify : Auth.User → string)
    (JSON_parse : string → Exn.Result Json.json)
    (ls : gmap string string) (token token0 : string) (user user0 : Auth.User)
    (key : string) (Hk1 : key ≠ "access_token") (Hk2 : key ≠ "user") :
  let ls' := Auth.setAuth JSON_stringify token user ls in
  Auth.getToken ls' = Some token ∧
  Auth.getItem "user" ls' = Some (JSON_stringify user) ∧
  Auth.isAuthenticated ls' = negb (String.eqb token "") ∧
  Auth.getUser JSON_parse ls' =
    (if String.eqb (JSON_stringify user) "" then Exn.Return Json.JNull
     else JSON_parse (JSON_stringify user)) ∧
  Auth.getItem key ls' = Auth.getItem key ls ∧
  Auth.setAuth JSON_stringify token user (Auth.setAuth JSON_stringify token0 user0 ls) = ls'.
Proof.
  intros ls'.
  destruct (setAuth_lookups JSON_stringify ls token user) as (Ht & Hu & Hother).
  fold ls' in Ht, Hu, Hother.
  unfold Auth.getToken, Auth.isAuthenticated, Auth.getUser. rewrite Ht, Hu.
  cbn [Auth.item_truthy].
  repeat split; try done.
  - by destruct (String.eqb (JSON_stringify user) "").
  - by apply Hother.
  - apply storage_ext. intros k.
    destruct (setAuth_lookups JSON_stringify
                (Auth.setAuth JSON_stringify token0 user0 ls) token user)
      as (Ht2 & Hu2 & Hother2).
    destruct (setAuth_lookups JSON_stringify ls token0 user0) as (_ & _ & Hother0).
    cbv zeta in *.
    destruct (decide (k = "access_token")) as [->|H1]; [congruence|].
    destruct (decide (k = "user")) as [->|H2]; [congruence|].
    rewrite Hother2, Hother0, Hother by done. done.
Qed.

Lemma setAuth_read_back_witness :
  Auth.getItem "theme"
    (Auth.setAuth SampleSession.JSON_stringify "abc" SampleSession.asha
       (<["theme" := "dark"]> ∅)) = Some "dark".
Proof.
  destruct (setAuth_read_back SampleSession.JSON_stringify SampleSession.JSON_parse
              (<["theme" := "dark"]> ∅) "abc" "old" SampleSession.asha SampleSession.asha
              "theme" ltac:(discriminate) ltac:(discriminate))
    as (_ & _ & _ & _ & H & _).
  rewrite H. reflexivity.
Defined.

(** X7.  [logout] is idempotent, removes nothing but the two session
    keys, and leaves a storage without them as it is.  The headers built
    by [getAuthHeaders] (in both gateway modules) and by [requestFormData]
    do not omit [Authorization] afterwards: its value is the text
    [Bearer null], where after [setAuth] it is [Bearer] and the token.
    ([login] and [register] build their own headers, without
    [Authorization], and are not covered.) *)
Theorem logout_idempotent_frame
    (JSON_stringify : Auth.User → string)
    (ls : gmap string string) (token : string) (user : Auth.User)
    (key : string) (Hk1 : key ≠ "access_token") (Hk2 : key ≠ "user") :
  Auth.logout (Auth.logout ls) = Auth.logout ls ∧
  Auth.getItem key (Auth.logout ls) = Auth.getItem key ls ∧
  (Auth.getItem "access_token" ls = None → Auth.getItem "user" ls = None →
   Auth.logout ls = ls) ∧
  Headers.header "Authorization" (Headers.getAuthHeaders (Auth.logout ls))
    = Some "Bearer null" ∧
  Headers.header "Authorization" (Headers.getAuthHeaders2 (Auth.logout ls))
    = Some "Bearer null" ∧
  Headers.header "Authorization" (Headers.formDataHeaders (Auth.logout ls))
    = Some "Bearer null" ∧
  Headers.header "Authorization"
    (Headers.getAuthHeaders (Auth.setAuth JSON_stringify token user ls))
    = Some ("Bearer " ++ token).
Proof.
  destruct (logout_lookups ls) as (Htok & Husr & Hother).
  destruct (logout_lookups (Auth.logout ls)) as (Htok2 & Husr2 & Hother2).
  destruct (setAuth_lookups JSON_stringify ls token user) as (Hset & _).
  cbv zeta in Hset.
  unfold Headers.getAuthHeaders, Headers.getAuthHeaders2, Headers.formDataHeaders.
  rewrite Htok, Hset.
  repeat split; try done.
  - apply storage_ext. intros k.
    destruct (decide (k = "access_token")) as [->|H1]; [congruence|].
    destruct (decide (k = "user")) as [->|H2]; [congruence|].
    by apply Hother2.
  - by apply Hother.
  - intros Ht Hu. apply storage_ext. intros k.
    destruct (decide (k = "access_token")) as [->|H1]; [congruence|].
    destruct (decide (k = "user")) as [->|H2]; [congruence|].
    by apply Hother.
Qed.

Lemma logout_idempotent_frame_witness :
  Auth.getItem "theme" (Auth.logout (<["theme" := "dark"]> ∅)) = Some "dark".
Proof.
  destruct (logout_idempotent_frame SampleSession.JSON_stringify
              (<["theme" := "dark"]> ∅) "abc" SampleSession.asha
              "theme" ltac:(discriminate) ltac:(discriminate))
    as (_ & H & _).
  rewrite H. reflexivity.
Defined.

(** X8.  A session stored by [login] survives a reload: when the stored
    profile parses to a truthy value, the mount effect of a new provider
    restores it and ends loading, provided the token is not the empty
    string; with an empty token the provider was authenticated before the
    reload and is not after it.  After [logout] a reload finds no user. *)
Theorem session_survives_reload
    (JSON_stringify : Auth.User → string)
    (JSON_parse : string → Exn.Result Json.json)
    (ls : gmap string string) (p : AuthContext.Provider)
    (token : string) (userData : Auth.User) (j : Json.json)
    (Hstr : JSON_stringify userData ≠ "")
    (Hparse : JSON_parse (JSON_stringify userData) = Exn.Return j)
    (Hobj : Json.truthy (Some j) = true) :
  let logged := AuthContext.login JSON_stringify token userData ls p in
  let out := AuthContext.logout logged.1 logged.2 in
  AuthContext.isAuthenticated logged.2 = true ∧
  AuthContext.mountEffect JSON_parse logged.1 AuthContext.initialProvider =
    Exn.Return {| AuthContext.user := if String.eqb token "" then AuthContext.NoUser
                                      else AuthContext.Stored j;
                  AuthContext.isLoading := false |} ∧
  AuthContext.isAuthenticated out.2 = false ∧
  AuthContext.mountEffect JSON_parse out.1 AuthContext.initialProvider =
    Exn.Return {| AuthContext.user := AuthContext.NoUser;
                  AuthContext.isLoading := false |}.
Proof.
  intros logged out. subst logged out. cbn [fst snd AuthContext.login AuthContext.logout].
  destruct (setAuth_lookups JSON_stringify ls token userData) as (Ht & Hu & _).
  destruct (logout_lookups (Auth.setAuth JSON_stringify token userData ls))
    as (Ht' & Hu' & _).
  cbv zeta in Ht, Hu.
  unfold AuthContext.mountEffect, mbind, Exn.result_bind,
    Auth.getUser, Auth.isAuthenticated.
  rewrite Ht, Hu, Ht', Hu'. cbn [Auth.item_truthy].
  destruct (String.eqb_spec (JSON_stringify userData) ""); [done|].
  cbn [negb]. rewrite Hparse, Hobj. cbn.
  repeat split. by destruct (String.eqb token "").
Qed.

Lemma session_survives_reload_witness :
  AuthContext.mountEffect SampleSession.JSON_parse
    (AuthContext.login SampleSession.JSON_stringify "abc" SampleSession.asha ∅
       AuthContext.initialProvider).1 AuthContext.initialProvider =
  Exn.Return {| AuthContext.user :=
                  AuthContext.Stored (Json.JObj [("email", Json.JStr "asha@example.edu")]);
                AuthContext.isLoading := false |}.
Proof.
  exact (proj1 (proj2 (session_survives_reload SampleSession.JSON_stringify
                         SampleSession.JSON_parse ∅ AuthContext.initialProvider
                         "abc" SampleSession.asha _
                         ltac:(discriminate) eq_refl eq_refl))).
Defined.

(** X9.  The mount effect does not guard [JSON.parse]: when the stored
    profile is a non-empty text that does not parse, the effect throws
    that error and [isLoading] is never set to false. *)
Theorem corrupt_profile_breaks_mount
    (JSON_parse : string → Exn.Result Json.json)
    (ls : gmap string string) (p : AuthContext.Provider)
    (text : string) (e : Exn.JsError)
    (Hstored : Auth.getItem "user" ls = Some text)
    (Htext : text ≠ "")
    (Hthrows : JSON_parse text = Exn.Throw e) :
  Auth.getUser JSON_parse ls = Exn.Throw e ∧
  AuthContext.mountEffect JSON_parse ls p = Exn.Throw e.
Proof.
  assert (Hget : Auth.getUser JSON_parse ls = Exn.Throw e).
  { unfold Auth.getUser. rewrite Hstored. cbn.
    by destruct (String.eqb_spec text ""). }
  split; [exact Hget|].
  unfold AuthContext.mountEffect, mbind, Exn.result_bind. by rewrite Hget.
Qed.

Lemma corrupt_profile_breaks_mount_witness :
  AuthContext.mountEffect SampleSession.JSON_parse SampleSession.corrupt
    AuthContext.initialProvider =
  Exn.Throw (Exn.mkError Exn.SyntaxError (Json.JStr "Unexpected token")).
Proof.
  exact (proj2 (corrupt_profile_breaks_mount SampleSession.JSON_parse SampleSession.corrupt
                  AuthContext.initialProvider "not json" _ eq_refl
                  ltac:(discriminate) eq_refl)).
Defined.

(** X10.  The sidebar shows nothing without a user; a student sees
    Dashboard, Analytics and Alerts, a teacher those and Mark Attendance,
    Student Training and Subjects, an administrator Dashboard, Student
    Training, Analytics, Alerts, Students and Departments, in the order of
    the table; every entry shown lists the user's role. *)
Theorem sidebar_by_role (u : Auth.User) :
  Sidebar.filteredItems None = [] ∧
  map Sidebar.label (Sidebar.filteredItems (Some u)) =
    match Auth.role u with
    | Auth.STUDENT => ["Dashboard"; "Analytics"; "Alerts"]
    | Auth.TEACHER => ["Dashboard"; "Mark Attendance"; "Student Training"; "Subjects";
                       "Analytics"; "Alerts"]
    | Auth.ADMIN => ["Dashboard"; "Student Training"; "Analytics"; "Alerts";
                     "Students"; "Departments"]
    end ∧
  Forall (fun item => Sidebar.includes (Auth.role u) (Sidebar.roles item) = true)
         (Sidebar.filteredItems (Some u)).
Proof.
  split; [reflexivity|].
  destruct u as [i e r n]. destruct r; cbn; (split; [reflexivity|]);
    repeat constructor.
Qed.

(** ** The camera of the MarkAttendance screen *)

Section IdleFacts.
Import Dom MarkAttendance.
Local Open Scope list_scope.

(** The part of [cameraIdle] a handler has to keep. *)
Lemma idle_settle (b : bool) (s : State) :
  isCameraActive s = false → videoRef s = None →
  (if b then commit s else s) = s.
Proof.
  intros Ha Hv. destruct b; [|done]. unfold commit. rewrite Ha.
  destruct s as [a p img ds sel subs ok err v c st lv]. cbn in *. by subst.
Qed.

Lemma cameraIdle_extend (m : Machine) (s : State) (effects : list Effect)
    (spawned : list Task) :
  cameraIdle m →
  isCameraActive s = false → videoRef s = None → streamRef s = None →
  isProcessing s = false → detectedStudents s = [] →
  Forall (fun t => waitsOutside t = true) spawned →
  List.filter isPost effects = [] → List.filter isCapture effects = [] →
  live (ui m) ⊆ live s →
  cameraIdle (extend m (s, effects, spawned)) ∧
  live (ui m) ⊆ live (ui (extend m (s, effects, spawned))).
Proof.
  intros (_ & _ & _ & _ & _ & Hts & Hposts & Hcaps) Ha Hv Hst Hp Hd Hsp Hpo Hca Hl.
  unfold cameraIdle, extend, posts, captures in *. cbn [ui tasks log mounted].
  rewrite (idle_settle _ s Ha Hv), !count_app, Hpo, Hca, Hposts, Hcaps.
  repeat split; try done. by apply Forall_app.
Qed.

Lemma cameraIdle_resume (m : Machine) (k : nat) (s : State) (effects : list Effect)
    (spawned : list Task) :
  cameraIdle m →
  isCameraActive s = false → videoRef s = None → streamRef s = None →
  isProcessing s = false → detectedStudents s = [] →
  Forall (fun t => waitsOutside t = true) spawned →
  List.filter isPost effects = [] → List.filter isCapture effects = [] →
  live (ui m) ⊆ live s →
  cameraIdle (resume k m (s, effects, spawned)) ∧
  live (ui m) ⊆ live (ui (resume k m (s, effects, spawned))).
Proof.
  intros (_ & _ & _ & _ & _ & Hts & Hposts & Hcaps) Ha Hv Hst Hp Hd Hsp Hpo Hca Hl.
  unfold cameraIdle, resume, posts, captures in *. cbn [ui tasks log mounted].
  rewrite (idle_settle _ s Ha Hv), !count_app, Hpo, Hca, Hposts, Hcaps.
  repeat split; try done.
  apply Forall_app. split; [by apply Forall_take|].
  apply Forall_app. split; [done|by apply Forall_drop].
Qed.

Lemma cameraIdle_step (m : Machine) (e : Event) :
  cameraIdle m →
  cameraIdle (step m e) ∧ live (ui m) ⊆ live (ui (step m e)).
Proof.
  intros Hidle. pose proof Hidle as (Ha & Hv & Hst & Hp & Hd & Hts & Hposts & Hcaps).
  assert (Hnot : ∀ k t, tasks m !! k = Some t → waitsOutside t = true).
  { intros k t Hk. by eapply (proj1 (Forall_lookup _ _) Hts). }
  destruct e; cbn [step].
  - destruct (_ && _); [|done]. unfold startCamera.
    apply cameraIdle_extend; try done. by repeat constructor.
  - by rewrite Ha, andb_false_r.
  - unfold captureEnabled. by rewrite Ha, andb_false_r.
  - destruct (_ && _); [|done]. by apply cameraIdle_extend.
  - destruct (tasks m !! k) as [[]|] eqn:Hk; try done.
    unfold fetchSubjects_resolved.
    apply cameraIdle_resume; try done; by destruct data.
  - destruct (tasks m !! k) as [[]|] eqn:Hk; try done.
    by apply cameraIdle_resume.
  - destruct (tasks m !! k) as [[]|] eqn:Hk; try done.
    unfold startCamera_granted. cbn [videoRef set_live]. rewrite Hv.
    apply cameraIdle_resume; try done. cbn. set_solver.
  - destruct (tasks m !! k) as [[]|] eqn:Hk; try done.
    by apply cameraIdle_resume.
  - unfold progress. rewrite Hv. by destruct m.
  - destruct (tasks m !! k) as [t|] eqn:Hk; [|done].
    specialize (Hnot _ _ Hk). by destruct t.
  - destruct (tasks m !! k) as [t|] eqn:Hk; [|done].
    specialize (Hnot _ _ Hk). by destruct t.
  - destruct (tasks m !! k) as [t|] eqn:Hk; [|done].
    specialize (Hnot _ _ Hk). by destruct t.
  - destruct (mounted m); [|done]. unfold unmountCleanup. rewrite Hst.
    unfold cameraIdle, posts, captures in *. cbn [ui tasks log mounted]. cbn. done.
Qed.

Lemma cameraIdle_run (events : list Event) (m : Machine) :
  cameraIdle m →
  cameraIdle (run m events) ∧ live (ui m) ⊆ live (ui (run m events)).
Proof.
  revert m. induction events as [|e events IH]; intros m Hidle; [done|].
  cbn [run fold_left]. destruct (cameraIdle_step m e Hidle) as [Hidle' Hl].
  destruct (IH _ Hidle') as [Hfinal Hl']. split; [done|]. by etrans.
Qed.

Lemma cameraIdle_initial (userId : option Z) (canvas : Canvas) :
  cameraIdle (initial userId canvas).
Proof.
  unfold initial. destruct (truthyId userId); unfold cameraIdle, posts, captures; cbn;
    repeat split; repeat constructor.
Qed.

End IdleFacts.

(** X11.  On the MarkAttendance screen the camera never becomes active.
    The video element is rendered only while the camera flag is set, and
    [startCamera] keeps a granted stream only when the element exists; so
    from the mounted screen, after any events, when a pending camera
    request is granted and whatever happens afterwards: the camera flag is
    false, no stream is held, every granted track is still live (Stop
    Camera and Capture are not rendered, and the unmount cleanup has no
    stream to stop), no frame is captured, nothing is submitted and
    nothing is disclosed. *)
Theorem camera_never_activates
    (userId : option Z) (canvas : Dom.Canvas)
    (events later : list MarkAttendance.Event)
    (k : nat) (stream : list nat) (t : nat)
    (Hpending : MarkAttendance.tasks
                  (MarkAttendance.run (MarkAttendance.initial userId canvas) events) !! k
                = Some MarkAttendance.AwaitMedia)
    (Ht : t ∈ stream) :
  let m := MarkAttendance.run (MarkAttendance.initial userId canvas) events in
  let granted := MarkAttendance.step m (MarkAttendance.MediaGranted k stream) in
  let final := MarkAttendance.run granted later in
  MarkAttendance.isCameraActive (MarkAttendance.ui final) = false ∧
  MarkAttendance.streamRef (MarkAttendance.ui final) = None ∧
  t ∈ MarkAttendance.live (MarkAttendance.ui final) ∧
  MarkAttendance.step final MarkAttendance.ClickStopCamera = final ∧
  MarkAttendance.step final MarkAttendance.ClickCapture = final ∧
  MarkAttendance.captures final = 0%nat ∧
  MarkAttendance.posts final = 0%nat ∧
  MarkAttendance.detectedStudents (MarkAttendance.ui final) = [].
Proof.
  intros m granted final.
  change (MarkAttendance.tasks m !! k = Some MarkAttendance.AwaitMedia) in Hpending.
  destruct (cameraIdle_run events _ (cameraIdle_initial userId canvas)) as [Hm _].
  fold m in Hm.
  assert (Hgranted : MarkAttendance.cameraIdle granted ∧
                     t ∈ MarkAttendance.live (MarkAttendance.ui granted)).
  { split; [by apply cameraIdle_step|].
    unfold granted. cbn [MarkAttendance.step]. rewrite Hpending.
    destruct Hm as (Ha & Hv & _).
    unfold MarkAttendance.startCamera_granted.
    cbn [MarkAttendance.videoRef MarkAttendance.set_live]. rewrite Hv.
    unfold MarkAttendance.resume. cbn [MarkAttendance.ui].
    rewrite idle_settle by done. cbn. set_solver. }
  destruct Hgranted as [Hg Hlive].
  destruct (cameraIdle_run later granted Hg) as [Hf Hsub]. fold final in Hf, Hsub.
  destruct Hf as (Ha & Hv & Hst & Hp & Hd & Hts & Hposts & Hcaps).
  repeat split; try done.
  - by apply Hsub.
  - cbn [MarkAttendance.step]. by rewrite Ha, andb_false_r.
  - cbn [MarkAttendance.step]. unfold MarkAttendance.captureEnabled.
    by rewrite Ha, andb_false_r.
Qed.

Lemma camera_never_activates_witness :
  let m := MarkAttendance.run (MarkAttendance.initial (Some 7) SampleScreen.canvas)
             [MarkAttendance.SubjectsResolved 0 [SampleScreen.cs101];
              MarkAttendance.ClickStartCamera] in
  let final := MarkAttendance.run (MarkAttendance.step m (MarkAttendance.MediaGranted 0 [1; 2]%nat))
                 [MarkAttendance.ClickCapture; MarkAttendance.ClickStopCamera;
                  MarkAttendance.Unmount] in
  MarkAttendance.isCameraActive (MarkAttendance.ui final) = false ∧
  1%nat ∈ MarkAttendance.live (MarkAttendance.ui final).
Proof.
  pose proof (camera_never_activates (Some 7) SampleScreen.canvas
                [MarkAttendance.SubjectsResolved 0 [SampleScreen.cs101];
                 MarkAttendance.ClickStartCamera]
                [MarkAttendance.ClickCapture; MarkAttendance.ClickStopCamera;
                 MarkAttendance.Unmount]
                0%nat [1; 2]%nat 1%nat eq_refl (list_elem_of_here 1%nat [2%nat])) as H.
  cbv zeta in H. destruct H as (Hoff & _ & Hlive & _).
  split; [exact Hoff|exact Hlive].
Defined.

(** ** Submissions of the MarkAttendance screen, to their end *)

Section RoundFacts.
Import Dom MarkAttendance.
Local Open Scope list_scope.

Lemma captureAccepted_ready (m : Machine) :
  captureAccepted m = (cameraReady m && negb (isProcessing (ui m))).
Proof.
  unfold captureAccepted, cameraReady, captureEnabled.
  destruct (mounted m), (isCameraActive (ui m)), (isProcessing (ui m)),
    (frameReady (ui m)), (truthyId _); reflexivity.
Qed.

Lemma cameraReady_fields (m : Machine) :
  cameraReady m = true →
  mounted m = true ∧ isCameraActive (ui m) = true ∧ frameReady (ui m) = true ∧
  ∃ video, videoRef (ui m) = Some video.
Proof.
  unfold cameraReady, frameReady. intros H.
  destruct (mounted m), (isCameraActive (ui m)); try done.
  destruct (canvasRef (ui m)); [|done]. destruct (videoRef (ui m)); [|done].
  cbn in H. apply andb_prop in H as [H _]. eauto.
Qed.

(** A continuation that leaves the camera, the elements and the selection
    alone keeps the screen ready, and its state is the committed one. *)
Lemma resume_ready (m : Machine) (k : nat) (r : Step) :
  isCameraActive r.1.1 = isCameraActive (ui m) →
  videoRef r.1.1 = videoRef (ui m) →
  canvasRef r.1.1 = canvasRef (ui m) →
  selectedSubject r.1.1 = selectedSubject (ui m) →
  cameraReady m = true →
  ui (resume k m r) = r.1.1 ∧ cameraReady (resume k m r) = true.
Proof.
  destruct r as [[s effects] spawned]. cbn [fst snd]. intros Ha Hv Hc Hsel Hready.
  destruct (cameraReady_fields m Hready) as (Hm & Hact & Hfr & video & Hvid).
  assert (Hui : ui (resume k m (s, effects, spawned)) = s).
  { unfold resume. cbn [ui]. rewrite Hm. unfold commit. by rewrite Ha, Hact, Hv, Hvid. }
  split; [done|].
  unfold cameraReady in *. rewrite Hui. unfold frameReady in *.
  rewrite Ha, Hv, Hc, Hsel. unfold resume. cbn [mounted]. done.
Qed.

Lemma onBlob_keeps_camera (subject : Z) (image : Encoded) (blob : bool) (s : State) :
  let r := onBlob subject image blob s in
  isCameraActive r.1.1 = isCameraActive s ∧ videoRef r.1.1 = videoRef s ∧
  canvasRef r.1.1 = canvasRef s ∧ selectedSubject r.1.1 = selectedSubject s ∧
  detectedStudents r.1.1 = detectedStudents s ∧ showSuccess r.1.1 = showSuccess s.
Proof. by destruct blob. Qed.

Lemma loopAt_keeps_camera (students : list DetectedStudent) (i : nat) (s : State) :
  let r := loopAt students i s in
  isCameraActive r.1.1 = isCameraActive s ∧ videoRef r.1.1 = videoRef s ∧
  canvasRef r.1.1 = canvasRef s ∧ selectedSubject r.1.1 = selectedSubject s.
Proof. unfold loopAt. by destruct (_ <? _)%nat. Qed.

Lemma onResponse_keeps_camera (outcome : Wire.Outcome) (s : State) :
  let r := onResponse outcome s in
  isCameraActive r.1.1 = isCameraActive s ∧ videoRef r.1.1 = videoRef s ∧
  canvasRef r.1.1 = canvasRef s ∧ selectedSubject r.1.1 = selectedSubject s.
Proof.
  destruct outcome as [result|err]; [|done]. unfold onResponse.
  destruct (_ =? _)%nat; [done|]. apply loopAt_keeps_camera.
Qed.

Lemma onRevealTimer_keeps_camera (students : list DetectedStudent) (i : nat) (s : State) :
  let r := onRevealTimer students i s in
  isCameraActive r.1.1 = isCameraActive s ∧ videoRef r.1.1 = videoRef s ∧
  canvasRef r.1.1 = canvasRef s ∧ selectedSubject r.1.1 = selectedSubject s.
Proof.
  unfold onRevealTimer.
  destruct (loopAt_keeps_camera students (S i)
              match students !! i with
              | Some x => set_detectedStudents (detectedStudents s ++ [x]) s
              | None => s
              end) as (-> & -> & -> & ->).
  by destruct (students !! i).
Qed.

(** Settling a continuation keeps the screen ready. *)
Lemma settle_ready (m : Machine) (e : Event) :
  match e with
  | BlobReady _ _ | ResponseArrived _ _ | TimerFired _ => True
  | _ => False
  end →
  cameraReady m = true → cameraReady (step m e) = true.
Proof.
  intros He Hready. destruct e; try done; cbn [step].
  - destruct (tasks m !! k) as [[]|]; try done.
    destruct (onBlob_keeps_camera subject image blob (ui m)) as (? & ? & ? & ? & _).
    by apply resume_ready.
  - destruct (tasks m !! k) as [[]|]; try done.
    destruct (onResponse_keeps_camera outcome (ui m)) as (? & ? & ? & ?).
    by apply resume_ready.
  - destruct (tasks m !! k) as [[]|]; try done.
    + destruct (onRevealTimer_keeps_camera students i (ui m)) as (? & ? & ? & ?).
      by apply resume_ready.
    + by apply resume_ready.
Qed.

Lemma settle_ready_run (events : list Event) (m : Machine) :
  Forall (fun e => match e with
                   | BlobReady _ _ | ResponseArrived _ _ | TimerFired _ => True
                   | _ => False
                   end) events →
  cameraReady m = true → cameraReady (run m events) = true.
Proof.
  revert m. induction events as [|e events IH]; intros m Hall Hready; [done|].
  inversion Hall; subst. cbn [run fold_left]. apply IH; [done|]. by apply settle_ready.
Qed.

(** An accepted click on Capture, in full. *)
Lemma capture_click (m : Machine) :
  captureAccepted m = true →
  ∃ s subject image,
    truthyId (selectedSubject (ui m)) = Some subject ∧
    step m ClickCapture =
      {| ui := s; tasks := tasks m ++ [AwaitBlob subject image];
         log := log m ++ [ToBlob image]; mounted := true |} ∧
    cameraReady (step m ClickCapture) = true ∧
    isProcessing s = true ∧ isCameraActive s = true ∧
    detectedStudents s = [] ∧ error s = None ∧
    showSuccess s = showSuccess (ui m) ∧ selectedSubject s = selectedSubject (ui m) ∧
    subjects s = subjects (ui m) ∧
    streamRef s = streamRef (ui m) ∧ live s = live (ui m).
Proof.
  intros Hacc. pose proof Hacc as Hacc'. rewrite captureAccepted_ready in Hacc'.
  apply andb_prop in Hacc' as [Hready Hp].
  destruct (cameraReady_fields m Hready) as (Hm & Hact & Hfr & video & Hvid).
  unfold cameraReady in Hready.
  destruct (truthyId (selectedSubject (ui m))) as [subject|] eqn:Hsub;
    [|by rewrite andb_false_r in Hready].
  unfold frameReady in Hfr. rewrite Hvid in Hfr.
  destruct (canvasRef (ui m)) as [canvas|] eqn:Hcan; [|done].
  assert (Hstep : step m ClickCapture = extend m (captureAndProcess (ui m))).
  { cbn [step]. unfold captureEnabled. by rewrite Hm, Hact, Hp. }
  rewrite Hstep. unfold captureAndProcess. rewrite Hsub, Hcan, Hvid, Hfr. cbn [negb].
  unfold extend. rewrite Hm. unfold commit. cbn [isCameraActive set_error set_detectedStudents
    set_isProcessing set_capturedImage set_canvasRef videoRef]. rewrite Hact, Hvid.
  eexists _, subject, _. split; [done|]. split; [reflexivity|].
  unfold cameraReady, frameReady. cbn. rewrite Hact, Hvid, Hfr, Hsub. done.
Qed.

End RoundFacts.

Section RoundSteps.
Import Dom MarkAttendance.
Local Open Scope list_scope.

(** The continuation at the end of the pending list settles. *)
Lemma settle_last (m : Machine) (ts : list Task) (t : Task) (e : Event) (r : Step) :
  tasks m = ts ++ [t] →
  step m e = resume (length ts) m r →
  cameraReady m = true →
  isCameraActive r.1.1 = isCameraActive (ui m) →
  videoRef r.1.1 = videoRef (ui m) →
  canvasRef r.1.1 = canvasRef (ui m) →
  selectedSubject r.1.1 = selectedSubject (ui m) →
  step m e = {| ui := r.1.1; tasks := ts ++ r.2; log := log m ++ r.1.2; mounted := true |} ∧
  cameraReady (step m e) = true.
Proof.
  intros Hts Hstep Hready Ha Hv Hc Hsel.
  destruct (resume_ready m (length ts) r Ha Hv Hc Hsel Hready) as [Hui Hready'].
  rewrite Hstep. split; [|done].
  rewrite (resume_last m ts t r Hts) in *. cbn [ui] in Hui. rewrite Hui.
  by rewrite (proj1 (cameraReady_fields m Hready)).
Qed.

Lemma blob_last (m : Machine) (ts : list Task) (subject : Z) (image : Encoded) (blob : bool) :
  tasks m = ts ++ [AwaitBlob subject image] →
  cameraReady m = true →
  let r := onBlob subject image blob (ui m) in
  step m (BlobReady (length ts) blob) =
    {| ui := r.1.1; tasks := ts ++ r.2; log := log m ++ r.1.2; mounted := true |} ∧
  cameraReady (step m (BlobReady (length ts) blob)) = true.
Proof.
  intros Hts Hready r.
  destruct (onBlob_keeps_camera subject image blob (ui m)) as (? & ? & ? & ? & _).
  apply (settle_last m ts (AwaitBlob subject image)); try done.
  cbn [step]. by rewrite Hts, lookup_last.
Qed.

Lemma response_last (m : Machine) (ts : list Task) (subject : Z) (outcome : Wire.Outcome) :
  tasks m = ts ++ [AwaitResponse subject] →
  cameraReady m = true →
  let r := onResponse outcome (ui m) in
  step m (ResponseArrived (length ts) outcome) =
    {| ui := r.1.1; tasks := ts ++ r.2; log := log m ++ r.1.2; mounted := true |} ∧
  cameraReady (step m (ResponseArrived (length ts) outcome)) = true.
Proof.
  intros Hts Hready r.
  destruct (onResponse_keeps_camera outcome (ui m)) as (? & ? & ? & ?).
  apply (settle_last m ts (AwaitResponse subject)); try done.
  cbn [step]. by rewrite Hts, lookup_last.
Qed.

Lemma hide_last (m : Machine) (ts : list Task) :
  tasks m = ts ++ [AwaitHide] →
  cameraReady m = true →
  step m (TimerFired (length ts)) =
    {| ui := set_showSuccess false (ui m); tasks := ts; log := log m; mounted := true |} ∧
  cameraReady (step m (TimerFired (length ts))) = true.
Proof.
  intros Hts Hready.
  destruct (settle_last m ts AwaitHide (TimerFired (length ts)) (onHide (ui m)) Hts)
    as [Hstep Hready']; try done.
  { cbn [step]. by rewrite Hts, lookup_last. }
  split; [|done]. rewrite Hstep. cbn. by rewrite !app_nil_r.
Qed.

End RoundSteps.

(** X12.  A failed submission leaves the screen ready for the next one.
    When an accepted capture yields no blob, or its request is rejected,
    the pending continuations are those from before the click, the busy
    flag is false, the failure's message is in [error], nothing is
    disclosed, and a click on Capture is accepted again; the first case
    costs no network submission, the second exactly one. *)
Theorem failed_submission_can_retry
    (m : MarkAttendance.Machine) (err : Wire.Thrown)
    (Hacc : MarkAttendance.captureAccepted m = true) :
  let i := length (MarkAttendance.tasks m) in
  let noBlob :=
    MarkAttendance.run m [MarkAttendance.ClickCapture; MarkAttendance.BlobReady i false] in
  let rejected :=
    MarkAttendance.run m
      [MarkAttendance.ClickCapture; MarkAttendance.BlobReady i true;
       MarkAttendance.ResponseArrived i (Wire.Rejected err)] in
  (MarkAttendance.captureAccepted noBlob = true ∧
   MarkAttendance.tasks noBlob = MarkAttendance.tasks m ∧
   MarkAttendance.posts noBlob = MarkAttendance.posts m ∧
   MarkAttendance.error (MarkAttendance.ui noBlob) = Some "Failed to capture image" ∧
   MarkAttendance.detectedStudents (MarkAttendance.ui noBlob) = []) ∧
  (MarkAttendance.captureAccepted rejected = true ∧
   MarkAttendance.tasks rejected = MarkAttendance.tasks m ∧
   MarkAttendance.posts rejected = S (MarkAttendance.posts m) ∧
   MarkAttendance.error (MarkAttendance.ui rejected)
     = Some (Wire.messageOr "Failed to mark attendance" err) ∧
   MarkAttendance.detectedStudents (MarkAttendance.ui rejected) = []).
Proof.
  intros i noBlob rejected.
  destruct (capture_click m Hacc)
    as (s & subject & image & Hsub & Hclick & Hready & Hp & Hact & Hds & Herr & _).
  set (m1 := MarkAttendance.step m MarkAttendance.ClickCapture) in *.
  assert (Hts : MarkAttendance.tasks m1
                = (MarkAttendance.tasks m ++ [MarkAttendance.AwaitBlob subject image])%list).
  { by rewrite Hclick. }
  split.
  - destruct (blob_last m1 _ subject image false Hts Hready) as [Hstep Hready'].
    fold i in Hstep, Hready'.
    assert (Hno : noBlob = MarkAttendance.step m1 (MarkAttendance.BlobReady i false)) by done.
    rewrite Hno, captureAccepted_ready, Hready', Hstep. clear Hno.
    rewrite Hclick. unfold MarkAttendance.posts. cbn.
    rewrite !app_nil_r, !count_app, Hds. cbn. rewrite !Nat.add_0_r. done.
  - destruct (blob_last m1 _ subject image true Hts Hready) as [Hstep Hready'].
    fold i in Hstep, Hready'.
    set (m2 := MarkAttendance.step m1 (MarkAttendance.BlobReady i true)) in *.
    assert (Hts2 : MarkAttendance.tasks m2
                   = (MarkAttendance.tasks m ++ [MarkAttendance.AwaitResponse subject])%list).
    { by rewrite Hstep. }
    destruct (response_last m2 _ subject (Wire.Rejected err) Hts2 Hready') as [Hstep' Hready''].
    fold i in Hstep', Hready''.
    assert (Hrej : rejected
                   = MarkAttendance.step m2 (MarkAttendance.ResponseArrived i (Wire.Rejected err)))
      by done.
    rewrite Hrej, captureAccepted_ready, Hready'', Hstep'. clear Hrej.
    rewrite Hstep, Hclick. unfold MarkAttendance.posts. cbn.
    rewrite !app_nil_r, !count_app, Hds. cbn. rewrite !Nat.add_0_r. split_and!; try done. lia.
Qed.

Lemma failed_submission_can_retry_witness :
  let rejected :=
    MarkAttendance.run SampleScreen.markingMachine
      [MarkAttendance.ClickCapture; MarkAttendance.BlobReady 0 true;
       MarkAttendance.ResponseArrived 0 (Wire.Rejected (Wire.ThrownError "Server busy"))] in
  MarkAttendance.captureAccepted rejected = true ∧
  MarkAttendance.error (MarkAttendance.ui rejected) = Some "Server busy".
Proof.
  pose proof (failed_submission_can_retry SampleScreen.markingMachine
                (Wire.ThrownError "Server busy") eq_refl) as H.
  cbv zeta in H. destruct H as [_ (Hacc & _ & _ & Herr & _)].
  split; [exact Hacc|exact Herr].
Defined.

Section QuietFacts.
Import Dom MarkAttendance.
Local Open Scope list_scope.

(** Timers submit nothing and capture nothing. *)
Lemma timer_log (m : Machine) (k : nat) :
  posts (step m (TimerFired k)) = posts m ∧ captures (step m (TimerFired k)) = captures m.
Proof.
  cbn [step]. destruct (tasks m !! k) as [[]|]; try done.
  - unfold onRevealTimer, loopAt, finish, resume, posts, captures.
    destruct (_ <? _)%nat; cbn [log]; rewrite !count_app; cbn; lia.
  - unfold onHide, resume, posts, captures. cbn [log]. rewrite !count_app; cbn; lia.
Qed.

Lemma timers_log (n k : nat) (m : Machine) :
  posts (run m (replicate n (TimerFired k))) = posts m ∧
  captures (run m (replicate n (TimerFired k))) = captures m.
Proof.
  revert m. induction n as [|n IH]; intros m; [done|].
  change (run m (replicate (S n) (TimerFired k)))
    with (run (step m (TimerFired k)) (replicate n (TimerFired k))).
  destruct (IH (step m (TimerFired k))) as [-> ->].
  apply timer_log.
Qed.

Lemma stopCamera_fields (s : State) :
  isCameraActive (stopCamera s) = false ∧ streamRef (stopCamera s) = None ∧
  isProcessing (stopCamera s) = isProcessing s ∧
  detectedStudents (stopCamera s) = detectedStudents s ∧
  selectedSubject (stopCamera s) = selectedSubject s.
Proof.
  unfold stopCamera. destruct s as [a p img ds sel subs ok err v c st lv].
  by destruct st, v.
Qed.

(** The busy flag follows the submissions in flight. *)
Lemma busyInFlight_extend_quiet (m : Machine) (r : Step) :
  quiet (ui m) r → busyInFlight m → busyInFlight (extend m r).
Proof.
  destruct r as [[s effects] spawned]. intros (Hp & Hs & _) Hbusy. cbn in Hp, Hs.
  unfold busyInFlight, inFlight, extend in *. cbn [ui tasks].
  rewrite (proj1 (settle_fields _ _)), count_app, Hs, Hp. cbn [length].
  by rewrite Nat.add_0_r.
Qed.

Lemma busyInFlight_resume (m : Machine) (k : nat) (t : Task) (r : Step) :
  tasks m !! k = Some t → advances (ui m) t r →
  busyInFlight m → busyInFlight (resume k m r).
Proof.
  destruct r as [[s effects] spawned]. intros Hk [Hkind _] Hbusy.
  cbn [fst snd] in Hkind.
  pose proof (count_replace submitting (tasks m) spawned k t Hk) as Hsub.
  unfold busyInFlight, inFlight, resume in *. cbn [ui tasks].
  rewrite (proj1 (settle_fields _ _)).
  destruct Hkind as [[Hp Hs]|(Hp & _)]; [|by rewrite Hp].
  rewrite Hp. intros Htrue. specialize (Hbusy Htrue).
  destruct (submitting t); lia.
Qed.

Lemma busyInFlight_step (m : Machine) (e : Event) :
  singleFlight m → busyInFlight m → busyInFlight (step m e).
Proof.
  intros Hinv Hbusy. destruct e; cbn [step].
  - destruct (_ && _); [|done]. by apply busyInFlight_extend_quiet.
  - destruct (_ && _); [|done]. apply busyInFlight_extend_quiet; [|done].
    unfold quiet. cbn [fst snd].
    by rewrite (proj1 (proj2 (proj2 (stopCamera_fields _)))).
  - destruct (mounted m && captureEnabled (ui m)) eqn:Hen; [|done].
    apply andb_prop in Hen as [_ Hen]. unfold captureEnabled in Hen.
    apply andb_prop in Hen as [_ Hp]. apply negb_true_iff in Hp.
    destruct (captureAndProcess_cases (ui m))
      as [(notices & -> & Hpost & Hcap)|(s' & subject & image & -> & Hp' & _)].
    + by apply busyInFlight_extend_quiet.
    + destruct Hinv as (_ & Hzero & _). specialize (Hzero Hp).
      unfold busyInFlight, inFlight, extend in *. cbn [ui tasks].
      rewrite count_app, Hzero. done.
  - destruct (_ && _); [|done]. by apply busyInFlight_extend_quiet.
  - destruct (tasks m !! k) as [[]|] eqn:Hk; try done.
    eapply busyInFlight_resume; [done|apply advances_fetchSubjects_resolved|done].
  - destruct (tasks m !! k) as [[]|] eqn:Hk; try done.
    eapply busyInFlight_resume; [done|apply advances_fetchSubjects_rejected|done].
  - destruct (tasks m !! k) as [[]|] eqn:Hk; try done.
    eapply busyInFlight_resume; [done|apply advances_startCamera_granted|done].
  - destruct (tasks m !! k) as [[]|] eqn:Hk; try done.
    eapply busyInFlight_resume; [done|apply advances_startCamera_denied|done].
  - unfold busyInFlight, inFlight, progress in *. cbn [ui tasks].
    by destruct (videoRef (ui m)).
  - destruct (tasks m !! k) as [[]|] eqn:Hk; try done.
    eapply busyInFlight_resume; [done|apply advances_onBlob|done].
  - destruct (tasks m !! k) as [[]|] eqn:Hk; try done.
    eapply busyInFlight_resume; [done|apply advances_onResponse|done].
  - destruct (tasks m !! k) as [[]|] eqn:Hk; try done.
    + eapply busyInFlight_resume; [done|apply advances_onRevealTimer|done].
    + eapply busyInFlight_resume; [done|apply advances_onHide|done].
  - destruct (mounted m); [|done].
    unfold busyInFlight, inFlight, unmountCleanup in *. cbn [ui tasks].
    by destruct (streamRef (ui m)).
Qed.

Lemma busyInFlight_run (events : list Event) (m : Machine) :
  singleFlight m → busyInFlight m →
  singleFlight (run m events) ∧ busyInFlight (run m events).
Proof.
  revert m. induction events as [|e events IH]; intros m Hinv Hbusy; [done|].
  cbn [run fold_left]. apply IH; [by apply singleFlight_step|by apply busyInFlight_step].
Qed.

End QuietFacts.

(** X13.  The busy flag is exact.  On a screen where at most one
    submission is in flight and [isProcessing] is set only during one,
    after any events [isProcessing] is true exactly while one submission is
    in flight (its blob, its response or its staged reveal is pending) and
    false exactly while none is: the flag never stays set after the
    submission has ended, whatever its outcome. *)
Theorem busy_exactly_while_in_flight
    (m : MarkAttendance.Machine) (events : list MarkAttendance.Event)
    (Hinv : MarkAttendance.singleFlight m)
    (Hbusy : MarkAttendance.busyInFlight m) :
  let m' := MarkAttendance.run m events in
  (MarkAttendance.isProcessing (MarkAttendance.ui m') = true
   ↔ MarkAttendance.inFlight m' = 1%nat) ∧
  (MarkAttendance.isProcessing (MarkAttendance.ui m') = false
   ↔ MarkAttendance.inFlight m' = 0%nat) ∧
  (MarkAttendance.captureEnabled (MarkAttendance.ui m') = true
   → MarkAttendance.inFlight m' = 0%nat).
Proof.
  intros m'. destruct (busyInFlight_run events m Hinv Hbusy) as [Hinv' Hbusy'].
  fold m' in Hinv', Hbusy'. destruct Hinv' as (Hle & Hzero & _).
  unfold MarkAttendance.busyInFlight in Hbusy'.
  assert (Hal : MarkAttendance.isProcessing (MarkAttendance.ui m') = false
                → MarkAttendance.inFlight m' = 0%nat) by done.
  split_and!.
  - split; [done|]. intros H1.
    destruct (MarkAttendance.isProcessing (MarkAttendance.ui m')); [done|].
    specialize (Hzero eq_refl). lia.
  - split; [done|]. intros H0.
    destruct (MarkAttendance.isProcessing (MarkAttendance.ui m')); [|done].
    specialize (Hbusy' eq_refl). lia.
  - unfold MarkAttendance.captureEnabled. intros Hen.
    apply andb_prop in Hen as [_ Hp]. apply negb_true_iff in Hp. auto.
Qed.

Lemma busy_exactly_while_in_flight_witness :
  let m' := MarkAttendance.run SampleScreen.markingMachine
              [MarkAttendance.ClickCapture; MarkAttendance.BlobReady 0 false] in
  MarkAttendance.isProcessing (MarkAttendance.ui m') = false
  ↔ MarkAttendance.inFlight m' = 0%nat.
Proof.
  assert (Hinv : MarkAttendance.singleFlight SampleScreen.markingMachine).
  { unfold MarkAttendance.singleFlight. vm_compute. repeat split; lia. }
  assert (Hbusy : MarkAttendance.busyInFlight SampleScreen.markingMachine).
  { unfold MarkAttendance.busyInFlight. vm_compute. intros H. discriminate H. }
  pose proof (busy_exactly_while_in_flight SampleScreen.markingMachine
                [MarkAttendance.ClickCapture; MarkAttendance.BlobReady 0 false]
                Hinv Hbusy) as H.
  cbv zeta in H. exact (proj1 (proj2 H)).
Defined.

(** X14.  An accepted capture is not cancelled.  When the camera is
    stopped, or the screen is left, after the click and before the blob is
    ready, the blob callback still submits the image: one more network
    submission is made and its response is awaited, with the camera off
    and the stream released (or the screen unmounted). *)
Theorem capture_not_cancelled
    (m : MarkAttendance.Machine)
    (Hacc : MarkAttendance.captureAccepted m = true) :
  let i := length (MarkAttendance.tasks m) in
  let stopped :=
    MarkAttendance.run m
      [MarkAttendance.ClickCapture; MarkAttendance.ClickStopCamera;
       MarkAttendance.BlobReady i true] in
  let left :=
    MarkAttendance.run m
      [MarkAttendance.ClickCapture; MarkAttendance.Unmount;
       MarkAttendance.BlobReady i true] in
  ∃ subject,
    MarkAttendance.truthyId (MarkAttendance.selectedSubject (MarkAttendance.ui m))
      = Some subject ∧
    (MarkAttendance.isCameraActive (MarkAttendance.ui stopped) = false ∧
     MarkAttendance.streamRef (MarkAttendance.ui stopped) = None ∧
     MarkAttendance.isProcessing (MarkAttendance.ui stopped) = true ∧
     MarkAttendance.posts stopped = S (MarkAttendance.posts m) ∧
     MarkAttendance.tasks stopped
       = (MarkAttendance.tasks m ++ [MarkAttendance.AwaitResponse subject])%list) ∧
    (MarkAttendance.mounted left = false ∧
     MarkAttendance.isProcessing (MarkAttendance.ui left) = true ∧
     MarkAttendance.posts left = S (MarkAttendance.posts m) ∧
     MarkAttendance.tasks left
       = (MarkAttendance.tasks m ++ [MarkAttendance.AwaitResponse subject])%list).
Proof.
  intros i stopped left.
  destruct (capture_click m Hacc)
    as (s & subject & image & Hsub & Hclick & Hready & Hp & Hact & Hds & Herr & _).
  exists subject. split; [done|].
  destruct (stopCamera_fields s) as (Hoff & Hnone & Hkeep & _).
  split.
  - unfold stopped. cbn [MarkAttendance.run fold_left]. rewrite Hclick.
    cbn [MarkAttendance.step MarkAttendance.ui MarkAttendance.mounted]. rewrite Hact.
    cbn [andb MarkAttendance.extend MarkAttendance.tasks MarkAttendance.mounted
         MarkAttendance.log MarkAttendance.ui].
    rewrite !app_nil_r. unfold i. rewrite lookup_last.
    rewrite (resume_last _ (MarkAttendance.tasks m)
               (MarkAttendance.AwaitBlob subject image)) by done.
    cbn [MarkAttendance.onBlob fst snd MarkAttendance.ui MarkAttendance.mounted
         MarkAttendance.log MarkAttendance.tasks].
    destruct (settle_fields true (MarkAttendance.commit (MarkAttendance.stopCamera s)))
      as (-> & _ & _ & _ & -> & _ & _ & -> & _).
    destruct (settle_fields true (MarkAttendance.stopCamera s))
      as (-> & _ & _ & _ & -> & _ & _ & -> & _).
    rewrite Hoff, Hnone, Hkeep, Hp. unfold MarkAttendance.posts.
    cbn [MarkAttendance.log]. rewrite !count_app. cbn. split_and!; try done. lia.
  - unfold left. cbn [MarkAttendance.run fold_left]. rewrite Hclick.
    cbn [MarkAttendance.step MarkAttendance.ui MarkAttendance.mounted
         MarkAttendance.tasks MarkAttendance.log].
    unfold i. rewrite lookup_last.
    rewrite (resume_last _ (MarkAttendance.tasks m)
               (MarkAttendance.AwaitBlob subject image)) by done.
    cbn [MarkAttendance.onBlob fst snd MarkAttendance.ui MarkAttendance.mounted
         MarkAttendance.log MarkAttendance.tasks].
    unfold MarkAttendance.posts. cbn [MarkAttendance.log]. rewrite !count_app. cbn.
    split_and!; try done; [|lia].
    unfold MarkAttendance.unmountCleanup.
    by destruct (MarkAttendance.streamRef s).
Qed.

Lemma capture_not_cancelled_witness :
  let left :=
    MarkAttendance.run SampleScreen.markingMachine
      [MarkAttendance.ClickCapture; MarkAttendance.Unmount;
       MarkAttendance.BlobReady 0 true] in
  MarkAttendance.mounted left = false ∧ MarkAttendance.posts left = 1%nat.
Proof.
  pose proof (capture_not_cancelled SampleScreen.markingMachine eq_refl) as H.
  cbv zeta in H. destruct H as (subject & _ & _ & Hm & _ & Hposts & _).
  split; [exact Hm|exact Hposts].
Defined.

(** X15.  A successful submission, to its end.  After an accepted capture
    whose response carries N >= 1 detections and N reveal timers, the
    success notice is shown, the hide timer is the only continuation left
    of the submission and Capture is accepted again; when the hide timer
    fires the notice is hidden, the disclosed list stays, the pending
    continuations are those from before the click, nothing further is
    submitted, and Capture is still accepted. *)
Theorem success_notice_round_trip
    (m : MarkAttendance.Machine) (result : Wire.AttendanceResult)
    (entries : list Wire.Entry)
    (Hacc : MarkAttendance.captureAccepted m = true)
    (Hres : Wire.students_present result = Some entries)
    (Hn : (1 ≤ length entries)%nat) :
  let i := length (MarkAttendance.tasks m) in
  let shown :=
    MarkAttendance.run m
      ([MarkAttendance.ClickCapture; MarkAttendance.BlobReady i true;
        MarkAttendance.ResponseArrived i (Wire.Resolved result)]
       ++ replicate (length entries) (MarkAttendance.TimerFired i))%list in
  let hidden := MarkAttendance.step shown (MarkAttendance.TimerFired i) in
  (MarkAttendance.showSuccess (MarkAttendance.ui shown) = true ∧
   MarkAttendance.tasks shown = (MarkAttendance.tasks m ++ [MarkAttendance.AwaitHide])%list ∧
   MarkAttendance.captureAccepted shown = true) ∧
  (MarkAttendance.showSuccess (MarkAttendance.ui hidden) = false ∧
   MarkAttendance.tasks hidden = MarkAttendance.tasks m ∧
   MarkAttendance.detectedStudents (MarkAttendance.ui hidden)
     = map MarkAttendance.toDetected entries ∧
   MarkAttendance.posts hidden = S (MarkAttendance.posts m) ∧
   MarkAttendance.captureAccepted hidden = true).
Proof.
  intros i shown hidden.
  set (students := map MarkAttendance.toDetected entries).
  set (answered :=
         MarkAttendance.run m
           [MarkAttendance.ClickCapture; MarkAttendance.BlobReady i true;
            MarkAttendance.ResponseArrived i (Wire.Resolved result)]).
  assert (Hshown : shown = MarkAttendance.run answered
                             (replicate (length entries) (MarkAttendance.TimerFired i))).
  { unfold shown. by rewrite run_app. }
  destruct (capture_then_result m result entries Hacc Hres Hn)
    as (Hts & Hds & Hp & Hposts).
  fold i in Hts, Hds, Hp, Hposts. fold answered in Hts, Hds, Hp, Hposts.
  fold students in Hts.
  assert (Hready : MarkAttendance.cameraReady answered = true).
  { destruct (capture_click m Hacc) as (s & subject & image & _ & _ & Hready & _).
    unfold answered. cbn [MarkAttendance.run fold_left].
    by do 2 (apply settle_ready; [done|]). }
  assert (Hlen : length students = length entries) by apply length_map.
  destruct (reveal_steps (length entries) answered (MarkAttendance.tasks m) students 0 Hts)
    as (Hall & _ & Hend); [lia..|].
  fold i in Hall, Hend. rewrite <- Hshown in Hall, Hend.
  destruct Hend as (Hts' & Hp' & Hok); [lia|].
  assert (Hready' : MarkAttendance.cameraReady shown = true).
  { rewrite Hshown. apply settle_ready_run; [|done]. by apply Forall_replicate. }
  destruct (timers_log (length entries) i answered) as [Hposts' _].
  rewrite <- Hshown in Hposts'.
  split.
  - by rewrite captureAccepted_ready, Hready', Hp'.
  - destruct (hide_last shown (MarkAttendance.tasks m) Hts' Hready') as [Hhide Hready''].
    fold i in Hhide, Hready''. fold hidden in Hhide, Hready''.
    rewrite captureAccepted_ready, Hready''. rewrite Hhide.
    cbn [MarkAttendance.ui MarkAttendance.tasks MarkAttendance.set_showSuccess
         MarkAttendance.showSuccess MarkAttendance.detectedStudents
         MarkAttendance.isProcessing].
    unfold MarkAttendance.posts in *. cbn [MarkAttendance.log].
    rewrite Hall, Hds, Hp', Hposts', Hposts, drop_0, <- Hlen, firstn_all. done.
Qed.

Lemma success_notice_round_trip_witness :
  let shown :=
    MarkAttendance.run SampleScreen.markingMachine
      [MarkAttendance.ClickCapture; MarkAttendance.BlobReady 0 true;
       MarkAttendance.ResponseArrived 0 (Wire.Resolved SampleResult.two);
       MarkAttendance.TimerFired 0; MarkAttendance.TimerFired 0] in
  let hidden := MarkAttendance.step shown (MarkAttendance.TimerFired 0) in
  MarkAttendance.showSuccess (MarkAttendance.ui shown) = true ∧
  MarkAttendance.showSuccess (MarkAttendance.ui hidden) = false ∧
  MarkAttendance.captureAccepted hidden = true.
Proof.
  pose proof (success_notice_round_trip SampleScreen.markingMachine SampleResult.two
                [SampleResult.asha; SampleResult.ben] eq_refl eq_refl
                (le_S 1 1 (le_n 1))) as H.
  cbv zeta in H. destruct H as [(Hshown & _) (Hhidden & _ & _ & _ & Hacc)].
  split; [exact Hshown|]. split; [exact Hhidden|exact Hacc].
Defined.

(** ** Streams granted and released *)

Lemma stopTracks_fresh (stream : list nat) (live : gset nat) :
  (∀ t, t ∈ stream → t ∉ live) →
  Dom.stopTracks stream (live ∪ list_to_set stream) = live.
Proof.
  intros Hfresh. unfold Dom.stopTracks. apply set_eq. intros t.
  rewrite elem_of_difference, elem_of_union, elem_of_list_to_set.
  split; [tauto|]. intros Ht. split; [tauto|]. intros Hs. by apply (Hfresh t).
Qed.

Lemma stopTracks_other (stream : list nat) (live : gset nat) (t : nat) :
  t ∈ live → t ∉ stream → t ∈ Dom.stopTracks stream live.
Proof.
  intros Hl Hs. unfold Dom.stopTracks.
  by rewrite elem_of_difference, elem_of_list_to_set.
Qed.

(** X16.  Starting and stopping the camera is a round trip on the
    hardware of the StudentTraining screen.  With no photo held (the
    video element is rendered exactly then), when the device grants a
    stream of tracks that were not live before, the screen holds that
    stream with the camera flag set and still no photo, and [stopCamera]
    (or the unmount cleanup) afterwards leaves exactly the tracks live
    that were live before; after [stopCamera] no stream is held, the
    camera flag is false and the video element has no source. *)
Theorem start_then_stop_restores_tracks
    (u : StudentTraining.State) (video : Dom.Video) (stream : list nat)
    (Hphoto : StudentTraining.capturedImage u = None)
    (Huv : StudentTraining.videoRef u = Some video)
    (Hu : ∀ t, t ∈ stream → t ∉ StudentTraining.live u) :
  let u1 := StudentTraining.startCamera_granted stream u in
  StudentTraining.streamRef u1 = Some stream ∧
  StudentTraining.isCameraActive u1 = true ∧
  StudentTraining.capturedImage u1 = None ∧
  (∀ t, t ∈ stream → t ∈ StudentTraining.live u1) ∧
  StudentTraining.live (StudentTraining.stopCamera u1) = StudentTraining.live u ∧
  StudentTraining.live (StudentTraining.unmountCleanup u1) = StudentTraining.live u ∧
  StudentTraining.streamRef (StudentTraining.stopCamera u1) = None ∧
  StudentTraining.isCameraActive (StudentTraining.stopCamera u1) = false ∧
  (∃ v, StudentTraining.videoRef (StudentTraining.stopCamera u1) = Some v ∧
        Dom.srcObject v = None).
Proof.
  intros u1. subst u1. unfold StudentTraining.startCamera_granted.
  cbn [StudentTraining.videoRef StudentTraining.set_live]. rewrite Huv.
  cbn. rewrite (stopTracks_fresh stream _ Hu).
  split_and!; try done; [|by eexists].
  intros t Ht. rewrite elem_of_union, elem_of_list_to_set. by right.
Qed.

Lemma start_then_stop_restores_tracks_witness :
  let u0 := StudentTraining.stopCamera SampleScreen.enrolling in
  StudentTraining.live
    (StudentTraining.stopCamera (StudentTraining.startCamera_granted [3; 4]%nat u0))
  = StudentTraining.live u0.
Proof.
  pose proof (start_then_stop_restores_tracks
                (StudentTraining.stopCamera SampleScreen.enrolling)
                {| Dom.srcObject := None; Dom.readyState := 4; Dom.videoWidth := 1280;
                   Dom.videoHeight := 720; Dom.currentFrame := 41%nat |}
                [3; 4]%nat eq_refl eq_refl) as H.
  cbv zeta in H.
  assert (Hfresh : ∀ t : nat, t ∈ [3; 4]%nat → t ∉ ({[1; 2; 9]} ∖ list_to_set [1; 2] : gset nat)%nat).
  { intros t Ht Hl. set_unfold. lia. }
  destruct (H Hfresh) as (_ & _ & _ & _ & Hlive & _). exact Hlive.
Defined.

(** X17.  A stream granted while no video element is mounted is dropped
    on the StudentTraining screen: the stream handle and the camera flag
    stay as they were, the granted tracks are live, and neither
    [stopCamera] nor the unmount cleanup stops any granted track that is
    not also part of the stream the screen holds. *)
Theorem dropped_grant_stays_live
    (u : StudentTraining.State) (stream : list nat) (t : nat)
    (Hnone : StudentTraining.videoRef u = None)
    (Ht : t ∈ stream)
    (Hheld : ∀ held, StudentTraining.streamRef u = Some held → t ∉ held) :
  let u1 := StudentTraining.startCamera_granted stream u in
  StudentTraining.streamRef u1 = StudentTraining.streamRef u ∧
  StudentTraining.isCameraActive u1 = StudentTraining.isCameraActive u ∧
  t ∈ StudentTraining.live u1 ∧
  t ∈ StudentTraining.live (StudentTraining.stopCamera u1) ∧
  t ∈ StudentTraining.live (StudentTraining.unmountCleanup u1).
Proof.
  intros u1. subst u1. unfold StudentTraining.startCamera_granted.
  cbn [StudentTraining.videoRef StudentTraining.set_live]. rewrite Hnone.
  assert (Hl : t ∈ StudentTraining.live u ∪ (list_to_set stream : gset nat)).
  { rewrite elem_of_union, elem_of_list_to_set. by right. }
  unfold StudentTraining.stopCamera, StudentTraining.unmountCleanup.
  cbn [StudentTraining.streamRef StudentTraining.set_live StudentTraining.isCameraActive
       StudentTraining.live].
  destruct (StudentTraining.streamRef u) as [held|] eqn:Hst; cbn; rewrite ?Hnone; cbn;
    split_and!; try done; apply stopTracks_other; try done; by apply Hheld.
Qed.

Lemma dropped_grant_stays_live_witness :
  let u := StudentTraining.set_videoRef None SampleScreen.enrolling in
  3%nat ∈ StudentTraining.live
            (StudentTraining.stopCamera (StudentTraining.startCamera_granted [3; 4]%nat u)).
Proof.
  pose proof (dropped_grant_stays_live
                (StudentTraining.set_videoRef None SampleScreen.enrolling)
                [3; 4]%nat 3%nat eq_refl (list_elem_of_here 3%nat [4%nat])) as H.
  cbv zeta in H.
  assert (Hheld : ∀ held, Some [1; 2]%nat = Some held → 3%nat ∉ held).
  { intros held [= <-] Hin. set_unfold. lia. }
  exact (proj1 (proj2 (proj2 (proj2 (H Hheld))))).
Defined.

(** X18.  A second grant overwrites the first.  On the StudentTraining
    screen with the video element mounted, when two streams are granted
    one after the other, the screen holds the second only, and a track of
    the first that is not part of the second stays live after
    [stopCamera] and after the unmount cleanup. *)
Theorem second_grant_leaks_first_stream
    (u : StudentTraining.State) (video : Dom.Video) (first second : list nat) (t : nat)
    (Huv : StudentTraining.videoRef u = Some video)
    (Ht : t ∈ first)
    (Hother : t ∉ second) :
  let u2 := StudentTraining.startCamera_granted second
              (StudentTraining.startCamera_granted first u) in
  StudentTraining.streamRef u2 = Some second ∧
  t ∈ StudentTraining.live u2 ∧
  t ∈ StudentTraining.live (StudentTraining.stopCamera u2) ∧
  t ∈ StudentTraining.live (StudentTraining.unmountCleanup u2) ∧
  StudentTraining.streamRef (StudentTraining.stopCamera u2) = None.
Proof.
  intros u2. subst u2. unfold StudentTraining.startCamera_granted.
  cbn [StudentTraining.videoRef StudentTraining.set_live]. rewrite Huv. cbn.
  assert (Hl : t ∈ StudentTraining.live u ∪ (list_to_set first : gset nat)
                  ∪ (list_to_set second : gset nat)).
  { rewrite !elem_of_union, elem_of_list_to_set. left. by right. }
  split_and!; try done; by apply stopTracks_other.
Qed.

Lemma second_grant_leaks_first_stream_witness :
  let u := StudentTraining.stopCamera SampleScreen.enrolling in
  let u2 := StudentTraining.startCamera_granted [5; 6]%nat
              (StudentTraining.startCamera_granted [3; 4]%nat u) in
  3%nat ∈ StudentTraining.live (StudentTraining.stopCamera u2).
Proof.
  assert (Hother : 3%nat ∉ [5; 6]%nat).
  { intros Hin. set_unfold. lia. }
  pose proof (second_grant_leaks_first_stream
                (StudentTraining.stopCamera SampleScreen.enrolling)
                {| Dom.srcObject := None; Dom.readyState := 4; Dom.videoWidth := 1280;
                   Dom.videoHeight := 720; Dom.currentFrame := 41%nat |}
                [3; 4]%nat [5; 6]%nat 3%nat eq_refl
                (list_elem_of_here 3%nat [4%nat]) Hother) as H.
  cbv zeta in H. exact (proj1 (proj2 (proj2 H))).
Defined.

(** X29.  [stopCamera] is idempotent on both screens, and it releases
    the stream held in [streamRef] and nothing else.  After one or more
    calls from any state, the stream handle is null, the video element (if
    mounted) has no source, the camera flag is false, and every track of
    the stream that [streamRef] held is stopped; no track becomes live,
    and further calls change nothing.  The unmount cleanup leaves the
    same tracks live. *)
Theorem stopCamera_idempotent
    (s : MarkAttendance.State) (u : StudentTraining.State) (n : nat) :
  let s' := Nat.iter (S n) MarkAttendance.stopCamera s in
  let u' := Nat.iter (S n) StudentTraining.stopCamera u in
  (MarkAttendance.streamRef s' = None ∧
   MarkAttendance.isCameraActive s' = false ∧
   (∀ v, MarkAttendance.videoRef s' = Some v → Dom.srcObject v = None) ∧
   (∀ stream t, MarkAttendance.streamRef s = Some stream → t ∈ stream →
                t ∉ MarkAttendance.live s') ∧
   (∀ stream (owned : gset nat),
      MarkAttendance.streamRef s = Some stream →
      (∀ t, t ∈ owned → t ∈ MarkAttendance.live s → t ∈ stream) →
      ∀ t, t ∈ owned → t ∉ MarkAttendance.live s') ∧
   MarkAttendance.live s' ⊆ MarkAttendance.live s ∧
   s' = MarkAttendance.stopCamera s ∧
   MarkAttendance.stopCamera s' = s' ∧
   MarkAttendance.live (MarkAttendance.unmountCleanup s) = MarkAttendance.live s') ∧
  (StudentTraining.streamRef u' = None ∧
   StudentTraining.isCameraActive u' = false ∧
   (∀ v, StudentTraining.videoRef u' = Some v → Dom.srcObject v = None) ∧
   (∀ stream t, StudentTraining.streamRef u = Some stream → t ∈ stream →
                t ∉ StudentTraining.live u') ∧
   (∀ stream (owned : gset nat),
      StudentTraining.streamRef u = Some stream →
      (∀ t, t ∈ owned → t ∈ StudentTraining.live u → t ∈ stream) →
      ∀ t, t ∈ owned → t ∉ StudentTraining.live u') ∧
   StudentTraining.live u' ⊆ StudentTraining.live u ∧
   u' = StudentTraining.stopCamera u ∧
   StudentTraining.stopCamera u' = u' ∧
   StudentTraining.live (StudentTraining.unmountCleanup u) = StudentTraining.live u').
Proof.
  intros s' u'. subst s' u'.
  rewrite mark_stopCamera_iter, training_stopCamera_iter.
  rewrite mark_stopCamera_idem, training_stopCamera_idem.
  split.
  - destruct s as [a p img ds sel subs ok err v c st lv].
    unfold MarkAttendance.stopCamera, MarkAttendance.unmountCleanup.
    destruct st as [stream|], v as [video|]; cbn;
      repeat split; try done; try (intros ? [= <-]; reflexivity);
      try (intros ? ? [= <-]; apply stopTracks_not_live);
      try (intros ? owned [= <-] Hown t Ht; by apply (stopTracks_owned _ _ owned));
      apply stopTracks_subseteq.
  - destruct u as [a p img file ok f v c inp st lv].
    unfold StudentTraining.stopCamera, StudentTraining.unmountCleanup.
    destruct st as [stream|], v as [video|]; cbn;
      repeat split; try done; try (intros ? [= <-]; reflexivity);
      try (intros ? ? [= <-]; apply stopTracks_not_live);
      try (intros ? owned [= <-] Hown t Ht; by apply (stopTracks_owned _ _ owned));
      apply stopTracks_subseteq.
Qed.

(** On the sample screens, tracks 1 and 2 are released by three stops in a
    row and the foreign track 9 is left alone. *)
Lemma stopCamera_idempotent_witness :
  (1%nat ∉ MarkAttendance.live (Nat.iter 3 MarkAttendance.stopCamera SampleScreen.marking)) ∧
  (2%nat ∉ StudentTraining.live (Nat.iter 3 StudentTraining.stopCamera SampleScreen.enrolling)).
Proof.
  pose proof (stopCamera_idempotent SampleScreen.marking SampleScreen.enrolling 2) as H.
  cbv zeta in H. destruct H as [Hm Ht]. split.
  - destruct Hm as (_ & _ & _ & Hlive & _).
    apply (Hlive [1; 2]%nat 1%nat eq_refl). apply list_elem_of_here.
  - destruct Ht as (_ & _ & _ & Hlive & _).
    apply (Hlive [1; 2]%nat 2%nat eq_refl). apply list_elem_of_further, list_elem_of_here.
Defined.

(** ** Registration on the StudentTraining screen *)

Section RegistrationFacts.
Import Dom StudentTraining.

Lemma isFormValid_file (s : State) :
  isFormValid s = true → ∃ file, capturedFile s = Some file.
Proof.
  unfold isFormValid. destruct (capturedFile s); [by eauto|].
  by rewrite andb_false_r.
Qed.

Lemma isFormValid_no_file (s : State) :
  capturedFile s = None → isFormValid s = false.
Proof. unfold isFormValid. intros ->. by rewrite andb_false_r. Qed.

Lemma set_isProcessing_back (s : State) :
  isProcessing s = false → set_isProcessing false (set_isProcessing true s) = s.
Proof. destruct s. cbn. by intros ->. Qed.

End RegistrationFacts.

(** White space beyond ASCII is white space to [trim]: a no-break space
    (U+00A0), a byte order mark (U+FEFF) and a line separator (U+2028) are
    stripped, a field holding only a no-break space is blank, and
    [submit] answers such a form with its error toast. *)
Lemma unicode_space_is_blank :
  let nbsp := String "194" (String "160" "") in
  let bom := String "239" (String "187" (String "191" "")) in
  let line_sep := String "226" (String "128" (String "168" "")) in
  let photo := {| Dom.fileName := "student_21CS042.jpg"; Dom.fileType := "image/jpeg";
                  Dom.content := Dom.encode "image/jpeg" (Some Js.lit_0_9)
                                   SampleScreen.canvas |} in
  let s := StudentTraining.set_form
             {| StudentTraining.name := nbsp; StudentTraining.roll_no := "21CS042";
                StudentTraining.year := "3"; StudentTraining.branch := "CSE";
                StudentTraining.section := "A" |}
             (StudentTraining.set_capturedFile (Some photo) SampleScreen.enrolling) in
  StudentTraining.trim (bom ++ nbsp ++ " x y" ++ line_sep) = "x y" ∧
  StudentTraining.trim nbsp = "" ∧
  StudentTraining.isFormValid s = false ∧
  StudentTraining.submit s =
    (s, [StudentTraining.Toast Dom.toast_error
           "Please fill all fields and capture/upload a photo."], []) ∧
  BulkImport.notBlank (nbsp ++ line_sep) = false.
Proof. repeat split. Qed.

(** X19.  A failed registration keeps everything.  With a valid form, a
    photo held, no request running and no success notice, submitting
    posts the form and the held photo and sets the busy flag, during
    which the form cannot be submitted again; when the request fails, the
    state is exactly the one before the submission (form and photo
    included) and an error toast carries the failure's message, so that
    submitting again posts the same form and photo. *)
Theorem failed_registration_keeps_form
    (s : StudentTraining.State) (err : Wire.Thrown)
    (Hvalid : StudentTraining.isFormValid s = true)
    (Hidle : StudentTraining.isProcessing s = false)
    (Hnew : StudentTraining.registrationSuccess s = false) :
  ∃ file,
    StudentTraining.capturedFile s = Some file ∧
    let busy := StudentTraining.set_isProcessing true s in
    StudentTraining.formSubmit s =
      (busy, [StudentTraining.PostRegisterStudent (StudentTraining.form s) file],
       [StudentTraining.AwaitResponse]) ∧
    StudentTraining.formSubmit busy = (busy, [], []) ∧
    StudentTraining.submit_onResponse (Some err) busy =
      (s, [StudentTraining.Toast Dom.toast_error
             (Wire.messageOr "Failed to register student" err)], []) ∧
    StudentTraining.formSubmit (StudentTraining.submit_onResponse (Some err) busy).1.1 =
      StudentTraining.formSubmit s.
Proof.
  destruct (isFormValid_file s Hvalid) as [file Hfile]. exists file.
  split; [done|]. intros busy.
  assert (Hback : StudentTraining.submit_onResponse (Some err) busy =
                  (s, [StudentTraining.Toast Dom.toast_error
                         (Wire.messageOr "Failed to register student" err)], [])).
  { unfold StudentTraining.submit_onResponse, busy. by rewrite set_isProcessing_back. }
  split_and!.
  - unfold StudentTraining.formSubmit, StudentTraining.submit.
    by rewrite Hnew, Hvalid, Hidle, Hfile.
  - unfold StudentTraining.formSubmit, busy. cbn. by rewrite orb_true_r.
  - done.
  - by rewrite Hback.
Qed.

Lemma failed_registration_keeps_form_witness :
  let held := {| Dom.fileName := "student_21CS042.jpg"; Dom.fileType := "image/jpeg";
                 Dom.content := Dom.encode "image/jpeg" (Some Js.lit_0_9) SampleScreen.canvas |} in
  let s := StudentTraining.set_capturedFile (Some held) SampleScreen.enrolling in
  StudentTraining.submit_onResponse (Some (Wire.ThrownError "Roll number exists"))
    (StudentTraining.set_isProcessing true s) =
  (s, [StudentTraining.Toast Dom.toast_error "Roll number exists"], []).
Proof.
  intros held s.
  destruct (failed_registration_keeps_form s (Wire.ThrownError "Roll number exists")
              eq_refl eq_refl eq_refl) as (file & _ & H).
  cbv zeta in H. exact (proj1 (proj2 (proj2 H))).
Defined.

(** X20.  A successful registration ends in an empty form.  After the
    request resolves, the busy flag is false, the success notice is shown
    with one success toast and one timer of 2500 ms, and the form cannot
    be submitted while the notice is shown; when the timer fires, whatever
    the form and the photo are by then, the five fields are empty, no photo
    or preview is held, the file input is cleared, the notice is gone, the
    form is invalid and submitting does nothing; the camera and its stream
    are not touched. *)
Theorem successful_registration_resets
    (s later : StudentTraining.State) :
  let answered := StudentTraining.submit_onResponse None s in
  let reset := (StudentTraining.submit_onReset later).1.1 in
  (answered.1.2 =
     [StudentTraining.Toast Dom.toast_success "Student registered and face embedding saved.";
      StudentTraining.SetTimeout 2500] ∧
   answered.2 = [StudentTraining.AwaitReset] ∧
   StudentTraining.isProcessing answered.1.1 = false ∧
   StudentTraining.registrationSuccess answered.1.1 = true ∧
   StudentTraining.form answered.1.1 = StudentTraining.form s ∧
   StudentTraining.capturedFile answered.1.1 = StudentTraining.capturedFile s ∧
   StudentTraining.formSubmit answered.1.1 = (answered.1.1, [], [])) ∧
  (StudentTraining.form reset = StudentTraining.emptyForm ∧
   StudentTraining.capturedFile reset = None ∧
   StudentTraining.capturedImage reset = None ∧
   StudentTraining.fileInputValue reset = "" ∧
   StudentTraining.registrationSuccess reset = false ∧
   StudentTraining.isFormValid reset = false ∧
   StudentTraining.formSubmit reset = (reset, [], []) ∧
   StudentTraining.isCameraActive reset = StudentTraining.isCameraActive later ∧
   StudentTraining.streamRef reset = StudentTraining.streamRef later ∧
   StudentTraining.live reset = StudentTraining.live later ∧
   StudentTraining.isProcessing reset = StudentTraining.isProcessing later).
Proof.
  intros answered reset. split.
  - split_and!; done.
  - split_and!; done.
Qed.

(** X21.  An uploaded file is what gets registered.  Choosing a file
    stores it as the photo, stops the camera (no stream is held, the camera
    flag is false and every track of the stream held before is stopped)
    and asks for the file to be read; when the reader is done the preview
    is the file's data.  If the form is valid with that file and nothing
    is running, submitting then posts the form with exactly that file.
    A change event without a file does nothing. *)
Theorem uploaded_file_is_registered
    (s : StudentTraining.State) (f : Dom.File)
    (Hvalid : StudentTraining.isFormValid (StudentTraining.set_capturedFile (Some f) s) = true)
    (Hidle : StudentTraining.isProcessing s = false)
    (Hnew : StudentTraining.registrationSuccess s = false) :
  let chosen := StudentTraining.handleFileUpload (Some f) s in
  let loaded := (StudentTraining.handleFileUpload_onLoad f chosen.1.1).1.1 in
  chosen.1.2 = [StudentTraining.ReadAsDataURL f] ∧
  chosen.2 = [StudentTraining.AwaitReader f] ∧
  StudentTraining.isCameraActive chosen.1.1 = false ∧
  StudentTraining.streamRef chosen.1.1 = None ∧
  (∀ stream t, StudentTraining.streamRef s = Some stream → t ∈ stream →
               t ∉ StudentTraining.live chosen.1.1) ∧
  StudentTraining.capturedImage loaded = Some (Dom.content f) ∧
  StudentTraining.formSubmit loaded =
    (StudentTraining.set_isProcessing true loaded,
     [StudentTraining.PostRegisterStudent (StudentTraining.form s) f],
     [StudentTraining.AwaitResponse]) ∧
  StudentTraining.handleFileUpload None s = (s, [], []).
Proof.
  intros chosen loaded.
  assert (Hfields :
    StudentTraining.form loaded = StudentTraining.form s ∧
    StudentTraining.capturedFile loaded = Some f ∧
    StudentTraining.isProcessing loaded = StudentTraining.isProcessing s ∧
    StudentTraining.registrationSuccess loaded = StudentTraining.registrationSuccess s).
  { subst loaded chosen. unfold StudentTraining.handleFileUpload, StudentTraining.stopCamera.
    destruct s as [a p img file ok fm v c inp st lv]. by destruct st, v. }
  destruct Hfields as (Hform & Hfile & Hp & Hok).
  assert (Hvalid' : StudentTraining.isFormValid loaded = true).
  { unfold StudentTraining.isFormValid in *. rewrite Hform, Hfile. exact Hvalid. }
  split_and!; try done.
  - subst chosen. unfold StudentTraining.handleFileUpload, StudentTraining.stopCamera.
    destruct s as [a p img file ok fm v c inp st lv]. by destruct st, v.
  - intros stream t Hst Ht. subst chosen.
    unfold StudentTraining.handleFileUpload, StudentTraining.stopCamera.
    destruct s as [a p img file ok fm v c inp st lv]. cbn in Hst. subst st.
    destruct v; cbn; by apply stopTracks_not_live.
  - unfold StudentTraining.formSubmit, StudentTraining.submit.
    by rewrite Hok, Hnew, Hvalid', Hp, Hidle, Hfile, Hform.
Qed.

Lemma uploaded_file_is_registered_witness :
  let f := {| Dom.fileName := "asha.png"; Dom.fileType := "image/png";
              Dom.content := Dom.encode "image/png" None SampleScreen.canvas |} in
  let chosen := StudentTraining.handleFileUpload (Some f) SampleScreen.enrolling in
  let loaded := (StudentTraining.handleFileUpload_onLoad f chosen.1.1).1.1 in
  StudentTraining.formSubmit loaded =
    (StudentTraining.set_isProcessing true loaded,
     [StudentTraining.PostRegisterStudent
        (StudentTraining.form SampleScreen.enrolling) f],
     [StudentTraining.AwaitResponse]).
Proof.
  intros f chosen loaded.
  pose proof (uploaded_file_is_registered SampleScreen.enrolling f
                eq_refl eq_refl eq_refl) as H.
  cbv zeta in H. exact (proj1 (proj2 (proj2 (proj2 (proj2 (proj2 (proj2 H))))))).
Defined.

(** X22.  The photo is named when the shutter is pressed.  When
    [capturePhoto] passes its guards, the file built by the blob callback
    is named student_<roll>.jpg after the roll number the form held at the
    click (or student_face.jpg when that was empty), of type image/jpeg
    with the 0.9-quality encoding as content, whatever the form holds when
    the callback runs; the preview is encoded without a quality argument;
    a null blob changes nothing. *)
Theorem photo_named_at_capture
    (u later : StudentTraining.State) (canvas : Dom.Canvas) (video : Dom.Video)
    (Huc : StudentTraining.canvasRef u = Some canvas)
    (Huv : StudentTraining.videoRef u = Some video)
    (Hctx : Dom.context2d canvas = true)
    (Hready : Dom.readyState video = 4) :
  ∃ u' image canvas',
    StudentTraining.capturePhoto u =
      (u', [StudentTraining.ToBlob image],
       [StudentTraining.AwaitBlob
          (StudentTraining.roll_no (StudentTraining.form u)) image canvas']) ∧
    let rollNo := StudentTraining.roll_no (StudentTraining.form u) in
    let done := (StudentTraining.capturePhoto_onBlob rollNo image canvas' true later).1.1 in
    StudentTraining.capturedFile done =
      Some {| Dom.fileName :=
                "student_" ++ (if String.eqb rollNo "" then "face" else rollNo) ++ ".jpg";
              Dom.fileType := "image/jpeg";
              Dom.content := image |} ∧
    Dom.quality image = Some Js.lit_0_9 ∧
    (∃ preview, StudentTraining.capturedImage done = Some preview ∧
                Dom.quality preview = None ∧ Dom.mime preview = "image/jpeg") ∧
    StudentTraining.form done = StudentTraining.form later ∧
    StudentTraining.capturePhoto_onBlob rollNo image canvas' false later = (later, [], []).
Proof.
  unfold StudentTraining.capturePhoto. rewrite Huc, Huv, Hready. cbn [Z.eqb negb].
  change (Dom.context2d (Dom.resize (Dom.videoWidth video) (Dom.videoHeight video) canvas))
    with (Dom.context2d canvas).
  rewrite Hctx. cbn [negb]. eexists _, _, _. split; [reflexivity|].
  cbv zeta.
  unfold StudentTraining.capturePhoto_onBlob, StudentTraining.stopCamera.
  destruct later as [a p img file ok fm v c inp st lv].
  destruct st, v; cbn; split_and!; try done; by eexists.
Qed.

Lemma photo_named_at_capture_witness :
  ∃ image canvas',
    Dom.fileName <$> StudentTraining.capturedFile
      (StudentTraining.capturePhoto_onBlob "21CS042" image canvas' true
         (StudentTraining.set_form StudentTraining.emptyForm SampleScreen.enrolling)).1.1
    = Some "student_21CS042.jpg".
Proof.
  destruct (photo_named_at_capture SampleScreen.enrolling
              (StudentTraining.set_form StudentTraining.emptyForm SampleScreen.enrolling)
              SampleScreen.canvas SampleScreen.video eq_refl eq_refl eq_refl eq_refl)
    as (u' & image & canvas' & _ & H).
  cbv zeta in H. destruct H as (Hfile & _).
  exists image, canvas'. exact (f_equal (fmap Dom.fileName) Hfile).
Defined.

(** ** Bulk import *)

Section BulkFacts.
Import Dom BulkImport.
Local Open Scope list_scope.

Lemma split_nonempty (sep : ascii) (s : string) : split sep s ≠ [].
Proof.
  destruct s as [|c rest]; [done|]. cbn [split].
  destruct (Ascii.eqb c sep); [done|]. by destruct (split sep rest).
Qed.

(** A text without the separator is one segment. *)
Lemma split_single (sep : ascii) (s : string) :
  Jwt.contains sep s = false → split sep s = [s].
Proof.
  induction s as [|c rest IH]; [done|]. cbn [Jwt.contains split].
  intros H. apply orb_false_elim in H as [Hc Hrest].
  by rewrite Hc, (IH Hrest).
Qed.

(** The first segment ends at the first separator. *)
Lemma split_first (sep : ascii) (h rest : string) :
  Jwt.contains sep h = false →
  split sep (String.append h (String sep rest)) = h :: split sep rest.
Proof.
  induction h as [|c h IH]; intros H.
  - change (String.append EmptyString (String sep rest)) with (String sep rest).
    cbn [split]. by rewrite Ascii.eqb_refl.
  - cbn [Jwt.contains] in H. apply orb_false_elim in H as [Hc Hh].
    change (String.append (String c h) (String sep rest))
      with (String c (String.append h (String sep rest))).
    cbn [split]. by rewrite Hc, (IH Hh).
Qed.

Lemma filter_length_le {A} (f : A → bool) (l : list A) :
  (length (List.filter f l) ≤ length l)%nat.
Proof. induction l as [|x l IH]; [done|]. cbn. destruct (f x); cbn; lia. Qed.

Lemma set_bulkProgress_same (s : State) : set_bulkProgress (bulkProgress s) s = s.
Proof. by destruct s. Qed.

Lemma fireTimers_S (fuel i n : nat) (s : State) (effects : list Effect) :
  fireTimers (S fuel) (s, effects, [AwaitTick i n]) =
  fireTimers fuel ((onTick i n s).1.1, effects ++ (onTick i n s).1.2, (onTick i n s).2).
Proof. cbn [fireTimers]. by destruct (onTick i n s) as [[s' effects'] spawned]. Qed.

(** The loop of the import: [d] more iterations after iteration [i]. *)
Lemma fireTimers_finish (n d : nat) :
  ∀ (i : nat) (s : State) (effects : list Effect),
    (i + d + 1 = n)%nat →
    bulkProgress s = {| current := S i; total := n |} →
    fireTimers (S d) (s, effects, [AwaitTick i n]) =
      ((finish n (set_bulkProgress {| current := n; total := n |} s)).1.1,
       effects ++ replicate d (SetTimeout 100) ++
         [Toast toast_success
            ("Bulk import complete! Processed " ++ pretty n ++ " students.")%string],
       []).
Proof.
  induction d as [|d IH]; intros i s effects Hn Hprog.
  - assert (Hi : S i = n) by lia.
    rewrite <- Hi at 2 3. rewrite <- Hprog, set_bulkProgress_same.
    cbn [fireTimers]. unfold onTick, loopAt.
    replace (S i <? n)%nat with false by (symmetry; apply Nat.ltb_ge; lia).
    reflexivity.
  - rewrite fireTimers_S. unfold onTick, loopAt.
    replace (S i <? n)%nat with true by (symmetry; apply Nat.ltb_lt; lia).
    cbn [fst snd].
    rewrite (IH (S i)) by (done || lia).
    cbn [replicate]. rewrite <- !app_assoc. reflexivity.
Qed.

(** The loop under way: [k] timers after iteration [i] is pending. *)
Lemma fireTimers_during (n k : nat) :
  ∀ (i : nat) (s : State) (effects : list Effect),
    (i + k < n)%nat →
    bulkProgress s = {| current := S i; total := n |} →
    fireTimers k (s, effects, [AwaitTick i n]) =
      (set_bulkProgress {| current := S (i + k); total := n |} s,
       effects ++ replicate k (SetTimeout 100),
       [AwaitTick (i + k) n]).
Proof.
  induction k as [|k IH]; intros i s effects Hn Hprog.
  - rewrite Nat.add_0_r, <- Hprog, set_bulkProgress_same, app_nil_r. reflexivity.
  - rewrite fireTimers_S. unfold onTick, loopAt.
    replace (S i <? n)%nat with true by (symmetry; apply Nat.ltb_lt; lia).
    cbn [fst snd].
    rewrite (IH (S i)) by (done || lia).
    cbn [replicate]. rewrite <- !app_assoc.
    replace (S i + k)%nat with (i + S k)%nat by lia. reflexivity.
Qed.

(** No iteration of the loop enrolls anybody. *)
Lemma fireTimers_no_registration (fuel : nat) :
  ∀ r : Step,
    List.filter isRegistration r.1.2 = [] →
    List.filter isRegistration (fireTimers fuel r).1.2 = [].
Proof.
  induction fuel as [|fuel IH]; intros [[s effects] pending] Hr; [done|].
  cbn [fst snd] in Hr.
  destruct pending as [|[|i n] [|t pending]]; try done.
  rewrite fireTimers_S. unfold onTick, loopAt. destruct (S i <? n)%nat.
  - apply IH. cbn [fst snd]. rewrite List.filter_app, Hr. reflexivity.
  - apply IH. cbn [fst snd finish]. rewrite List.filter_app, Hr. reflexivity.
Qed.

(** An enabled click starts the loop at its first iteration. *)
Lemma clickImport_started (s : State) :
  importEnabled s = true →
  clickImport s =
    (set_bulkProgress {| current := 1; total := length (csvStudents s) |}
       (set_bulkProcessing true s),
     [Toast toast_info "Bulk import started. Processing students..."; SetTimeout 100],
     [AwaitTick 0 (length (csvStudents s))]).
Proof.
  intros Hen. unfold clickImport. rewrite Hen. unfold importEnabled in Hen.
  apply andb_prop in Hen as [Hen Hzip]. apply andb_prop in Hen as [_ Hrows].
  apply negb_true_iff in Hrows. unfold processBulkImport. rewrite Hrows.
  destruct (photosZip s); [|done]. unfold loopAt.
  replace (0 <? length (csvStudents s))%nat with true; [reflexivity|].
  symmetry. apply Nat.ltb_lt. apply Nat.eqb_neq in Hrows. lia.
Qed.

End BulkFacts.

(** X23.  The bulk import enrolls nobody.  When the Start Bulk Import
    button is enabled (rows loaded, an archive chosen, no import running)
    and clicked, with n rows loaded: after k < n timers the import is
    running with progress k+1 of n and the button is disabled; after n
    timers the effects of the whole import are the start toast, n timers
    of 100 ms and the final toast naming n, nothing is pending, the rows
    and the archive are cleared and the button is disabled; and however
    many timers fire, no registration request is made. *)
Theorem bulk_import_registers_nobody
    (s : BulkImport.State) (k : nat)
    (Hen : BulkImport.importEnabled s = true)
    (Hk : (k < length (BulkImport.csvStudents s))%nat) :
  let n := length (BulkImport.csvStudents s) in
  let during := BulkImport.fireTimers k (BulkImport.clickImport s) in
  let done := BulkImport.fireTimers n (BulkImport.clickImport s) in
  (BulkImport.bulkProcessing during.1.1 = true ∧
   BulkImport.bulkProgress during.1.1
     = {| BulkImport.current := S k; BulkImport.total := n |} ∧
   during.2 = [BulkImport.AwaitTick k n] ∧
   BulkImport.clickImport during.1.1 = (during.1.1, [], [])) ∧
  (done.1.2 =
     (BulkImport.Toast Dom.toast_info "Bulk import started. Processing students..."
      :: replicate n (BulkImport.SetTimeout 100)
      ++ [BulkImport.Toast Dom.toast_success
            ("Bulk import complete! Processed " ++ pretty n ++ " students.")])%list ∧
   done.2 = [] ∧
   BulkImport.bulkProcessing done.1.1 = false ∧
   BulkImport.csvStudents done.1.1 = [] ∧
   BulkImport.photosZip done.1.1 = None ∧
   BulkImport.bulkProgress done.1.1
     = {| BulkImport.current := n; BulkImport.total := n |} ∧
   BulkImport.clickImport done.1.1 = (done.1.1, [], [])) ∧
  (∀ fuel,
     List.filter BulkImport.isRegistration
       (BulkImport.fireTimers fuel (BulkImport.clickImport s)).1.2 = []).
Proof.
  intros n during done. pose proof (clickImport_started s Hen) as Hclick. fold n in Hclick.
  assert (Hduring :
    during =
      (BulkImport.set_bulkProgress {| BulkImport.current := S k; BulkImport.total := n |}
         (BulkImport.set_bulkProgress {| BulkImport.current := 1; BulkImport.total := n |}
            (BulkImport.set_bulkProcessing true s)),
       ([BulkImport.Toast Dom.toast_info "Bulk import started. Processing students...";
         BulkImport.SetTimeout 100] ++ replicate k (BulkImport.SetTimeout 100))%list,
       [BulkImport.AwaitTick k n])).
  { subst during. rewrite Hclick. by apply (fireTimers_during n k 0). }
  assert (Hdone :
    done =
      ((BulkImport.finish n
          (BulkImport.set_bulkProgress {| BulkImport.current := n; BulkImport.total := n |}
             (BulkImport.set_bulkProgress {| BulkImport.current := 1; BulkImport.total := n |}
                (BulkImport.set_bulkProcessing true s)))).1.1,
       (BulkImport.Toast Dom.toast_info "Bulk import started. Processing students..."
        :: replicate n (BulkImport.SetTimeout 100)
        ++ [BulkImport.Toast Dom.toast_success
              ("Bulk import complete! Processed " ++ pretty n ++ " students.")])%list,
       [])).
  { subst done. rewrite Hclick. destruct n as [|d] eqn:Hn; [lia|].
    by rewrite (fireTimers_finish (S d) d 0) by (done || lia). }
  split_and!; try (by rewrite Hduring); try (by rewrite Hdone).
  intros fuel. apply fireTimers_no_registration. by rewrite Hclick.
Qed.

Lemma bulk_import_registers_nobody_witness :
  let row := {| BulkImport.sno := "1"; BulkImport.roll_no := "21CS042";
                BulkImport.name := "Asha Rao"; BulkImport.branch := "CSE";
                BulkImport.semester := "5"; BulkImport.gender := "F" |} in
  let s := {| BulkImport.csvStudents := [row; row];
              BulkImport.photosZip := Some "photos.zip";
              BulkImport.bulkProcessing := false;
              BulkImport.bulkProgress := {| BulkImport.current := 0; BulkImport.total := 0 |};
              BulkImport.csvInputValue := Some "students.csv";
              BulkImport.zipInputValue := Some "photos.zip" |} in
  (BulkImport.fireTimers 2 (BulkImport.clickImport s)).1.2 =
    [BulkImport.Toast Dom.toast_info "Bulk import started. Processing students...";
     BulkImport.SetTimeout 100; BulkImport.SetTimeout 100;
     BulkImport.Toast Dom.toast_success "Bulk import complete! Processed 2 students."].
Proof.
  intros row s.
  pose proof (bulk_import_registers_nobody s 1 eq_refl (le_n 2)) as H.
  cbv zeta in H. destruct H as (_ & (Hlog & _) & _). exact Hlog.
Defined.

(** X24.  The two guards of [processBulkImport] are dead code behind the
    button.  The handler shows an error toast exactly when no rows are
    loaded or no archive is chosen, and in both cases the button is
    disabled: a click on the button never shows an error toast, and a
    disabled button does nothing. *)
Theorem import_guards_unreachable (s : BulkImport.State) :
  ((∃ msg, In (BulkImport.Toast Dom.toast_error msg) (BulkImport.processBulkImport s).1.2)
   ↔ (BulkImport.csvStudents s = [] ∨ BulkImport.photosZip s = None)) ∧
  ((BulkImport.csvStudents s = [] ∨ BulkImport.photosZip s = None) →
   BulkImport.importEnabled s = false) ∧
  (BulkImport.importEnabled s = false → BulkImport.clickImport s = (s, [], [])) ∧
  (∀ msg, ¬ In (BulkImport.Toast Dom.toast_error msg) (BulkImport.clickImport s).1.2).
Proof.
  assert (Hstart : BulkImport.importEnabled s = true →
                   ∀ msg, ¬ In (BulkImport.Toast Dom.toast_error msg)
                              (BulkImport.clickImport s).1.2).
  { intros Hen msg. rewrite (clickImport_started s Hen). cbn.
    intros [H|[H|[]]]; discriminate H. }
  split_and!.
  - unfold BulkImport.processBulkImport.
    destruct (BulkImport.csvStudents s) as [|row rows] eqn:Hrows; cbn [length Nat.eqb].
    { split; [by left|]. intros _. eexists. by left. }
    destruct (BulkImport.photosZip s) as [zip|] eqn:Hzip.
    + split; [|by intros [H|H]]. intros [msg Hin]. exfalso.
      unfold BulkImport.loopAt in Hin. cbn in Hin.
      destruct Hin as [H|[H|[]]]; discriminate H.
    + split; [by right|]. intros _. eexists. by left.
  - unfold BulkImport.importEnabled. intros [->| ->].
    + by destruct (BulkImport.bulkProcessing s).
    + by rewrite andb_false_r.
  - unfold BulkImport.clickImport. by intros ->.
  - destruct (BulkImport.importEnabled s) eqn:Hen; [by apply Hstart|].
    intros msg. unfold BulkImport.clickImport. rewrite Hen. by intros [].
Qed.

Section CsvFacts.
Import BulkImport.
Local Open Scope list_scope.

(** The rows of a text whose first line is [h]. *)
Lemma parseCSV_first (h rest : string) :
  Jwt.contains "010" h = false →
  parseCSV (String.append h (String "010" rest)) =
    if notBlank h
    then List.filter hasRollAndName
           (map parseLine (List.filter notBlank (split "010" rest)))
    else parseCSV rest.
Proof.
  intros Hh. unfold parseCSV. rewrite (split_first _ _ _ Hh). cbn [List.filter].
  by destruct (notBlank h).
Qed.

End CsvFacts.

(** X25.  The first non-blank line of a CSV file is dropped unread.  Two
    texts that differ only in their first line (non-blank, without a line
    break) load the same rows; a blank first line is skipped and the line
    after it is dropped instead; a text of one line loads no row. *)
Theorem csv_first_line_is_dropped
    (h1 h2 blank rest : string)
    (Hh1 : Jwt.contains "010" h1 = false)
    (Hh2 : Jwt.contains "010" h2 = false)
    (Hb : Jwt.contains "010" blank = false)
    (Hn1 : BulkImport.notBlank h1 = true)
    (Hn2 : BulkImport.notBlank h2 = true)
    (Hblank : BulkImport.notBlank blank = false) :
  BulkImport.parseCSV (h1 ++ String "010" rest)
    = BulkImport.parseCSV (h2 ++ String "010" rest) ∧
  BulkImport.parseCSV (blank ++ String "010" (h1 ++ String "010" rest))
    = BulkImport.parseCSV (h1 ++ String "010" rest) ∧
  BulkImport.parseCSV h1 = [].
Proof.
  split_and!.
  - by rewrite !parseCSV_first, Hn1, Hn2.
  - by rewrite (parseCSV_first blank), Hblank.
  - unfold BulkImport.parseCSV. rewrite (split_single _ _ Hh1). cbn [List.filter].
    by rewrite Hn1.
Qed.

Lemma csv_first_line_is_dropped_witness :
  BulkImport.parseCSV ("S.no,Roll.No,Student Name" ++ String "010" "1,21CS042,Asha Rao")
  = BulkImport.parseCSV ("7,21CS001,Ben Roy" ++ String "010" "1,21CS042,Asha Rao").
Proof.
  exact (proj1 (csv_first_line_is_dropped
                  "S.no,Roll.No,Student Name" "7,21CS001,Ben Roy" "  " "1,21CS042,Asha Rao"
                  eq_refl eq_refl eq_refl eq_refl eq_refl eq_refl)).
Defined.

(** X26.  What a loaded CSV holds.  Every row loaded has a non-empty roll
    number and a non-empty name; there are fewer rows than lines in the
    text; a line without a comma gives no row; and loading replaces the
    rows held before and reports the number of rows loaded in its
    toast. *)
Theorem csv_rows_have_roll_and_name (text : string) (s : BulkImport.State) :
  Forall (fun r => BulkImport.roll_no r ≠ "" ∧ BulkImport.name r ≠ "")
         (BulkImport.parseCSV text) ∧
  (length (BulkImport.parseCSV text) < length (BulkImport.split "010" text))%nat ∧
  (∀ line, Jwt.contains "," line = false →
           BulkImport.hasRollAndName (BulkImport.parseLine line) = false) ∧
  BulkImport.handleCSVUpload_onLoad text s =
    (BulkImport.set_csvStudents (BulkImport.parseCSV text) s,
     [BulkImport.Toast Dom.toast_success
        ("Loaded " ++ pretty (length (BulkImport.parseCSV text)) ++ " students from CSV")],
     []).
Proof.
  split_and!.
  - apply List.Forall_forall. intros r Hr. unfold BulkImport.parseCSV in Hr.
    apply List.filter_In in Hr as [_ Hr]. unfold BulkImport.hasRollAndName in Hr.
    apply andb_prop in Hr as [Hroll Hname].
    unfold StudentTraining.nonEmpty in *.
    apply negb_true_iff, String.eqb_neq in Hroll.
    apply negb_true_iff, String.eqb_neq in Hname. done.
  - unfold BulkImport.parseCSV.
    pose proof (split_nonempty "010" text) as Hne.
    pose proof (filter_length_le BulkImport.notBlank (BulkImport.split "010" text)) as Hle.
    pose proof (filter_length_le BulkImport.hasRollAndName
                  (map BulkImport.parseLine
                     (drop 1 (List.filter BulkImport.notBlank
                                (BulkImport.split "010" text))))) as Hle'.
    rewrite length_map, length_drop in Hle'.
    destruct (BulkImport.split "010" text); [done|]. cbn [length] in *. lia.
  - intros line Hline. unfold BulkImport.parseLine. rewrite (split_single _ _ Hline).
    unfold BulkImport.hasRollAndName. cbn. done.
  - done.
Qed.

(** ** Subjects of the MarkAttendance screen *)

Section SubjectFacts.
Import Dom MarkAttendance.
Local Open Scope list_scope.

(** Nothing requested, nothing pending, no subject listed, camera off. *)
Lemma silent_step (m : Machine) (e : Event) :
  subjects (ui m) = [] ∧ isCameraActive (ui m) = false ∧ tasks m = [] ∧ log m = [] →
  subjects (ui (step m e)) = [] ∧ isCameraActive (ui (step m e)) = false ∧
  tasks (step m e) = [] ∧ log (step m e) = [].
Proof.
  intros (Hsub & Hoff & Hts & Hlog). destruct e; cbn [step]; rewrite ?Hts; try done.
  - by rewrite Hsub, andb_false_r.
  - by rewrite Hoff, andb_false_r.
  - unfold captureEnabled. by rewrite Hoff, andb_false_r.
  - unfold hasSubject. by rewrite Hsub, andb_false_r.
  - unfold progress. by destruct (videoRef (ui m)).
  - destruct (mounted m); [|done]. unfold unmountCleanup.
    by destruct (streamRef (ui m)).
Qed.

Lemma silent_run (events : list Event) (m : Machine) :
  subjects (ui m) = [] ∧ isCameraActive (ui m) = false ∧ tasks m = [] ∧ log m = [] →
  subjects (ui (run m events)) = [] ∧ isCameraActive (ui (run m events)) = false ∧
  tasks (run m events) = [] ∧ log (run m events) = [].
Proof.
  revert m. induction events as [|e events IH]; intros m Hm; [done|].
  cbn [run fold_left]. apply IH. by apply silent_step.
Qed.

End SubjectFacts.

(** X27.  Without a signed-in user the screen stays silent.  When the
    user id is missing or 0, mounting requests no subjects, and after any
    events no subject is listed, nothing is pending, no effect has been
    requested (no request, no camera access, no toast) and the camera is
    off: Start Camera stays disabled for good. *)
Theorem no_user_no_effects
    (userId : option Z) (canvas : Dom.Canvas) (events : list MarkAttendance.Event)
    (Hnone : MarkAttendance.truthyId userId = None) :
  let m := MarkAttendance.run (MarkAttendance.initial userId canvas) events in
  MarkAttendance.log m = [] ∧
  MarkAttendance.tasks m = [] ∧
  MarkAttendance.subjects (MarkAttendance.ui m) = [] ∧
  MarkAttendance.isCameraActive (MarkAttendance.ui m) = false ∧
  MarkAttendance.step m MarkAttendance.ClickStartCamera = m.
Proof.
  intros m.
  assert (Hinv : MarkAttendance.subjects (MarkAttendance.ui m) = [] ∧
                 MarkAttendance.isCameraActive (MarkAttendance.ui m) = false ∧
                 MarkAttendance.tasks m = [] ∧ MarkAttendance.log m = []).
  { subst m. apply silent_run. unfold MarkAttendance.initial. by rewrite Hnone. }
  destruct Hinv as (Hsub & Hoff & Hts & Hlog). split_and!; try done.
  cbn [MarkAttendance.step]. by rewrite Hsub, andb_false_r.
Qed.

Lemma no_user_no_effects_witness :
  MarkAttendance.log
    (MarkAttendance.run (MarkAttendance.initial (Some 0) SampleScreen.canvas)
       [MarkAttendance.ClickStartCamera; MarkAttendance.ClickCapture;
        MarkAttendance.SubjectsResolved 0 [SampleScreen.cs101]]) = [].
Proof.
  exact (proj1 (no_user_no_effects (Some 0) SampleScreen.canvas
                  [MarkAttendance.ClickStartCamera; MarkAttendance.ClickCapture;
                   MarkAttendance.SubjectsResolved 0 [SampleScreen.cs101]] eq_refl)).
Defined.

(** X28.  A first subject with id 0 blocks every capture.  When the
    subjects arrive, the first of the list is selected whatever its id;
    if that id is 0 the selection counts as none: Capture is not accepted
    and [captureAndProcess] only shows the toast asking for a subject,
    without touching the state, encoding a frame or submitting. *)
Theorem subject_zero_blocks_capture
    (m : MarkAttendance.Machine) (k : nat)
    (first : MarkAttendance.Subject) (others : list MarkAttendance.Subject)
    (Hk : MarkAttendance.tasks m !! k = Some MarkAttendance.AwaitSubjects)
    (Hzero : MarkAttendance.subject_id first = 0) :
  let loaded := MarkAttendance.step m (MarkAttendance.SubjectsResolved k (first :: others)) in
  MarkAttendance.subjects (MarkAttendance.ui loaded) = first :: others ∧
  MarkAttendance.selectedSubject (MarkAttendance.ui loaded) = Some 0 ∧
  MarkAttendance.captureAccepted loaded = false ∧
  MarkAttendance.captureAndProcess (MarkAttendance.ui loaded) =
    (MarkAttendance.ui loaded,
     [MarkAttendance.Toast Dom.toast_error "Select a subject first"], []) ∧
  MarkAttendance.posts (MarkAttendance.step loaded MarkAttendance.ClickCapture)
    = MarkAttendance.posts m ∧
  MarkAttendance.captures (MarkAttendance.step loaded MarkAttendance.ClickCapture)
    = MarkAttendance.captures m.
Proof.
  intros loaded.
  assert (Hsel : MarkAttendance.selectedSubject (MarkAttendance.ui loaded) = Some 0).
  { subst loaded. cbn [MarkAttendance.step]. rewrite Hk.
    unfold MarkAttendance.resume, MarkAttendance.fetchSubjects_resolved.
    cbn [MarkAttendance.ui].
    rewrite (proj1 (proj2 (proj2 (proj2 (proj2 (proj2 (settle_fields _ _))))))).
    cbn. by rewrite Hzero. }
  assert (Hsubs : MarkAttendance.subjects (MarkAttendance.ui loaded) = first :: others).
  { subst loaded. cbn [MarkAttendance.step]. rewrite Hk.
    unfold MarkAttendance.resume, MarkAttendance.fetchSubjects_resolved.
    cbn [MarkAttendance.ui]. destruct (MarkAttendance.mounted m); [|done].
    unfold MarkAttendance.commit. cbn.
    by destruct (MarkAttendance.isCameraActive (MarkAttendance.ui m)),
                (MarkAttendance.videoRef (MarkAttendance.ui m)). }
  assert (Hcap : MarkAttendance.captureAndProcess (MarkAttendance.ui loaded) =
                 (MarkAttendance.ui loaded,
                  [MarkAttendance.Toast Dom.toast_error "Select a subject first"], [])).
  { unfold MarkAttendance.captureAndProcess. by rewrite Hsel. }
  assert (Hlog : MarkAttendance.log loaded = MarkAttendance.log m).
  { subst loaded. cbn [MarkAttendance.step]. rewrite Hk.
    unfold MarkAttendance.resume, MarkAttendance.fetchSubjects_resolved.
    cbn [MarkAttendance.log]. by rewrite app_nil_r. }
  split_and!; try done.
  - unfold MarkAttendance.captureAccepted. rewrite Hsel. cbn. by rewrite andb_false_r.
  - cbn [MarkAttendance.step]. destruct (_ && _); [|by unfold MarkAttendance.posts; rewrite Hlog].
    rewrite Hcap. unfold MarkAttendance.posts, MarkAttendance.extend.
    cbn [MarkAttendance.log]. rewrite count_app, Hlog. cbn. lia.
  - cbn [MarkAttendance.step].
    destruct (_ && _); [|by unfold MarkAttendance.captures; rewrite Hlog].
    rewrite Hcap. unfold MarkAttendance.captures, MarkAttendance.extend.
    cbn [MarkAttendance.log]. rewrite count_app, Hlog. cbn. lia.
Qed.

Lemma subject_zero_blocks_capture_witness :
  let zero := {| MarkAttendance.subject_id := 0; MarkAttendance.subject_name := "Physics";
                 MarkAttendance.subject_class := "PH-1A"; MarkAttendance.total_classes := 12 |} in
  let waiting := {| MarkAttendance.ui := SampleScreen.marking;
                    MarkAttendance.tasks := [MarkAttendance.AwaitSubjects];
                    MarkAttendance.log := []; MarkAttendance.mounted := true |} in
  MarkAttendance.captureAccepted
    (MarkAttendance.step waiting (MarkAttendance.SubjectsResolved 0 [zero])) = false.
Proof.
  intros zero waiting.
  pose proof (subject_zero_blocks_capture waiting 0 zero [] eq_refl eq_refl) as H.
  cbv zeta in H. exact (proj1 (proj2 (proj2 H))).
Defined.
